(** * Meeting-scheduling assistant: conflict resolution and free-slot search

    A shallow embedding of the scheduling core of the repository
    ([calendar_utils.py], [conflict_resolver.py], [output_formatter.py],
    [meeting_assistant.py]) together with the properties established
    about it.

    Conventions of the embedding:
    - Python [str] values are [string]s; [str.lower] is ASCII case
      folding, which is what Python does on ASCII text.
    - A Python [dict] that is iterated ([all_participants_events]) is an
      association list in insertion order; uniqueness of its keys is a
      hypothesis wherever a statement depends on it.
    - [datetime.now()] is an effect: every call consumes one reading of
      a wall clock (monad [Clock.M]).
    - Exceptions are values of [exn]; a computation that may raise
      returns [result]. *)

From Stdlib Require Import ZArith List String Ascii Bool Lia Permutation Sorted.
Import ListNotations.
Local Open Scope string_scope.
Local Open Scope Z_scope.

(* ===================================================================== *)
(** * Python built-ins used by the sources *)
(* ===================================================================== *)

Module PyStr.

(** [c.lower()] on one ASCII character. *)
Definition lower_ascii (c : ascii) : ascii :=
  let n := nat_of_ascii c in
  if (Nat.leb 65 n && Nat.leb n 90)%bool then ascii_of_nat (n + 32) else c.

(** [s.lower()] *)
Fixpoint lower (s : string) : string :=
  match s with
  | EmptyString => EmptyString
  | String c r => String (lower_ascii c) (lower r)
  end.

(** [needle in hay] on strings: substring test. *)
Fixpoint contains (needle hay : string) : bool :=
  if prefix needle hay then true
  else match hay with
       | EmptyString => false
       | String _ r => contains needle r
       end.

(** [any(k in s for k in keywords)] *)
Definition any_in (keywords : list string) (s : string) : bool :=
  existsb (fun k => contains k s) keywords.

(** [s.replace(old, new)] for a non-empty [old]: occurrences are
    replaced left to right without overlap; [skip] counts the
    characters of a matched occurrence still to be dropped. *)
Fixpoint replace_from (old new : string) (skip : nat) (s : string) : string :=
  match s with
  | EmptyString => EmptyString
  | String c r =>
      match skip with
      | S k => replace_from old new k r
      | O =>
          if prefix old s
          then new ++ replace_from old new (Nat.pred (String.length old)) r
          else String c (replace_from old new O r)
      end
  end.

Definition replace (old new s : string) : string := replace_from old new O s.

(** [sep.join(xs)] *)
Definition join (sep : string) (xs : list string) : string := String.concat sep xs.

Definition digit (n : Z) : ascii := ascii_of_nat (48 + Z.to_nat (n mod 10)).

(** Decimal digits of a non-negative number, most significant first. *)
Fixpoint digits (fuel : nat) (n : Z) (acc : string) : string :=
  match fuel with
  | O => acc
  | S f => if n <? 10 then String (digit n) acc
           else digits f (n / 10) (String (digit n) acc)
  end.

(** [str(n)] for an integer. *)
Definition str_of_Z (n : Z) : string :=
  if n <? 0 then String "-" (digits (S (Z.to_nat (Z.log2 (- n)))) (- n) "")
  else digits (S (Z.to_nat (Z.log2 n))) n "".

(** Zero-padded fixed-width decimal, as [%02d] / [%04d] / [%06d]. *)
Fixpoint pad (width : nat) (n : Z) (acc : string) : string :=
  match width with
  | O => acc
  | S w => pad w (n / 10) (String (digit n) acc)
  end.

Definition is_digit (c : ascii) : bool :=
  let n := nat_of_ascii c in (Nat.leb 48 n && Nat.leb n 57)%bool.

(** Value of a string made of decimal digits only. *)
Fixpoint number_from (acc : Z) (s : string) : option Z :=
  match s with
  | EmptyString => Some acc
  | String c r =>
      if is_digit c
      then number_from (10 * acc + Z.of_nat (nat_of_ascii c - 48)) r
      else None
  end.

Definition number (s : string) : option Z :=
  match s with
  | EmptyString => None
  | _ => number_from 0 s
  end.

(** [sorted(xs, key=key)] with string keys: a stable insertion sort;
    the head of the list goes before the elements of the sorted tail
    whose key is not smaller, so equal keys keep their input order. *)
Fixpoint insert_by {A} (key : A -> string) (x : A) (l : list A) : list A :=
  match l with
  | [] => [x]
  | y :: r => if String.leb (key x) (key y) then x :: y :: r
              else y :: insert_by key x r
  end.

Fixpoint sorted_by {A} (key : A -> string) (l : list A) : list A :=
  match l with
  | [] => []
  | x :: r => insert_by key x (sorted_by key r)
  end.

End PyStr.

(** Exceptions raised by the modelled code, with their message (the
    missing key for a [KeyError]). *)
Inductive exn : Type :=
| ValueError (msg : string)
| TypeError (msg : string)
| IndexError (msg : string)
| KeyError (msg : string).

(** [str(e)]; a [KeyError] prints its key between quotes. *)
Definition exn_str (e : exn) : string :=
  match e with
  | ValueError m | TypeError m | IndexError m => m
  | KeyError k => "'" ++ k ++ "'"
  end.

(** Outcome of a computation: a value, an exception, or [Diverged] when
    a loop has not left within the fuel it was given. *)
Inductive result (A : Type) : Type :=
| Ok (a : A)
| Raise (e : exn)
| Diverged.
Arguments Ok {A} a.
Arguments Raise {A} e.
Arguments Diverged {A}.

Definition rbind {A B} (r : result A) (k : A -> result B) : result B :=
  match r with
  | Ok a => k a
  | Raise e => Raise e
  | Diverged => Diverged
  end.

Notation "'try!' x <- r ; k" := (rbind r (fun x => k))
  (at level 10, x name, r at level 100, k at level 200).

(** The part of Python's [datetime] module the sources rely on.  A date
    is kept as its proleptic Gregorian ordinal ([date.toordinal()]), so
    that [weekday] and [timedelta] arithmetic are the ones of CPython;
    the civil date is recovered by [ord2ymd] when a value is printed.
    The year range 1..9999 of CPython ([OverflowError] outside it) is not
    represented. *)
Module PyTime.

Record datetime : Type := mkdt {
  ordinal : Z;
  hour : Z;
  minute : Z;
  second : Z;
  microsecond : Z;
  tzinfo : option Z   (* utcoffset in minutes; [None] for a naive value *)
}.

(** [timedelta], as its exact number of microseconds. *)
Definition timedelta := Z.
Definition td_days (n : Z) : timedelta := n * 86400000000.
Definition td_hours (n : Z) : timedelta := n * 3600000000.
Definition td_minutes (n : Z) : timedelta := n * 60000000.

(** [d.weekday()]: Monday is 0, Sunday is 6. *)
Definition weekday (d : datetime) : Z := (ordinal d + 6) mod 7.

Definition replace_hour (h : Z) (d : datetime) : datetime :=
  mkdt (ordinal d) h (minute d) (second d) (microsecond d) (tzinfo d).
Definition replace_minute (m : Z) (d : datetime) : datetime :=
  mkdt (ordinal d) (hour d) m (second d) (microsecond d) (tzinfo d).
Definition replace_second (s : Z) (d : datetime) : datetime :=
  mkdt (ordinal d) (hour d) (minute d) s (microsecond d) (tzinfo d).
Definition replace_microsecond (u : Z) (d : datetime) : datetime :=
  mkdt (ordinal d) (hour d) (minute d) (second d) u (tzinfo d).

(** Microseconds since the start of ordinal 0, on the value's own
    wall clock. *)
Definition to_us (d : datetime) : Z :=
  (((ordinal d * 24 + hour d) * 60 + minute d) * 60 + second d) * 1000000
  + microsecond d.

Definition of_us (us : Z) (tz : option Z) : datetime :=
  let secs := us / 1000000 in
  let mins := secs / 60 in
  let hrs := mins / 60 in
  mkdt (hrs / 24) (hrs mod 24) (mins mod 60) (secs mod 60) (us mod 1000000) tz.

(** [d + td] *)
Definition add (d : datetime) (td : timedelta) : datetime :=
  of_us (to_us d + td) (tzinfo d).

(** Microseconds on the UTC time line of an aware value. *)
Definition utc_us (d : datetime) (off : Z) : Z := to_us d - off * 60000000.

(** Ordering and subtraction raise [TypeError] when one operand is
    naive and the other aware. *)
Definition diff (a b : datetime) : result timedelta :=
  match tzinfo a, tzinfo b with
  | None, None => Ok (to_us a - to_us b)
  | Some oa, Some ob => Ok (utc_us a oa - utc_us b ob)
  | _, _ => Raise (TypeError "can't subtract offset-naive and offset-aware datetimes")
  end.

Definition order (a b : datetime) : result comparison :=
  match tzinfo a, tzinfo b with
  | None, None => Ok (to_us a ?= to_us b)
  | Some oa, Some ob => Ok (utc_us a oa ?= utc_us b ob)
  | _, _ => Raise (TypeError "can't compare offset-naive and offset-aware datetimes")
  end.

Definition gt (a b : datetime) : result bool :=
  try! c <- order a b ; Ok (match c with Gt => true | _ => false end).
Definition le (a b : datetime) : result bool :=
  try! c <- order a b ; Ok (match c with Gt => false | _ => true end).

(** Calendar tables of CPython's [datetime]. *)
Definition is_leap (y : Z) : bool :=
  ((y mod 4 =? 0) && (negb (y mod 100 =? 0) || (y mod 400 =? 0)))%bool.

Definition days_before_year (year : Z) : Z :=
  let y := year - 1 in y * 365 + y / 4 - y / 100 + y / 400.

Definition days_in_month (year month : Z) : Z :=
  if (month =? 2) then (if is_leap year then 29 else 28)
  else if (month =? 4) || (month =? 6) || (month =? 9) || (month =? 11) then 30
  else 31.

Definition days_before_month_table (month : Z) : Z :=
  nth (Z.to_nat month) [-1; 0; 31; 59; 90; 120; 151; 181; 212; 243; 273; 304; 334] 0.

Definition days_before_month (year month : Z) : Z :=
  days_before_month_table month
  + (if (2 <? month) && is_leap year then 1 else 0).

Definition ymd2ord (year month day : Z) : Z :=
  days_before_year year + days_before_month year month + day.

Definition ord2ymd (n0 : Z) : Z * Z * Z :=
  let n := n0 - 1 in
  let n400 := n / 146097 in
  let n := n mod 146097 in
  let n100 := n / 36524 in
  let n := n mod 36524 in
  let n4 := n / 1461 in
  let n := n mod 1461 in
  let n1 := n / 365 in
  let n := n mod 365 in
  let year := n400 * 400 + 1 + n100 * 100 + n4 * 4 + n1 in
  if (n1 =? 4) || (n100 =? 4) then (year - 1, 12, 31)
  else
    let leapyear := (n1 =? 3) && (negb (n4 =? 24) || (n100 =? 3)) in
    let month := Z.shiftr (n + 50) 5 in
    let preceding :=
      days_before_month_table month + (if (2 <? month) && leapyear then 1 else 0) in
    if n <? preceding
    then
      let month' := month - 1 in
      let dim := nth (Z.to_nat month') [-1; 31; 28; 31; 30; 31; 30; 31; 31; 30; 31; 30; 31] 0 in
      let preceding' :=
        preceding - (dim + (if (month' =? 2) && leapyear then 1 else 0)) in
      (year, month', n - preceding' + 1)
    else (year, month, n - preceding + 1).

(** [d.strftime('%Y-%m-%dT%H:%M:%S' + suffix)] *)
Definition strftime (d : datetime) (suffix : string) : string :=
  let '(y, m, dd) := ord2ymd (ordinal d) in
  PyStr.pad 4 y
    (String "-" (PyStr.pad 2 m
    (String "-" (PyStr.pad 2 dd
    (String "T" (PyStr.pad 2 (hour d)
    (String ":" (PyStr.pad 2 (minute d)
    (String ":" (PyStr.pad 2 (second d) suffix)))))))))).

Definition offset_str (tz : option Z) : string :=
  match tz with
  | None => ""
  | Some off =>
      let a := Z.abs off in
      String (if off <? 0 then "-"%char else "+"%char)
        (PyStr.pad 2 (a / 60) (String ":" (PyStr.pad 2 (a mod 60) "")))
  end.

(** [d.isoformat()] *)
Definition isoformat (d : datetime) : string :=
  strftime d
    ((if microsecond d =? 0 then ""
      else String "." (PyStr.pad 6 (microsecond d) ""))
     ++ offset_str (tzinfo d)).

(** A field of exactly [len] decimal digits starting at position [pos]. *)
Definition field (pos len : nat) (s : string) : option Z :=
  let piece := substring pos len s in
  if Nat.eqb (String.length piece) len then PyStr.number piece else None.

Definition char_at (pos : nat) (s : string) : option ascii := String.get pos s.

Definition is_char (c : ascii) (o : option ascii) : bool :=
  match o with
  | Some c' => Ascii.eqb c c'
  | None => false
  end.

Definition obind {A B} (o : option A) (k : A -> option B) : option B :=
  match o with
  | Some a => k a
  | None => None
  end.

(** ["YYYY-MM-DD"] to an ordinal. *)
Definition parse_date (s : string) : option Z :=
  obind (field 0 4 s) (fun y =>
  obind (field 5 2 s) (fun m =>
  obind (field 8 2 s) (fun d =>
    if is_char "-" (char_at 4 s) && is_char "-" (char_at 7 s)
       && (1 <=? y) && (1 <=? m) && (m <=? 12)
       && (1 <=? d) && (d <=? days_in_month y m)
    then Some (ymd2ord y m d) else None))).

(** ["+HH:MM"] or ["-HH:MM"] to an offset in minutes. *)
Definition parse_offset (s : string) : option Z :=
  obind (field 1 2 s) (fun h =>
  obind (field 4 2 s) (fun m =>
    if Nat.eqb (String.length s) 6 && is_char ":" (char_at 3 s)
       && (h <? 24) && (m <? 60)
    then if is_char "+" (char_at 0 s) then Some (h * 60 + m)
         else if is_char "-" (char_at 0 s) then Some (- (h * 60 + m))
         else None
    else None)).

(** ["HH:MM"], ["HH:MM:SS"], ["HH:MM:SS.fff"] or ["HH:MM:SS.ffffff"]
    to hour, minute, second, microsecond. *)
Definition parse_clock (s : string) : option (Z * Z * Z * Z) :=
  let n := String.length s in
  obind (field 0 2 s) (fun h =>
  obind (field 3 2 s) (fun m =>
    if negb (is_char ":" (char_at 2 s) && (h <? 24) && (m <? 60)) then None
    else if Nat.eqb n 5 then Some (h, m, 0, 0)
    else
      obind (field 6 2 s) (fun sec =>
        if negb (is_char ":" (char_at 5 s) && (sec <? 60)) then None
        else if Nat.eqb n 8 then Some (h, m, sec, 0)
        else if negb (is_char "." (char_at 8 s)) then None
        else if Nat.eqb n 12
             then obind (field 9 3 s) (fun ms => Some (h, m, sec, ms * 1000))
        else if Nat.eqb n 15
             then obind (field 9 6 s) (fun us => Some (h, m, sec, us))
        else None))).

(** Position of the sign that starts a UTC offset, if any. *)
Fixpoint sign_index (s : string) : option nat :=
  match s with
  | EmptyString => None
  | String c r =>
      if Ascii.eqb c "+" || Ascii.eqb c "-" then Some O
      else option_map S (sign_index r)
  end.

(** A model of [datetime.fromisoformat] on the strings that
    [isoformat()] and the calendar service emit: a date, optionally
    followed by one separator character, a clock time and a UTC
    offset.  Everything else is rejected ([None] stands for the
    [ValueError] of CPython). *)
Definition parse_iso (s : string) : option datetime :=
  obind (parse_date (substring 0 10 s)) (fun o =>
    if Nat.eqb (String.length s) 10 then Some (mkdt o 0 0 0 0 None)
    else if Nat.leb (String.length s) 11 then None
    else
      let t := substring 11 (String.length s - 11) s in
      match sign_index t with
      | None =>
          obind (parse_clock t) (fun '(h, m, sec, us) =>
            Some (mkdt o h m sec us None))
      | Some i =>
          obind (parse_clock (substring 0 i t)) (fun '(h, m, sec, us) =>
          obind (parse_offset (substring i (String.length t - i) t)) (fun off =>
            Some (mkdt o h m sec us (Some off))))
      end).

End PyTime.

(** The wall clock.  The [k]-th call of [datetime.now()] made during a
    run returns the [k]-th reading of the clock, a local time counted in
    microseconds; a computation carries the number of readings consumed
    so far. *)
Module Clock.

Definition wall : Type := nat -> Z.

Definition M (A : Type) : Type := wall -> nat -> result A * nat.

Definition ret {A} (a : A) : M A := fun _ n => (Ok a, n).

Definition bind {A B} (c : M A) (k : A -> M B) : M B :=
  fun w n =>
    match c w n with
    | (Ok a, n') => k a w n'
    | (Raise e, n') => (Raise e, n')
    | (Diverged, n') => (Diverged, n')
    end.

(** [datetime.now()] *)
Definition now : M PyTime.datetime :=
  fun w n => (Ok (PyTime.of_us (w n) None), S n).

Definition raise {A} (e : exn) : M A := fun _ n => (Raise e, n).

Definition spin {A} : M A := fun _ n => (Diverged, n).

Definition lift {A} (r : result A) : M A := fun _ n => (r, n).

(** [try: c except Exception as e: h e] *)
Definition catch {A} (c : M A) (h : exn -> M A) : M A :=
  fun w n =>
    match c w n with
    | (Raise e, n') => h e w n'
    | other => other
    end.

(** Value and number of clock readings of a run started on a fresh
    clock. *)
Definition value {A} (c : M A) (w : wall) : result A := fst (c w O).
Definition reads {A} (c : M A) (w : wall) : nat := snd (c w O).

End Clock.

Notation "x <- c ;; k" := (Clock.bind c (fun x => k))
  (at level 61, c at next level, right associativity).

(* ===================================================================== *)
(** * Data exchanged between the components *)
(* ===================================================================== *)

(** A calendar event, as built by [retrive_calendar_events] and by
    [_build_attendees_events]. *)
Record event : Type := mkevent {
  StartTime : string;
  EndTime : string;
  NumAttendees : nat;
  Attendees : list string;
  Summary : option string
}.

(** A Python [dict] with string keys, in insertion order. *)
Definition dict (V : Type) : Type := list (string * V).

Fixpoint dict_get {V} (d : dict V) (k : string) : option V :=
  match d with
  | [] => None
  | (k', v) :: r => if String.eqb k k' then Some v else dict_get r k
  end.

(** [d[k] = v]: an existing key keeps its position. *)
Fixpoint dict_set {V} (d : dict V) (k : string) (v : V) : dict V :=
  match d with
  | [] => [(k, v)]
  | (k', v') :: r => if String.eqb k k' then (k', v) :: r
                     else (k', v') :: dict_set r k v
  end.

Definition keys {V} (d : dict V) : list string := map fst d.

(** [x in xs] on a list of strings. *)
Definition mem (x : string) (xs : list string) : bool :=
  existsb (String.eqb x) xs.

(** The incoming JSON request; a field is [None] when its key is
    absent. *)
Record attendee : Type := mkattendee { email : string }.

Record request : Type := mkrequest {
  req_Request_id : option string;
  req_Datetime : option string;
  req_Location : option string;
  req_From : option string;
  req_Attendees : option (list attendee);
  req_Subject : option string;
  req_EmailContent : option string
}.

Definition get {A} (field : option A) (default : A) : A :=
  match field with
  | Some a => a
  | None => default
  end.

(** The parsed request built by [_manual_parse_request] and
    [_parse_meeting_request]. *)
Record parsed_request : Type := mkparsed {
  participants : list string;
  pr_meeting_duration : Z;
  time_constraints : string;
  subject : string;
  start_time : option string;
  pr_From : string
}.

(* ===================================================================== *)
(** * calendar_utils.py *)
(* ===================================================================== *)

Module CalendarUtils.
Import PyTime.

Definition is_weekend (date_obj : datetime) : bool := 5 <=? weekday date_obj.

Definition weekend_keywords : list string :=
  ["saturday"; "sunday"; "weekend"; "sat"; "sun"].

Definition check_weekend_constraint (time_constraint : string) : bool :=
  let constraint_lower := PyStr.lower time_constraint in
  PyStr.any_in weekend_keywords constraint_lower.

Definition midnight (d : datetime) : datetime :=
  replace_microsecond 0 (replace_second 0 (replace_minute 0 (replace_hour 0 d))).

Definition last_second (d : datetime) : datetime :=
  replace_microsecond 0 (replace_second 59 (replace_minute 59 (replace_hour 23 d))).

(** [days_ahead = target - now.weekday(); if days_ahead <= 0: days_ahead += 7] *)
Definition days_ahead (target : Z) (now : datetime) : Z :=
  let d := target - weekday now in
  if d <=? 0 then d + 7 else d.

Definition iso (d : datetime) : string := strftime d "+05:30".

(** The full-day window of the next occurrence of weekday [target]. *)
Definition day_window (target : Z) (now : datetime) : string * string :=
  let day := add now (td_days (days_ahead target now)) in
  (iso (midnight day), iso (last_second day)).

(** [get_date_range_from_constraint]; [None] stands for the pair
    [(None, None)] returned for a weekend, and [Some] for a pair of
    ISO strings. *)
Definition get_date_range_from_constraint
    (time_constraint : string) (duration_mins : Z)
  : Clock.M (option (string * string)) :=
  now <- Clock.now ;;
  let start_time := midnight now in
  let end_time := add start_time (td_days 7) in
  let constraint_lower := PyStr.lower time_constraint in
  if check_weekend_constraint time_constraint then Clock.ret None
  else if PyStr.contains "tomorrow" constraint_lower then
    let tomorrow := add now (td_days 1) in
    if is_weekend tomorrow then Clock.ret None
    else Clock.ret (Some (iso (midnight tomorrow), iso (last_second tomorrow)))
  else if PyStr.contains "next week" constraint_lower then
    let next_week := add now (td_days 7) in
    let start_time := midnight next_week in
    let end_time := add start_time (td_days 7) in
    Clock.ret (Some (iso start_time, iso end_time))
  else if PyStr.contains "saturday" constraint_lower
          || PyStr.contains "sunday" constraint_lower then
    Clock.ret None
  else if PyStr.contains "thursday" constraint_lower then
    Clock.ret (Some (day_window 3 now))
  else if PyStr.contains "monday" constraint_lower then
    Clock.ret (Some (day_window 0 now))
  else if PyStr.contains "tuesday" constraint_lower then
    Clock.ret (Some (day_window 1 now))
  else if PyStr.contains "wednesday" constraint_lower then
    Clock.ret (Some (day_window 2 now))
  else if PyStr.contains "friday" constraint_lower then
    Clock.ret (Some (day_window 4 now))
  else Clock.ret (Some (iso start_time, iso end_time)).

(** A free slot: the dictionary with keys ['start'] and ['end']. *)
Record slot : Type := mkslot { slot_start : string; slot_end : string }.

(** The body of a [try] block that appends to [free_slots]: the list
    built so far survives an exception. *)
Definition Acc (A : Type) : Type := list slot -> list slot * result A.

Definition acc_ret {A} (a : A) : Acc A := fun fs => (fs, Ok a).

Definition acc_bind {A B} (c : Acc A) (k : A -> Acc B) : Acc B :=
  fun fs =>
    match c fs with
    | (fs', Ok a) => k a fs'
    | (fs', Raise e) => (fs', Raise e)
    | (fs', Diverged) => (fs', Diverged)
    end.

Definition acc_lift {A} (r : result A) : Acc A := fun fs => (fs, r).

(** [free_slots.append(s)] *)
Definition append (s : slot) : Acc unit := fun fs => ((fs ++ [s])%list, Ok tt).

Definition when (b : bool) (c : Acc unit) : Acc unit :=
  if b then c else acc_ret tt.

Section FreeSlots.

(** [datetime.fromisoformat]; [None] is its [ValueError]. *)
Variable fromisoformat : string -> option datetime.

(** [datetime.fromisoformat(s.replace('Z', '+00:00'))] *)
Definition parse_time (s : string) : result datetime :=
  match fromisoformat (PyStr.replace "Z" "+00:00" s) with
  | Some d => Ok d
  | None => Raise (ValueError "Invalid isoformat string")
  end.

(** [check_time_conflict]: any exception makes the answer [False]. *)
Definition check_time_conflict
    (event_start event_end proposed_start proposed_end : string) : bool :=
  match (try! evt_start <- parse_time event_start ;
         try! evt_end <- parse_time event_end ;
         try! prop_start <- parse_time proposed_start ;
         try! prop_end <- parse_time proposed_end ;
         try! ends_before <- le evt_end prop_start ;
         if ends_before then Ok false
         else try! starts_after <- le prop_end evt_start ;
              Ok (negb starts_after))
  with
  | Ok b => b
  | _ => false
  end.

Definition slot_from (t : datetime) (duration_mins : Z) : slot :=
  mkslot (isoformat t) (isoformat (add t (td_minutes duration_mins))).

(** The check before the first event. *)
Definition before_first (sorted_events : list event)
    (work_start : datetime) (duration_mins : Z) : Acc unit :=
  acc_bind
    (match sorted_events with
     | [] => acc_ret true
     | first :: _ =>
         acc_lift (try! s <- parse_time (StartTime first) ;
                   gt s (add work_start (td_minutes duration_mins)))
     end)
    (fun emit => when emit (append (slot_from work_start duration_mins))).

(** [for i in range(len(sorted_events) - 1)]; the gap in minutes is
    compared exactly (the source divides a float by 60). *)
Fixpoint between (sorted_events : list event) (duration_mins : Z) : Acc unit :=
  match sorted_events with
  | e :: (next :: _) as rest =>
      acc_bind (acc_lift (parse_time (EndTime e))) (fun event_end =>
      acc_bind (acc_lift (parse_time (StartTime next))) (fun next_event_start =>
      acc_bind (acc_lift (diff next_event_start event_end)) (fun gap =>
      acc_bind (when (td_minutes duration_mins <=? gap)
                     (append (slot_from event_end duration_mins))) (fun _ =>
      between rest duration_mins))))
  | _ => acc_ret tt
  end.

(** The check after the last event. *)
Definition after_last (sorted_events : list event)
    (work_end : datetime) (duration_mins : Z) : Acc unit :=
  match sorted_events with
  | [] => acc_ret tt
  | e0 :: r =>
      acc_bind (acc_lift (parse_time (EndTime (last r e0)))) (fun last_event_end =>
      acc_bind (acc_lift (le (add last_event_end (td_minutes duration_mins)) work_end))
        (fun fits => when fits (append (slot_from last_event_end duration_mins))))
  end.

Definition find_free_slots (events : list event) (duration_mins : Z)
    (start_time end_time : string) : list slot :=
  fst (acc_bind (acc_lift (parse_time start_time)) (fun day_start =>
       acc_bind (acc_lift (parse_time end_time)) (fun day_end =>
       let work_start := replace_minute 0 (replace_hour 9 day_start) in
       let work_end := replace_minute 0 (replace_hour 18 day_start) in
       let sorted_events := PyStr.sorted_by StartTime events in
       acc_bind (before_first sorted_events work_start duration_mins) (fun _ =>
       acc_bind (between sorted_events duration_mins) (fun _ =>
       after_last sorted_events work_end duration_mins)))) []).

End FreeSlots.

End CalendarUtils.

(* ===================================================================== *)
(** * conflict_resolver.py *)
(* ===================================================================== *)

Module ConflictResolver.
Import PyTime CalendarUtils.

(** The importance levels ['high'], ['medium'], ['low']. *)
Inductive level : Type := high | medium | low.

Definition level_eqb (a b : level) : bool :=
  match a, b with
  | high, high | medium, medium | low, low => true
  | _, _ => false
  end.

(** An entry of the list built by [_analyze_meeting_importance]. *)
Record rated : Type := mkrated {
  rated_event : event;
  importance : level;
  rated_summary : string
}.

(** The dictionary returned by [_analyze_conflicts]. *)
Record conflict_analysis : Type := mkanalysis {
  all_free : bool;
  some_busy : bool;
  all_busy : bool;
  available_participants : list string;
  busy_participants : list string;
  conflict_details : dict (list rated)
}.

Inductive action_t : Type :=
| schedule_all
| schedule_partial
| reschedule_tomorrow
| schedule_organizer_first
| schedule_all_with_reschedule.

(** The string stored under ['action']. *)
Definition action_name (a : action_t) : string :=
  match a with
  | schedule_all => "schedule_all"
  | schedule_partial => "schedule_partial"
  | reschedule_tomorrow => "reschedule_tomorrow"
  | schedule_organizer_first => "schedule_organizer_first"
  | schedule_all_with_reschedule => "schedule_all_with_reschedule"
  end.

Record follow_up : Type := mkfollow {
  fu_participants : list string;
  fu_time : string;
  fu_reason : string
}.

(** The resolution dictionary; the last three keys are optional. *)
Record resolution : Type := mkresolution {
  action : action_t;
  recommended_time : string;
  participants_to_include : list string;
  reason : string;
  meeting_duration : Z;
  follow_up_needed : option (list string);
  follow_up_meetings : option (list follow_up);
  reschedule_needed : option string
}.

Definition importance_keywords : list (level * list string) :=
  [ (high, ["client"; "customer"; "urgent"; "critical"; "ceo"; "board"; "emergency"]);
    (medium, ["team"; "project"; "review"; "planning"; "discussion"]);
    (low, ["lunch"; "coffee"; "break"; "personal"; "training"]) ].

(** The inner loop over the keywords of one level: the first keyword
    found in [summary] sets the importance and leaves the loop. *)
Fixpoint scan_keywords (lv : level) (keywords : list string) (summary : string)
    (current : level) : level :=
  match keywords with
  | [] => current
  | keyword :: rest =>
      if PyStr.contains keyword summary then lv
      else scan_keywords lv rest summary current
  end.

(** The outer loop over the levels, left when the importance is no
    longer ['medium']. *)
Fixpoint scan_levels (table : list (level * list string)) (summary : string)
    (current : level) : level :=
  match table with
  | [] => current
  | (lv, keywords) :: rest =>
      let current' := scan_keywords lv keywords summary current in
      if negb (level_eqb current' medium) then current'
      else scan_levels rest summary current'
  end.

(** Importance given to one event. *)
Definition classify (e : event) : level :=
  let summary := PyStr.lower (get (Summary e) "") in
  scan_levels importance_keywords summary medium.

Definition _analyze_meeting_importance (events : list event) : list rated :=
  map (fun e => mkrated e (classify e) (get (Summary e) "")) events.

(** The loop of [_analyze_conflicts] over [all_participants_events.items()],
    carrying the two lists and the details dictionary. *)
Fixpoint split_participants (items : dict (list event))
    (available busy : list string) (details : dict (list rated))
  : list string * list string * dict (list rated) :=
  match items with
  | [] => (available, busy, details)
  | (participant, events) :: rest =>
      match events with
      | [] => split_participants rest (available ++ [participant])%list busy details
      | _ :: _ =>
          split_participants rest available (busy ++ [participant])%list
            (dict_set details participant (_analyze_meeting_importance events))
      end
  end.

Definition _analyze_conflicts (all_participants_events : dict (list event))
    (meeting_duration : Z) : conflict_analysis :=
  let '(available, busy, details) :=
    split_participants all_participants_events [] [] [] in
  let nb := List.length busy in
  let n := List.length all_participants_events in
  mkanalysis (Nat.eqb nb 0)
             (Nat.ltb 0 nb && Nat.ltb nb n)
             (Nat.eqb nb n)
             available busy details.

(** The five [_get_next_<weekday>] methods: each reads the clock. *)
Definition get_next (target : Z) : Clock.M datetime :=
  today <- Clock.now ;;
  Clock.ret (add today (td_days (days_ahead target today))).

Definition _get_next_monday : Clock.M datetime := get_next 0.
Definition _get_next_tuesday : Clock.M datetime := get_next 1.
Definition _get_next_wednesday : Clock.M datetime := get_next 2.
Definition _get_next_thursday : Clock.M datetime := get_next 3.
Definition _get_next_friday : Clock.M datetime := get_next 4.

Definition at_time (h m : Z) (d : datetime) : string :=
  iso (replace_minute m (replace_hour h d)).

(** [(7 - d.weekday()) % 7], made 7 when it is 0. *)
Definition days_to_monday (d : datetime) : Z :=
  let k := (7 - weekday d) mod 7 in
  if k =? 0 then 7 else k.

Definition outside_business (next_slot : datetime) : bool :=
  is_weekend next_slot || (hour next_slot <? 9) || (17 <? hour next_slot).

(** The [while] loop of [_find_optimal_time]; [None] when the fuel is
    used up before the loop condition fails. *)
Fixpoint business_slot (fuel : nat) (next_slot : datetime) : option datetime :=
  if outside_business next_slot then
    match fuel with
    | O => None
    | S fuel' =>
        if is_weekend next_slot then
          business_slot fuel'
            (replace_hour 9 (add next_slot (td_days (days_to_monday next_slot))))
        else if hour next_slot <? 9 then
          business_slot fuel' (replace_hour 9 next_slot)
        else
          business_slot fuel' (replace_hour 9 (add next_slot (td_days 1)))
    end
  else Some next_slot.

(** Rounds of the loop allowed; [business_slot_total] shows that the
    loop has always left by then. *)
Definition loop_fuel : nat := 3.

Definition _find_optimal_time (pr : parsed_request) (meeting_duration : Z)
  : Clock.M string :=
  let constraint := time_constraints pr in
  let lc := PyStr.lower constraint in
  if PyStr.contains "thursday" lc then
    base_date <- _get_next_thursday ;;
    base_date <- (if is_weekend base_date then _get_next_monday
                  else Clock.ret base_date) ;;
    Clock.ret (at_time 10 30 base_date)
  else if PyStr.contains "monday" lc then
    base_date <- _get_next_monday ;;
    if PyStr.contains "9:00" constraint then Clock.ret (at_time 9 0 base_date)
    else Clock.ret (at_time 10 0 base_date)
  else if PyStr.contains "tuesday" lc then
    base_date <- _get_next_tuesday ;;
    if PyStr.contains "11:00" constraint then Clock.ret (at_time 11 0 base_date)
    else Clock.ret (at_time 10 0 base_date)
  else if PyStr.contains "wednesday" lc then
    base_date <- _get_next_wednesday ;;
    if PyStr.contains "10:00" constraint then Clock.ret (at_time 10 0 base_date)
    else Clock.ret (at_time 10 0 base_date)
  else if PyStr.contains "friday" lc then
    base_date <- _get_next_friday ;;
    Clock.ret (at_time 10 0 base_date)
  else
    now <- Clock.now ;;
    let next_slot := add now (td_hours 1) in
    let next_slot :=
      replace_microsecond 0 (replace_second 0 (replace_minute 0 next_slot)) in
    match business_slot loop_fuel next_slot with
    | Some next_slot => Clock.ret (iso next_slot)
    | None => Clock.spin
    end.

(** The datetime whose text [_get_tomorrow_time] returns. *)
Definition tomorrow_slot (now : datetime) : datetime :=
  let tomorrow := add now (td_days 1) in
  let tomorrow :=
    if is_weekend tomorrow
    then add tomorrow (td_days (days_to_monday tomorrow))
    else tomorrow in
  replace_microsecond 0 (replace_second 0 (replace_minute 0 (replace_hour 10 tomorrow))).

Definition _get_tomorrow_time (meeting_duration : Z) : Clock.M string :=
  now <- Clock.now ;;
  Clock.ret (iso (tomorrow_slot now)).

Definition _find_alternative_time (meeting_duration : Z) : Clock.M string :=
  now <- Clock.now ;;
  let alternative := add now (td_hours 2) in
  let alternative :=
    replace_microsecond 0 (replace_second 0 (replace_minute 0 alternative)) in
  Clock.ret (iso alternative).

Definition _schedule_all_participants (pr : parsed_request) (meeting_duration : Z)
  : Clock.M resolution :=
  optimal_time <- _find_optimal_time pr meeting_duration ;;
  Clock.ret (mkresolution schedule_all optimal_time (participants pr)
    "All participants are available at the requested time"
    meeting_duration None None None).

Definition _handle_all_busy (pr : parsed_request) (meeting_duration : Z)
  : Clock.M resolution :=
  tomorrow_time <- _get_tomorrow_time meeting_duration ;;
  Clock.ret (mkresolution reschedule_tomorrow tomorrow_time (participants pr)
    "All participants are busy with important meetings. Rescheduling to tomorrow."
    meeting_duration None None None).

Definition _reschedule_for_all (pr : parsed_request) (meeting_duration : Z)
  : Clock.M resolution :=
  tomorrow_time <- _get_tomorrow_time meeting_duration ;;
  Clock.ret (mkresolution reschedule_tomorrow tomorrow_time (participants pr)
    "All participants are required but some are busy. Rescheduling to tomorrow."
    meeting_duration None None None).

Definition _schedule_with_reschedule (pr : parsed_request) (busy_person : string)
    (meeting_duration : Z) : Clock.M resolution :=
  optimal_time <- _find_optimal_time pr meeting_duration ;;
  Clock.ret (mkresolution schedule_all_with_reschedule optimal_time (participants pr)
    ("Rescheduling " ++ busy_person
     ++ "'s low-priority meeting to accommodate this important meeting.")
    meeting_duration None None (Some busy_person)).

(** [xs[0]] *)
Definition first {A} (xs : list A) : result A :=
  match xs with
  | x :: _ => Ok x
  | [] => Raise (IndexError "list index out of range")
  end.

Definition _schedule_partial_meeting (pr : parsed_request)
    (available busy : list string) (meeting_duration : Z) : Clock.M resolution :=
  optimal_time <- _find_optimal_time pr meeting_duration ;;
  let subject := PyStr.lower (subject pr) in
  if PyStr.contains "feedback" subject && Nat.leb 1 (List.length available) then
    Clock.ret (mkresolution schedule_partial optimal_time available
      ("Meeting can proceed with " ++ PyStr.join ", " available
       ++ ". Will update " ++ PyStr.join ", " busy ++ " separately.")
      meeting_duration (Some busy) None None)
  else
    (* the default argument of [get] is evaluated although ['From'] is set *)
    _ <- Clock.lift (first (participants pr)) ;;
    let organizer := pr_From pr in
    alternative <- _find_alternative_time meeting_duration ;;
    Clock.ret (mkresolution schedule_organizer_first optimal_time
      (organizer :: available)
      ("Scheduling with organizer and available participants first. "
       ++ "Will arrange separate time with " ++ PyStr.join ", " busy ++ ".")
      meeting_duration None
      (Some [mkfollow (organizer :: busy) alternative
               "Follow-up meeting with previously busy participants"])
      None).

Definition critical_keywords : list string := ["all"; "team"; "everyone"; "together"].

(** [d[k]] *)
Definition lookup {V} (d : dict V) (k : string) : result V :=
  match dict_get d k with
  | Some v => Ok v
  | None => Raise (KeyError k)
  end.

Definition has_low (busy_events : list rated) : bool :=
  existsb (fun ev => level_eqb (importance ev) low) busy_events.

Definition _handle_partial_conflicts (pr : parsed_request)
    (all_participants_events : dict (list event)) (ca : conflict_analysis)
    (meeting_duration : Z) : Clock.M resolution :=
  let subject := PyStr.lower (subject pr) in
  let requires_all := PyStr.any_in critical_keywords subject in
  if requires_all then _reschedule_for_all pr meeting_duration
  else
    busy_person <- Clock.lift (first (busy_participants ca)) ;;
    busy_events <- Clock.lift (lookup (conflict_details ca) busy_person) ;;
    let has_low_priority_conflict := has_low busy_events in
    if has_low_priority_conflict
    then _schedule_with_reschedule pr busy_person meeting_duration
    else _schedule_partial_meeting pr (available_participants ca)
           (busy_participants ca) meeting_duration.

Definition resolve_scheduling_conflicts (pr : parsed_request)
    (all_participants_events : dict (list event)) (meeting_duration : Z)
  : Clock.M resolution :=
  let ca := _analyze_conflicts all_participants_events meeting_duration in
  if all_free ca then _schedule_all_participants pr meeting_duration
  else if some_busy ca then
    _handle_partial_conflicts pr all_participants_events ca meeting_duration
  else _handle_all_busy pr meeting_duration.

End ConflictResolver.

(* ===================================================================== *)
(** * output_formatter.py *)
(* ===================================================================== *)

Module OutputFormatter.
Import PyTime ConflictResolver.

(** An entry of the ['Attendees'] list of a scheduling response. *)
Record attendee_events : Type := mkattendee_events {
  ae_email : string;
  ae_events : list event
}.

(** ['Attendees'] holds the request's own list in a rejection or
    failure response and the per-participant timelines otherwise. *)
Inductive attendees_out : Type :=
| RequestAttendees (l : list attendee)
| Timelines (l : list attendee_events).

(** The three shapes of ['MetaData']. *)
Inductive metadata : Type :=
| MetaResolution (resolution_action resolution_reason scheduling_strategy : string)
    (md_follow_up_meetings : option (list follow_up))
    (md_follow_up_needed : option (list string))
    (md_reschedule_needed : option string)
| MetaRejected (status reason message : string)
| MetaFailed (error status : string).

Record response : Type := mkresponse {
  Request_id : string;
  Datetime : string;
  Location : string;
  From_ : string;
  Attendees_ : attendees_out;
  Subject : string;
  EmailContent : string;
  EventStart : string;
  EventEnd : string;
  Duration_mins : string;
  MetaData : metadata
}.

Definition _get_scheduling_strategy (r : resolution) : string :=
  match action r with
  | schedule_all => "All participants available - direct scheduling"
  | schedule_partial => "Partial scheduling with available participants"
  | reschedule_tomorrow => "All busy - rescheduled to next day"
  | schedule_organizer_first =>
      "Organizer and available participants first, follow-up with busy participants"
  | schedule_all_with_reschedule =>
      "All participants scheduled with low-priority meeting rescheduled"
  end.

Definition _build_metadata (r : resolution) : metadata :=
  MetaResolution (action_name (action r)) (reason r) (_get_scheduling_strategy r)
    (follow_up_meetings r) (follow_up_needed r) (reschedule_needed r).

Section Formatter.

(** [datetime.fromisoformat]; [None] is its [ValueError]. *)
Variable fromisoformat : string -> option datetime.

(** [list(set(xs))]: the distinct elements of [xs] in the order in
    which the set happens to enumerate them. *)
Variable list_set : list string -> list string.

Definition _calculate_end_time (start_time_str : string) (duration_mins : Z)
  : string :=
  match fromisoformat (PyStr.replace "+05:30" "" start_time_str) with
  | Some start_time =>
      strftime (add start_time (td_minutes duration_mins)) "+05:30"
  | None =>
      (* except Exception: fallback *)
      start_time_str
  end.

Definition request_participants (original_request : request) : list string :=
  list_set (get (req_From original_request) ""
            :: map email (get (req_Attendees original_request) [])).

Definition timeline (included_participants : list string)
    (all_participants_events : dict (list event))
    (meeting_start meeting_end meeting_subject : string)
    (participant : string) : attendee_events :=
  let existing :=
    match dict_get all_participants_events participant with
    | Some evs => evs
    | None => []
    end in
  let participant_events :=
    if mem participant included_participants
    then (existing ++ [mkevent meeting_start meeting_end
                         (List.length included_participants)
                         included_participants (Some meeting_subject)])%list
    else existing in
  mkattendee_events participant (PyStr.sorted_by StartTime participant_events).

Definition _build_attendees_events (included_participants : list string)
    (all_participants_events : dict (list event))
    (meeting_start meeting_end meeting_subject : string)
    (original_request : request) : list attendee_events :=
  map (timeline included_participants all_participants_events
         meeting_start meeting_end meeting_subject)
      (request_participants original_request).

Definition format_output (original_request : request)
    (resolution_result : resolution)
    (all_participants_events : dict (list event)) : result response :=
  let start_time := recommended_time resolution_result in
  let duration_mins := meeting_duration resolution_result in
  let end_time := _calculate_end_time start_time duration_mins in
  match req_Subject original_request with
  | None => Raise (KeyError "Subject")
  | Some meeting_subject =>
      let attendees_with_events :=
        _build_attendees_events (participants_to_include resolution_result)
          all_participants_events start_time end_time meeting_subject
          original_request in
      Ok (mkresponse
            (get (req_Request_id original_request) "")
            (get (req_Datetime original_request) "")
            (get (req_Location original_request) "")
            (get (req_From original_request) "")
            (Timelines attendees_with_events)
            (get (req_Subject original_request) "")
            (get (req_EmailContent original_request) "")
            start_time
            end_time
            (PyStr.str_of_Z duration_mins)
            (_build_metadata resolution_result))
  end.

End Formatter.

End OutputFormatter.

(* ===================================================================== *)
(** * meeting_assistant.py *)
(* ===================================================================== *)

Module MeetingAssistant.
Import PyTime CalendarUtils ConflictResolver OutputFormatter.

(** What the language-model parser may return: each key may be
    absent. *)
Record ai_parsed : Type := mkai {
  ai_meeting_duration : option Z;
  ai_time_constraints : option string;
  ai_subject : option string;
  ai_start_time : option string
}.

Definition participants_of (list_set : list string -> list string)
    (data : request) : list string :=
  list_set (get (req_From data) "" :: map email (get (req_Attendees data) [])).

Definition _manual_parse_request (list_set : list string -> list string)
    (data : request) : parsed_request :=
  let participants := participants_of list_set data in
  let email_content := PyStr.lower (get (req_EmailContent data) "") in
  let duration :=
    if PyStr.contains "30 minutes" email_content
       || PyStr.contains "half hour" email_content then 30
    else if PyStr.contains "1 hour" email_content
            || PyStr.contains "an hour" email_content then 60
    else if PyStr.contains "15 minutes" email_content then 15
    else 30 in
  let email_lower := PyStr.lower email_content in
  let time_constraints :=
    if PyStr.any_in ["saturday"; "sunday"; "weekend"] email_lower then "weekend"
    else if PyStr.contains "thursday" email_lower then "thursday"
    else if PyStr.contains "monday" email_lower then "monday"
    else if PyStr.contains "tuesday" email_lower then "tuesday"
    else if PyStr.contains "wednesday" email_lower then "wednesday"
    else if PyStr.contains "friday" email_lower then "friday"
    else if PyStr.contains "tomorrow" email_lower then "tomorrow"
    else "next available time" in
  mkparsed participants duration time_constraints
           (get (req_Subject data) "Meeting") None (get (req_From data) "").

Definition _create_weekend_rejection_response (data : request) : response :=
  mkresponse
    (get (req_Request_id data) "")
    (get (req_Datetime data) "")
    (get (req_Location data) "")
    (get (req_From data) "")
    (RequestAttendees (get (req_Attendees data) []))
    (get (req_Subject data) "")
    (get (req_EmailContent data) "")
    "" "" ""
    (MetaRejected "rejected" "Its weekends no meetings are possible"
       "Weekend meetings are not allowed. Please schedule during business days (Monday-Friday).").

Definition _create_error_response (data : request) (error_message : string)
  : response :=
  mkresponse
    (get (req_Request_id data) "")
    (get (req_Datetime data) "")
    (get (req_Location data) "")
    (get (req_From data) "")
    (RequestAttendees (get (req_Attendees data) []))
    (get (req_Subject data) "")
    (get (req_EmailContent data) "")
    "" "" "30"
    (MetaFailed error_message "failed").

Section Assistant.

Variable fromisoformat : string -> option datetime.
Variable list_set : list string -> list string.

(** [self.ai_agent]: [None] when the client could not be built,
    otherwise [parse_email], which may raise. *)
Variable ai_agent : option (string -> result ai_parsed).

(** The dictionary [results] as the worker threads have filled it
    when the joins return, for the given participants and window. *)
Variable fetched : list string -> string -> string -> dict (list event).

Definition _parse_meeting_request (data : request) : parsed_request :=
  let manual_result := _manual_parse_request list_set data in
  match ai_agent with
  | Some parse_email =>
      if String.eqb (time_constraints manual_result) "next available time" then
        match parse_email (get (req_EmailContent data) "") with
        | Ok ai =>
            mkparsed (participants_of list_set data)
              (get (ai_meeting_duration ai) (pr_meeting_duration manual_result))
              (get (ai_time_constraints ai) (time_constraints manual_result))
              (get (req_Subject data) (get (ai_subject ai) "Meeting"))
              (ai_start_time ai)
              (get (req_From data) "")
        | _ => manual_result
        end
      else manual_result
  | None => manual_result
  end.

Definition weekend_error : exn := ValueError "WEEKEND_MEETING_REQUESTED".

Definition _get_all_participants_events (pr : parsed_request)
  : Clock.M (dict (list event)) :=
  if String.eqb (time_constraints pr) "weekend" then Clock.raise weekend_error
  else
    range <- get_date_range_from_constraint (time_constraints pr)
               (pr_meeting_duration pr) ;;
    match range with
    | None => Clock.raise weekend_error
    | Some (start_time, end_time) =>
        Clock.ret (fetched (participants pr) start_time end_time)
    end.

Definition _resolve_conflicts (pr : parsed_request)
    (all_participants_events : dict (list event)) : Clock.M resolution :=
  resolve_scheduling_conflicts pr all_participants_events (pr_meeting_duration pr).

Definition _format_final_output (original_data : request)
    (resolution_result : resolution)
    (all_participants_events : dict (list event)) : result response :=
  format_output fromisoformat list_set original_data resolution_result
    all_participants_events.

(** The value returned by [your_meeting_assistant].  The function
    also runs a stopwatch: it reads [time.time()] ten times on a
    complete run (four times before a weekend error is caught) and
    prints the differences.  These readings reach neither the returned
    dictionary nor any branch that changes it (the ten-second test only
    prints a warning); they are not calls of [datetime.now()] and do not
    advance the count of [Clock.M], which counts those calls alone. *)
Definition your_meeting_assistant (data : request) : Clock.M response :=
  Clock.catch
    (let parsed_request := _parse_meeting_request data in
     all_participants_events <- _get_all_participants_events parsed_request ;;
     resolution_result <- _resolve_conflicts parsed_request all_participants_events ;;
     Clock.lift (_format_final_output data resolution_result all_participants_events))
    (fun e =>
       if PyStr.contains "WEEKEND_MEETING_REQUESTED" (exn_str e)
       then Clock.ret (_create_weekend_rejection_response data)
       else Clock.ret (_create_error_response data (exn_str e))).

End Assistant.

End MeetingAssistant.

(* ===================================================================== *)
(** * ai_agent.py: the decision taken without the language model *)
(* ===================================================================== *)

Module AiAgent.
Import PyTime CalendarUtils ConflictResolver.

(** The dictionary returned by [_fallback_conflict_resolution]; it has
    no ['meeting_duration'] key. *)
Record fallback_resolution : Type := mkfallback {
  fb_action : action_t;
  fb_recommended_time : string;
  fb_participants_to_include : list string;
  fb_reason : string
}.

Definition _get_next_available_slot (duration_mins : Z) : Clock.M string :=
  now <- Clock.now ;;
  let next_hour :=
    add (replace_microsecond 0 (replace_second 0 (replace_minute 0 now)))
        (td_hours 1) in
  Clock.ret (iso next_hour).

Definition _get_tomorrow_slot (duration_mins : Z) : Clock.M string :=
  now <- Clock.now ;;
  let tomorrow := add now (td_days 1) in
  let morning_slot :=
    replace_microsecond 0 (replace_second 0 (replace_minute 0
      (replace_hour 10 tomorrow))) in
  Clock.ret (iso morning_slot).

(** The loop of [_fallback_conflict_resolution] over
    [all_participants_events.items()]. *)
Fixpoint fallback_split (items : dict (list event)) (available busy : list string)
  : list string * list string :=
  match items with
  | [] => (available, busy)
  | (participant, events) :: rest =>
      match events with
      | [] => fallback_split rest (available ++ [participant])%list busy
      | _ :: _ => fallback_split rest available (busy ++ [participant])%list
      end
  end.

Definition _fallback_conflict_resolution
    (all_participants_events : dict (list event)) (meeting_request : parsed_request)
    (meeting_duration : Z) : Clock.M fallback_resolution :=
  let '(available_participants, busy_participants) :=
    fallback_split all_participants_events [] [] in
  if Nat.eqb (List.length available_participants)
             (List.length all_participants_events) then
    slot <- _get_next_available_slot meeting_duration ;;
    Clock.ret (mkfallback schedule_all slot (keys all_participants_events)
                 "All participants are available")
  else if Nat.leb 1 (List.length available_participants) then
    slot <- _get_next_available_slot meeting_duration ;;
    Clock.ret (mkfallback schedule_partial slot available_participants
                 ("Scheduling with available participants: "
                  ++ PyStr.join ", " available_participants))
  else
    tomorrow_time <- _get_tomorrow_slot meeting_duration ;;
    Clock.ret (mkfallback reschedule_tomorrow tomorrow_time
                 (keys all_participants_events)
                 "All participants busy, rescheduling to tomorrow").

End AiAgent.

(* ===================================================================== *)
(** * Vocabulary of the statements *)
(* ===================================================================== *)

Module Spec.
Import PyTime CalendarUtils ConflictResolver.

(** A [datetime] whose time-of-day fields are in range, as every value
    built by CPython is. *)
Definition well_formed (d : datetime) : Prop :=
  0 <= hour d < 24 /\ 0 <= minute d < 60 /\ 0 <= second d < 60
  /\ 0 <= microsecond d < 1000000.

Definition is_empty {A} (l : list A) : bool :=
  match l with
  | [] => true
  | _ :: _ => false
  end.

(** Participants of a calendar mapping without and with events, in
    the order of the mapping. *)
Definition available_of (d : dict (list event)) : list string :=
  keys (filter (fun kv => is_empty (snd kv)) d).

Definition busy_of (d : dict (list event)) : list string :=
  keys (filter (fun kv => negb (is_empty (snd kv))) d).

(** The first entry of the mapping that has events. *)
Definition first_busy (d : dict (list event)) : option (string * list event) :=
  find (fun kv => negb (is_empty (snd kv))) d.

(** The subject asks for everyone. *)
Definition requires_all (pr : parsed_request) : bool :=
  PyStr.any_in critical_keywords (PyStr.lower (subject pr)).

(** Some interval of the list is rated [low]. *)
Definition some_low (events : list event) : bool :=
  existsb (fun e => level_eqb (classify e) low) events.

(** The subject mentions feedback. *)
Definition wants_feedback (pr : parsed_request) : bool :=
  PyStr.contains "feedback" (PyStr.lower (subject pr)).

(** The action selected for a request and a calendar mapping, read off
    the branches of [resolve_scheduling_conflicts]. *)
Definition selected_action (pr : parsed_request) (d : dict (list event)) : action_t :=
  let nb := List.length (busy_of d) in
  if Nat.eqb nb 0 then schedule_all
  else if Nat.ltb nb (List.length d) then
    if requires_all pr then reschedule_tomorrow
    else match first_busy d with
         | Some (_, evs) =>
             if some_low evs then schedule_all_with_reschedule
             else if wants_feedback pr && Nat.leb 1 (List.length (available_of d))
                  then schedule_partial
                  else schedule_organizer_first
         | None => schedule_all
         end
  else reschedule_tomorrow.

(** The condition under which the low-priority meeting of a busy
    participant is moved: some but not all participants are busy, the
    subject does not ask for everyone, and the first busy participant
    of the mapping has an interval rated [low]. *)
Definition reschedule_condition (pr : parsed_request) (d : dict (list event)) : Prop :=
  (0 < List.length (busy_of d) < List.length d)%nat
  /\ requires_all pr = false
  /\ exists b evs, first_busy d = Some (b, evs) /\ some_low evs = true.

(** A computation that reads the wall clock exactly once, never fails,
    and whose value is fixed by that one reading: two runs that get the
    same reading return the same value. *)
Definition one_reading {A} (c : Clock.M A) : Prop :=
  forall (w1 w2 : Clock.wall) (n1 n2 : nat),
    w1 n1 = w2 n2 ->
    (exists a, fst (c w1 n1) = Ok a /\ fst (c w2 n2) = Ok a)
    /\ snd (c w1 n1) = S n1 /\ snd (c w2 n2) = S n2.

(** Constant clocks used in the examples: Thursday 17 July 2025 and
    Friday 18 July 2025, both at 14:23:45.000123 local time. *)
Definition thursday_afternoon : Clock.wall :=
  fun _ => to_us (mkdt (ymd2ord 2025 7 17) 14 23 45 123 None).

Definition friday_afternoon : Clock.wall :=
  fun _ => to_us (mkdt (ymd2ord 2025 7 18) 14 23 45 123 None).

(** [e] parses to offset-aware times, and lasts from instant [s] to
    instant [t] on the UTC time line (in microseconds). *)
Definition spans (fromisoformat : string -> option datetime) (e : event)
    (s t : Z) : Prop :=
  exists ds dt os ot,
    parse_time fromisoformat (StartTime e) = Ok ds
    /\ parse_time fromisoformat (EndTime e) = Ok dt
    /\ tzinfo ds = Some os /\ tzinfo dt = Some ot
    /\ s = utc_us ds os /\ t = utc_us dt ot.

(** The events follow one another on the time line: each one starts
    no earlier than [lo], ends no earlier than it starts, and the next
    one starts no earlier than it ends. *)
Fixpoint chained (fromisoformat : string -> option datetime) (lo : Z)
    (l : list event) : Prop :=
  match l with
  | [] => True
  | e :: r =>
      exists s t, spans fromisoformat e s t /\ lo <= s /\ s <= t
                  /\ chained fromisoformat t r
  end.

(** The half-open range of [len] microseconds from instant [a] does not
    meet the range of [e]. *)
Definition clear_of (fromisoformat : string -> option datetime) (a len : Z)
    (e : event) : Prop :=
  exists s t, spans fromisoformat e s t /\ (a + len <= s \/ t <= a).

(** Where a slot starts: at the start of the working day, or at the
    time to which the end of one of the events parses. *)
Definition slot_origin (fromisoformat : string -> option datetime)
    (l : list event) (work_start a : datetime) : Prop :=
  a = work_start
  \/ exists e, In e l /\ parse_time fromisoformat (EndTime e) = Ok a.

(** A slot of [duration_mins] minutes starting at the aware time [a]
    that meets none of the events of [l]. *)
Definition free_slot (fromisoformat : string -> option datetime)
    (duration_mins : Z) (l : list event) (work_start : datetime) (lo : Z)
    (sl : slot) : Prop :=
  exists a oa,
    sl = slot_from a duration_mins
    /\ slot_origin fromisoformat l work_start a
    /\ tzinfo a = Some oa
    /\ lo <= utc_us a oa
    /\ forall e, In e l -> clear_of fromisoformat (utc_us a oa)
                             (td_minutes duration_mins) e.

(** The working day named by a lower-cased constraint, in the order in
    which [_find_optimal_time] looks for the names. *)
Definition named_day (lc : string) : option Z :=
  if PyStr.contains "thursday" lc then Some 3
  else if PyStr.contains "monday" lc then Some 0
  else if PyStr.contains "tuesday" lc then Some 1
  else if PyStr.contains "wednesday" lc then Some 2
  else if PyStr.contains "friday" lc then Some 4
  else None.

(** The reading [t] of the wall clock as a [datetime]. *)
Definition at_reading (t : Z) : datetime := of_us t None.

(** A computation that ends with a value or an exception after at most
    [bound] further readings of the clock. *)
Definition halts {A} (bound : nat) (c : Clock.M A) : Prop :=
  forall (w : Clock.wall) (n : nat),
    exists k, (n <= k <= n + bound)%nat
              /\ ((exists a, c w n = (Ok a, k)) \/ (exists e, c w n = (Raise e, k))).

(** An enumeration of a set given as a list: without repetition, with
    the same elements. *)
Definition enumerates (list_set : list string -> list string) : Prop :=
  forall xs, NoDup (list_set xs) /\ forall x, In x (list_set xs) <-> In x xs.

Definition by_start (a b : event) : Prop :=
  String.leb (StartTime a) (StartTime b) = true.

(** The meeting entered in the timelines of a response. *)
Definition new_meeting (included : list string)
    (meeting_start meeting_end meeting_subject : string) : event :=
  mkevent meeting_start meeting_end (List.length included) included
    (Some meeting_subject).

(** A step of [find_free_slots] that, whatever it is given and also
    when it raises, only appends to [free_slots], at most [k] slots, each
    of them [duration_mins] minutes long and starting at a time of
    [origin]. *)
Definition appends_at_most {A} (origin : datetime -> Prop) (duration_mins : Z)
    (k : nat) (c : Acc A) : Prop :=
  forall fs, exists added,
    fst (c fs) = (fs ++ added)%list
    /\ (List.length added <= k)%nat
    /\ forall sl, In sl added -> exists a, origin a /\ sl = slot_from a duration_mins.

Definition high_keywords : list string :=
  ["client"; "customer"; "urgent"; "critical"; "ceo"; "board"; "emergency"].

Definition team_sync : parsed_request :=
  mkparsed ["a@x.com"; "b@x.com"; "c@x.com"] 30 "thursday" "Team sync" None
    "a@x.com".

Definition feedback_round : parsed_request :=
  mkparsed ["a@x.com"; "b@x.com"; "c@x.com"] 30 "thursday" "Feedback round" None
    "a@x.com".

Definition nobody_busy : dict (list event) :=
  [("a@x.com", []); ("b@x.com", []); ("c@x.com", [])].

(** 10:00:00 on the day of [d]. *)
Definition at_ten (d : datetime) : datetime :=
  replace_microsecond 0 (replace_second 0 (replace_minute 0 (replace_hour 10 d))).

(** Sample data of the examples. *)
Definition coffee_break : event :=
  mkevent "2025-07-24T10:00:00+05:30" "2025-07-24T10:30:00+05:30" 1
    ["b@x.com"] (Some "Coffee break").

Definition client_call : event :=
  mkevent "2025-07-24T10:00:00+05:30" "2025-07-24T11:00:00+05:30" 2
    ["c@x.com"; "k@y.com"] (Some "Client call").

Definition project_sync : parsed_request :=
  mkparsed ["a@x.com"; "b@x.com"; "c@x.com"] 30 "thursday" "Project sync" None
    "a@x.com".

Definition solo_sync : parsed_request :=
  mkparsed ["b@x.com"] 30 "thursday" "Project sync" None "b@x.com".

(** One participant free, two busy; the first busy one has a break. *)
Definition two_busy : dict (list event) :=
  [("a@x.com", []); ("b@x.com", [coffee_break]); ("c@x.com", [client_call])].

(** One participant free, one busy with a client. *)
Definition one_busy_client : dict (list event) :=
  [("a@x.com", []); ("b@x.com", []); ("c@x.com", [client_call])].

(** A single participant, busy with a break. *)
Definition only_busy : dict (list event) := [("b@x.com", [coffee_break])].

Definition team_lunch : event :=
  mkevent "2025-07-24T12:00:00+05:30" "2025-07-24T13:00:00+05:30" 3
    ["a@x.com"; "b@x.com"; "c@x.com"] (Some "Team lunch").

(** The day searched by the free-slot examples. *)
Definition day_start : string := "2025-07-17T00:00:00+05:30".
Definition day_end : string := "2025-07-17T23:59:59+05:30".

Definition long_meeting : event :=
  mkevent "2025-07-17T09:00:00+05:30" "2025-07-17T12:00:00+05:30" 2
    ["a@x.com"; "b@x.com"] (Some "Workshop").

Definition short_meeting : event :=
  mkevent "2025-07-17T10:00:00+05:30" "2025-07-17T10:30:00+05:30" 2
    ["a@x.com"; "c@x.com"] (Some "Stand-up").

Definition half_past_nine : event :=
  mkevent "2025-07-17T09:30:00+05:30" "2025-07-17T10:00:00+05:30" 2
    ["a@x.com"; "c@x.com"] (Some "Stand-up").

(** One possible enumeration order of [list(set(xs))]. *)
Definition distinct (xs : list string) : list string := nodup string_dec xs.

Definition weekend_mail : request :=
  mkrequest (Some "r-17") (Some "09-07-2025T12:34:55") (Some "Room 2")
    (Some "a@x.com") (Some [mkattendee "b@x.com"; mkattendee "c@x.com"])
    (Some "Project sync") (Some "Can we meet on Saturday for half hour?").

Definition thursday_mail : request :=
  mkrequest (Some "r-18") (Some "09-07-2025T12:34:55") (Some "Room 2")
    (Some "a@x.com") (Some [mkattendee "b@x.com"; mkattendee "c@x.com"])
    (Some "Project sync") (Some "Can we meet on Thursday for half hour?").

(** A calendar service that finds a client call for everybody. *)
Definition everybody_busy (ps : list string) (window_start window_end : string)
  : dict (list event) :=
  map (fun p => (p, [client_call])) ps.

(** A resolution whose recommended time is not a timestamp. *)
Definition broken_resolution : resolution :=
  mkresolution schedule_all "not a timestamp" ["a@x.com"; "b@x.com"]
    "All participants are available at the requested time" 30 None None None.

End Spec.

(* ===================================================================== *)
(** * Facts about the calendar arithmetic *)
(* ===================================================================== *)

Section TimeFacts.
Import PyTime CalendarUtils ConflictResolver Spec.

Lemma of_us_well_formed (us : Z) (tz : option Z) : well_formed (of_us us tz).
Proof.
  unfold well_formed, of_us; cbn [hour minute second microsecond].
  repeat split; apply Z.mod_pos_bound; lia.
Qed.

(** Adding whole days to a well-formed value moves its ordinal only. *)
Lemma add_days (d : datetime) (k : Z) :
  well_formed d ->
  add d (td_days k)
  = mkdt (ordinal d + k) (hour d) (minute d) (second d) (microsecond d) (tzinfo d).
Proof.
  intros (Hh & Hm & Hs & Hu). destruct d as [o h m s u tz].
  cbn [hour minute second microsecond ordinal tzinfo] in *.
  unfold add, of_us, to_us, td_days;
    cbn [hour minute second microsecond ordinal tzinfo].
  f_equal; Z.div_mod_to_equations; lia.
Qed.

Lemma add_well_formed (d : datetime) (td : timedelta) : well_formed (add d td).
Proof. apply of_us_well_formed. Qed.

Lemma weekday_range (d : datetime) : 0 <= weekday d < 7.
Proof. unfold weekday. apply Z.mod_pos_bound. lia. Qed.

Lemma weekday_add_days (d : datetime) (k : Z) :
  well_formed d -> weekday (add d (td_days k)) = (weekday d + k) mod 7.
Proof.
  intros H. rewrite add_days by exact H. unfold weekday. cbn [ordinal].
  rewrite Zplus_mod_idemp_l. f_equal. lia.
Qed.

(** The day reached by [days_ahead] is the requested weekday. *)
Lemma weekday_next (target : Z) (d : datetime) :
  well_formed d -> 0 <= target < 7 ->
  weekday (add d (td_days (days_ahead target d))) = target.
Proof.
  intros H Ht. rewrite weekday_add_days by exact H.
  unfold days_ahead. pose proof (weekday_range d) as Hw.
  destruct (target - weekday d <=? 0) eqn:E.
  - replace (weekday d + (target - weekday d + 7)) with (target + 1 * 7) by lia.
    rewrite Z_mod_plus_full. apply Z.mod_small. lia.
  - replace (weekday d + (target - weekday d)) with target by lia.
    apply Z.mod_small. lia.
Qed.

(** From a weekend day, [days_to_monday] leads to Monday. *)
Lemma weekday_to_monday (d : datetime) :
  well_formed d -> is_weekend d = true ->
  weekday (add d (td_days (days_to_monday d))) = 0.
Proof.
  intros H Hw. rewrite weekday_add_days by exact H.
  unfold is_weekend in Hw. apply Z.leb_le in Hw.
  unfold days_to_monday. pose proof (weekday_range d) as Hr.
  assert (weekday d = 5 \/ weekday d = 6) as [E | E] by lia;
    rewrite E; reflexivity.
Qed.

End TimeFacts.

(* ===================================================================== *)
(** * Facts about the time resolution of the conflict resolver *)
(* ===================================================================== *)

Section ResolverTime.
Import PyTime CalendarUtils ConflictResolver Spec.

Lemma replace_hour_well_formed (h : Z) (d : datetime) :
  0 <= h < 24 -> well_formed d -> well_formed (replace_hour h d).
Proof. unfold well_formed; cbn; intuition lia. Qed.

Lemma business_slot_step (fuel : nat) (d : datetime) :
  business_slot (S fuel) d =
  if outside_business d then
    if is_weekend d then
      business_slot fuel (replace_hour 9 (add d (td_days (days_to_monday d))))
    else if hour d <? 9 then business_slot fuel (replace_hour 9 d)
    else business_slot fuel (replace_hour 9 (add d (td_days 1)))
  else Some d.
Proof. reflexivity. Qed.

Lemma business_slot_inside (fuel : nat) (d : datetime) :
  outside_business d = false -> business_slot fuel d = Some d.
Proof. intros H. destruct fuel; cbn; rewrite H; reflexivity. Qed.

(** A slot at 09:00 on a day that is not a weekend day is accepted. *)
Lemma nine_is_inside (d : datetime) :
  is_weekend d = false -> outside_business (replace_hour 9 d) = false.
Proof.
  intros H. unfold outside_business.
  change (is_weekend (replace_hour 9 d)) with (is_weekend d).
  rewrite H. reflexivity.
Qed.

Lemma monday_is_inside (d : datetime) :
  well_formed d -> is_weekend d = true ->
  outside_business (replace_hour 9 (add d (td_days (days_to_monday d)))) = false.
Proof.
  intros Hwf Hw. apply nine_is_inside.
  unfold is_weekend. rewrite weekday_to_monday by assumption. reflexivity.
Qed.

(** The [while] loop of [_find_optimal_time] has left after at most
    two rounds, on a slot inside business hours. *)
Lemma business_slot_total (fuel : nat) (d : datetime) :
  well_formed d -> (2 <= fuel)%nat ->
  exists r, business_slot fuel d = Some r /\ outside_business r = false.
Proof.
  intros Hwf Hfuel.
  destruct fuel as [| fuel]; [lia|].
  destruct (outside_business d) eqn:Hout.
  2:{ exists d. split; [apply business_slot_inside|]; assumption. }
  rewrite business_slot_step, Hout.
  destruct (is_weekend d) eqn:Hw.
  - eexists. split.
    + apply business_slot_inside, monday_is_inside; assumption.
    + apply monday_is_inside; assumption.
  - destruct (hour d <? 9) eqn:Hh.
    + eexists. split.
      * apply business_slot_inside, nine_is_inside; assumption.
      * apply nine_is_inside; assumption.
    + set (d1 := replace_hour 9 (add d (td_days 1))).
      assert (Hwf1 : well_formed d1).
      { apply replace_hour_well_formed; [lia | apply add_well_formed]. }
      destruct (outside_business d1) eqn:Hout1.
      2:{ exists d1. split; [apply business_slot_inside|]; assumption. }
      destruct fuel as [| fuel]; [lia|].
      rewrite business_slot_step, Hout1.
      assert (Hw1 : is_weekend d1 = true).
      { unfold outside_business in Hout1.
        destruct (is_weekend d1); [reflexivity|]. cbn in Hout1. discriminate. }
      rewrite Hw1.
      eexists. split.
      * apply business_slot_inside, monday_is_inside; assumption.
      * apply monday_is_inside; assumption.
Qed.

(** The slot of [_get_tomorrow_time] is a working day at 10:00:00. *)
Lemma tomorrow_slot_spec (now : datetime) :
  let d := tomorrow_slot now in
  0 <= weekday d <= 4 /\ hour d = 10 /\ minute d = 0 /\ second d = 0
  /\ microsecond d = 0.
Proof.
  unfold tomorrow_slot.
  set (t := add now (td_days 1)).
  assert (Hwf : well_formed t) by apply add_well_formed.
  cbv zeta. repeat split; try reflexivity.
  - apply weekday_range.
  - change (weekday (replace_microsecond 0 (replace_second 0 (replace_minute 0
              (replace_hour 10 ?x))))) with (weekday x).
    destruct (is_weekend t) eqn:Hw.
    + rewrite weekday_to_monday by assumption. lia.
    + unfold is_weekend in Hw. apply Z.leb_gt in Hw. lia.
Qed.

End ResolverTime.

(* ===================================================================== *)
(** * Time resolution and the wall clock *)
(* ===================================================================== *)

Section ClockReads.
Import PyTime CalendarUtils ConflictResolver Spec.

Lemma one_reading_intro {A} (c : Clock.M A) (f : Z -> A) :
  (forall w n, c w n = (Ok (f (w n)), S n)) -> one_reading c.
Proof.
  intros Hc w1 w2 n1 n2 Hw. rewrite (Hc w1 n1), (Hc w2 n2), Hw. cbn.
  split; [exists (f (w2 n2)); split; reflexivity | split; reflexivity].
Qed.

Lemma get_next_run (target : Z) (w : Clock.wall) (n : nat) :
  get_next target w n
  = (Ok (add (of_us (w n) None) (td_days (days_ahead target (of_us (w n) None)))), S n).
Proof. reflexivity. Qed.

(** The day found by [_get_next_thursday] is never a weekend day, so the
    correction through [_get_next_monday] never runs. *)
Lemma next_thursday_not_weekend (t : Z) :
  is_weekend (add (of_us t None) (td_days (days_ahead 3 (of_us t None)))) = false.
Proof.
  unfold is_weekend. rewrite weekday_next; [reflexivity | | lia].
  apply of_us_well_formed.
Qed.

Lemma _get_tomorrow_time_one_reading (meeting_duration : Z) :
  one_reading (_get_tomorrow_time meeting_duration).
Proof.
  apply (one_reading_intro _ (fun t => iso (tomorrow_slot (of_us t None)))).
  reflexivity.
Qed.

Lemma _find_alternative_time_one_reading (meeting_duration : Z) :
  one_reading (_find_alternative_time meeting_duration).
Proof.
  apply (one_reading_intro _ (fun t =>
    iso (replace_microsecond 0 (replace_second 0 (replace_minute 0
           (add (of_us t None) (td_hours 2))))))).
  reflexivity.
Qed.

Lemma get_date_range_one_reading (time_constraint : string) (duration_mins : Z) :
  one_reading (get_date_range_from_constraint time_constraint duration_mins).
Proof.
  apply (one_reading_intro _ (fun t =>
    match fst (get_date_range_from_constraint time_constraint duration_mins
                 (fun _ => t) O) with
    | Ok a => a
    | _ => None
    end)).
  intros w n. unfold get_date_range_from_constraint.
  cbv beta iota delta [Clock.bind Clock.now Clock.ret fst].
  repeat match goal with
         | |- context [if ?b then _ else _] => destruct b
         end; reflexivity.
Qed.

Lemma _find_optimal_time_run (pr : parsed_request) (meeting_duration : Z)
    (w : Clock.wall) (n : nat) :
  exists a,
    _find_optimal_time pr meeting_duration w n = (Ok a, S n)
    /\ _find_optimal_time pr meeting_duration (fun _ => w n) O = (Ok a, 1%nat).
Proof.
  unfold _find_optimal_time, _get_next_thursday, _get_next_monday,
    _get_next_tuesday, _get_next_wednesday, _get_next_friday.
  destruct (PyStr.contains "thursday" _).
  { unfold Clock.bind at 1 3. rewrite !get_next_run.
    unfold Clock.bind. rewrite !next_thursday_not_weekend.
    eexists; split; reflexivity. }
  destruct (PyStr.contains "monday" _).
  { unfold Clock.bind. rewrite !get_next_run.
    destruct (PyStr.contains "9:00" _); eexists; split; reflexivity. }
  destruct (PyStr.contains "tuesday" _).
  { unfold Clock.bind. rewrite !get_next_run.
    destruct (PyStr.contains "11:00" _); eexists; split; reflexivity. }
  destruct (PyStr.contains "wednesday" _).
  { unfold Clock.bind. rewrite !get_next_run.
    destruct (PyStr.contains "10:00" _); eexists; split; reflexivity. }
  destruct (PyStr.contains "friday" _).
  { unfold Clock.bind. rewrite !get_next_run. eexists; split; reflexivity. }
  cbv beta iota delta [Clock.bind Clock.now].
  set (slot := replace_microsecond 0 (replace_second 0 (replace_minute 0
                 (add (of_us (w n) None) (td_hours 1))))).
  assert (Hwf : well_formed slot).
  { pose proof (add_well_formed (of_us (w n) None) (td_hours 1)) as H.
    unfold well_formed in *. cbn. intuition lia. }
  destruct (business_slot_total loop_fuel slot Hwf) as (r & Hr & _).
  { unfold loop_fuel. lia. }
  rewrite Hr. eexists; split; reflexivity.
Qed.

Lemma _find_optimal_time_one_reading (pr : parsed_request) (meeting_duration : Z) :
  one_reading (_find_optimal_time pr meeting_duration).
Proof.
  intros w1 w2 n1 n2 Hw.
  destruct (_find_optimal_time_run pr meeting_duration w1 n1) as (a1 & H1 & K1).
  destruct (_find_optimal_time_run pr meeting_duration w2 n2) as (a2 & H2 & K2).
  rewrite Hw, K2 in K1. injection K1 as <-.
  rewrite H1, H2. cbn. split; [exists a2; split; reflexivity | split; reflexivity].
Qed.

End ClockReads.

(* ===================================================================== *)
(** * Availability analysis *)
(* ===================================================================== *)

Section Availability.
Import PyTime CalendarUtils ConflictResolver Spec.

Lemma dict_get_set_same {V} (d : dict V) (k : string) (v : V) :
  dict_get (dict_set d k v) k = Some v.
Proof.
  induction d as [| [k' v'] r IH]; cbn.
  - rewrite String.eqb_refl. reflexivity.
  - destruct (String.eqb k k') eqn:E; cbn; rewrite E; [reflexivity | exact IH].
Qed.

Lemma dict_get_set_other {V} (d : dict V) (k k' : string) (v : V) :
  k <> k' -> dict_get (dict_set d k v) k' = dict_get d k'.
Proof.
  intros Hne. induction d as [| [k0 v0] r IH]; cbn.
  - destruct (String.eqb_spec k' k); [congruence | reflexivity].
  - destruct (String.eqb_spec k k0) as [-> | Hk]; cbn.
    + destruct (String.eqb_spec k' k0); [congruence | reflexivity].
    + destruct (String.eqb_spec k' k0); [reflexivity | exact IH].
Qed.

Lemma dict_get_In {V} (d : dict V) (k : string) (v : V) :
  NoDup (keys d) -> (In (k, v) d <-> dict_get d k = Some v).
Proof.
  induction d as [| [k0 v0] r IH]; cbn; intros Hnd.
  - split; [tauto | discriminate].
  - inversion Hnd as [| ? ? Hnotin Hnd']; subst.
    destruct (String.eqb_spec k k0) as [-> | Hk].
    + split.
      * intros [E | Hin]; [congruence |].
        exfalso. apply Hnotin. apply (in_map fst) in Hin. exact Hin.
      * intros E. left. congruence.
    + rewrite <- (IH Hnd'). split.
      * intros [E | Hin]; [congruence | exact Hin].
      * intros Hin. right. exact Hin.
Qed.

Lemma dict_get_keys {V} (d : dict V) (k : string) :
  In k (keys d) <-> exists v, dict_get d k = Some v.
Proof.
  induction d as [| [k0 v0] r IH]; cbn.
  - split; [tauto | intros [v Hv]; discriminate].
  - destruct (String.eqb_spec k k0) as [-> | Hk].
    + split; [intros _; eexists; reflexivity | intros _; left; reflexivity].
    + rewrite <- IH. split; [intros [E | H]; [congruence | exact H] | tauto].
Qed.

(** The loop of [_analyze_conflicts] appends the participants without
    events to [available] and the others to [busy], in order. *)
Lemma split_participants_lists (items : dict (list event))
    (available busy : list string) (details : dict (list rated)) :
  fst (split_participants items available busy details)
  = ((available ++ available_of items)%list, (busy ++ busy_of items)%list).
Proof.
  revert available busy details.
  induction items as [| [p evs] rest IH]; intros available busy details.
  - cbn. rewrite !app_nil_r. reflexivity.
  - destruct evs as [| e es]; cbn [split_participants]; rewrite IH;
      unfold available_of, busy_of, keys; cbn; rewrite <- app_assoc; reflexivity.
Qed.

(** Keys that the loop does not meet keep their entry in the details. *)
Lemma split_participants_details_other (items : dict (list event))
    (available busy : list string) (details : dict (list rated)) (k : string) :
  ~ In k (keys items) ->
  dict_get (snd (split_participants items available busy details)) k
  = dict_get details k.
Proof.
  revert available busy details.
  induction items as [| [p evs] rest IH]; intros available busy details Hk.
  - reflexivity.
  - cbn in Hk. destruct evs as [| e es]; cbn [split_participants].
    + apply IH. tauto.
    + rewrite IH by tauto. apply dict_get_set_other. intros ->. tauto.
Qed.

(** The details of the first busy participant are the ratings of that
    participant's events. *)
Lemma split_participants_details_first (items : dict (list event))
    (available busy : list string) (details : dict (list rated))
    (p : string) (evs : list event) :
  NoDup (keys items) ->
  first_busy items = Some (p, evs) ->
  dict_get (snd (split_participants items available busy details)) p
  = Some (_analyze_meeting_importance evs).
Proof.
  revert available busy details.
  induction items as [| [k es] rest IH]; intros available busy details Hnd Hfb.
  - discriminate.
  - inversion Hnd as [| ? ? Hnotin Hnd']; subst.
    destruct es as [| e es]; cbn [split_participants].
    + apply IH; assumption.
    + cbn in Hfb. injection Hfb as <- <-.
      rewrite split_participants_details_other by exact Hnotin.
      apply dict_get_set_same.
Qed.

Lemma _analyze_conflicts_lists (d : dict (list event)) (meeting_duration : Z) :
  available_participants (_analyze_conflicts d meeting_duration) = available_of d
  /\ busy_participants (_analyze_conflicts d meeting_duration) = busy_of d.
Proof.
  unfold _analyze_conflicts.
  pose proof (split_participants_lists d [] [] []) as H.
  destruct (split_participants d [] [] []) as [[a b] det].
  cbn in H. injection H as -> ->. split; reflexivity.
Qed.

Lemma _analyze_conflicts_flags (d : dict (list event)) (meeting_duration : Z) :
  let ca := _analyze_conflicts d meeting_duration in
  all_free ca = Nat.eqb (List.length (busy_of d)) 0
  /\ some_busy ca = (Nat.ltb 0 (List.length (busy_of d))
                     && Nat.ltb (List.length (busy_of d)) (List.length d))%bool
  /\ all_busy ca = Nat.eqb (List.length (busy_of d)) (List.length d).
Proof.
  unfold _analyze_conflicts.
  pose proof (split_participants_lists d [] [] []) as H.
  destruct (split_participants d [] [] []) as [[a b] det].
  cbn in H. injection H as -> ->. repeat split; reflexivity.
Qed.

Lemma _analyze_conflicts_details (d : dict (list event)) (meeting_duration : Z)
    (p : string) (evs : list event) :
  NoDup (keys d) -> first_busy d = Some (p, evs) ->
  dict_get (conflict_details (_analyze_conflicts d meeting_duration)) p
  = Some (_analyze_meeting_importance evs).
Proof.
  intros Hnd Hfb. unfold _analyze_conflicts.
  pose proof (split_participants_details_first d [] [] [] p evs Hnd Hfb) as H.
  destruct (split_participants d [] [] []) as [[a b] det]. exact H.
Qed.

Lemma in_available_of (d : dict (list event)) (p : string) :
  In p (available_of d) <-> In (p, []) d.
Proof.
  unfold available_of, keys. rewrite in_map_iff. split.
  - intros ([k evs] & <- & Hin). apply filter_In in Hin as [Hin Hemp].
    destruct evs; [exact Hin | discriminate].
  - intros Hin. exists (p, []). split; [reflexivity |].
    apply filter_In. split; [exact Hin | reflexivity].
Qed.

Lemma in_busy_of (d : dict (list event)) (p : string) :
  In p (busy_of d) <-> exists e es, In (p, e :: es) d.
Proof.
  unfold busy_of, keys. rewrite in_map_iff. split.
  - intros ([k evs] & <- & Hin). apply filter_In in Hin as [Hin Hemp].
    destruct evs as [| e es]; [discriminate | exists e, es; exact Hin].
  - intros (e & es & Hin). exists (p, e :: es). split; [reflexivity |].
    apply filter_In. split; [exact Hin | reflexivity].
Qed.

Lemma available_busy_permutation (d : dict (list event)) :
  Permutation (available_of d ++ busy_of d) (keys d).
Proof.
  unfold available_of, busy_of, keys.
  induction d as [| [p evs] rest IH]; cbn.
  - constructor.
  - destruct evs as [| e es]; cbn.
    + constructor. exact IH.
    + apply Permutation_sym, Permutation_cons_app, Permutation_sym. exact IH.
Qed.

End Availability.

(* ===================================================================== *)
(** * The decision taken by the resolver *)
(* ===================================================================== *)

Section Decision.
Import PyTime CalendarUtils ConflictResolver Spec.

Lemma bind_ok {A B} (c : Clock.M A) (k : A -> Clock.M B) (w : Clock.wall)
    (n n' : nat) (a : A) :
  c w n = (Ok a, n') -> Clock.bind c k w n = k a w n'.
Proof. intros H. unfold Clock.bind. rewrite H. reflexivity. Qed.

Lemma bind_raise {A B} (c : Clock.M A) (k : A -> Clock.M B) (w : Clock.wall)
    (n n' : nat) (e : exn) :
  c w n = (Raise e, n') -> Clock.bind c k w n = (Raise e, n').
Proof. intros H. unfold Clock.bind. rewrite H. reflexivity. Qed.

Lemma _find_optimal_time_returns (pr : parsed_request) (meeting_duration : Z)
    (w : Clock.wall) (n : nat) :
  exists t, _find_optimal_time pr meeting_duration w n = (Ok t, S n).
Proof.
  destruct (_find_optimal_time_run pr meeting_duration w n) as (a & H & _).
  exists a. exact H.
Qed.

Lemma _get_tomorrow_time_run (meeting_duration : Z) (w : Clock.wall) (n : nat) :
  _get_tomorrow_time meeting_duration w n
  = (Ok (iso (tomorrow_slot (of_us (w n) None))), S n).
Proof. reflexivity. Qed.

Lemma _find_alternative_time_returns (meeting_duration : Z) (w : Clock.wall) (n : nat) :
  exists t, _find_alternative_time meeting_duration w n = (Ok t, S n).
Proof.
  eexists.
  cbv beta iota zeta delta [_find_alternative_time Clock.bind Clock.now Clock.ret].
  reflexivity.
Qed.

Lemma has_low_rated (evs : list event) :
  has_low (_analyze_meeting_importance evs) = some_low evs.
Proof.
  unfold has_low, some_low, _analyze_meeting_importance.
  induction evs as [| e r IH]; cbn [map existsb importance];
    [reflexivity | rewrite IH; reflexivity].
Qed.

Lemma busy_of_first (d : dict (list event)) :
  match first_busy d with
  | Some (b, _) => exists rest, busy_of d = b :: rest
  | None => busy_of d = []
  end.
Proof.
  unfold first_busy, busy_of, keys.
  induction d as [| [p evs] r IH]; cbn; [reflexivity |].
  destruct evs as [| e es]; cbn; [exact IH | eexists; reflexivity].
Qed.

Lemma busy_of_all (d : dict (list event)) :
  (forall p evs, In (p, evs) d -> evs <> []) -> busy_of d = keys d.
Proof.
  unfold busy_of, keys. induction d as [| [p evs] r IH]; intros H; cbn.
  - reflexivity.
  - destruct evs as [| e es].
    + exfalso. apply (H p []); [left; reflexivity | reflexivity].
    + cbn. f_equal. apply IH. intros q qs Hin. apply (H q qs). right. exact Hin.
Qed.

(** What [resolve_scheduling_conflicts] returns, for each selected
    action. *)
Lemma resolve_outcome (pr : parsed_request) (d : dict (list event))
    (meeting_duration : Z) (w : Clock.wall) (n : nat) :
  NoDup (keys d) ->
  let run := resolve_scheduling_conflicts pr d meeting_duration w n in
  match selected_action pr d with
  | schedule_all =>
      exists t why,
        run = (Ok (mkresolution schedule_all t (participants pr) why
                     meeting_duration None None None), S n)
  | reschedule_tomorrow =>
      exists why,
        run = (Ok (mkresolution reschedule_tomorrow
                     (iso (tomorrow_slot (of_us (w n) None))) (participants pr) why
                     meeting_duration None None None), S n)
  | schedule_all_with_reschedule =>
      exists b evs t why,
        first_busy d = Some (b, evs)
        /\ run = (Ok (mkresolution schedule_all_with_reschedule t (participants pr)
                        why meeting_duration None None (Some b)), S n)
  | schedule_partial =>
      exists t why,
        run = (Ok (mkresolution schedule_partial t (available_of d) why
                     meeting_duration (Some (busy_of d)) None None), S n)
  | schedule_organizer_first =>
      match participants pr with
      | [] => run = (Raise (IndexError "list index out of range"), S n)
      | _ :: _ =>
          exists t t' why why',
            run = (Ok (mkresolution schedule_organizer_first t
                         (pr_From pr :: available_of d) why meeting_duration None
                         (Some [mkfollow (pr_From pr :: busy_of d) t' why']) None),
                   S (S n))
      end
  end.
Proof.
  intros Hnd run. subst run.
  unfold resolve_scheduling_conflicts, selected_action.
  destruct (_analyze_conflicts_flags d meeting_duration) as (Hfree & Hsome & _).
  destruct (_analyze_conflicts_lists d meeting_duration) as (Hav & Hbusy).
  rewrite Hfree, Hsome.
  destruct (_find_optimal_time_returns pr meeting_duration w n) as (t & Ht).
  destruct (Nat.eqb (List.length (busy_of d)) 0) eqn:Hzero.
  { unfold _schedule_all_participants. rewrite (bind_ok _ _ _ _ _ _ Ht).
    eexists; eexists; reflexivity. }
  assert (Hpos : Nat.ltb 0 (List.length (busy_of d)) = true).
  { apply Nat.ltb_lt. apply Nat.eqb_neq in Hzero. lia. }
  rewrite Hpos. cbn [andb].
  destruct (Nat.ltb (List.length (busy_of d)) (List.length d)) eqn:Hlt.
  2:{ unfold _handle_all_busy.
      rewrite (bind_ok _ _ _ _ _ _ (_get_tomorrow_time_run meeting_duration w n)).
      eexists; reflexivity. }
  unfold _handle_partial_conflicts.
  change (PyStr.any_in critical_keywords (PyStr.lower (subject pr)))
    with (requires_all pr).
  destruct (requires_all pr).
  { unfold _reschedule_for_all.
    rewrite (bind_ok _ _ _ _ _ _ (_get_tomorrow_time_run meeting_duration w n)).
    eexists; reflexivity. }
  rewrite Hbusy, Hav.
  pose proof (busy_of_first d) as Hfirst.
  pose proof (_analyze_conflicts_details d meeting_duration) as Hdet.
  destruct (first_busy d) as [[b evs] |].
  2:{ rewrite Hfirst in Hzero. discriminate. }
  destruct Hfirst as (rest & Hrest).
  specialize (Hdet b evs Hnd eq_refl).
  rewrite Hrest.
  rewrite (bind_ok _ _ w n n b) by reflexivity.
  unfold lookup. rewrite Hdet.
  rewrite (bind_ok _ _ w n n (_analyze_meeting_importance evs)) by reflexivity.
  rewrite has_low_rated.
  destruct (some_low evs).
  { unfold _schedule_with_reschedule. rewrite (bind_ok _ _ _ _ _ _ Ht).
    exists b, evs. eexists; eexists; split; reflexivity. }
  unfold _schedule_partial_meeting. rewrite (bind_ok _ _ _ _ _ _ Ht).
  change (PyStr.contains "feedback" (PyStr.lower (subject pr)))
    with (wants_feedback pr).
  rewrite <- Hrest.
  destruct (wants_feedback pr && Nat.leb 1 (List.length (available_of d)))%bool.
  { eexists; eexists; reflexivity. }
  destruct (participants pr) as [| p0 ps].
  { reflexivity. }
  rewrite (bind_ok _ _ w (S n) (S n) p0) by reflexivity.
  destruct (_find_alternative_time_returns meeting_duration w (S n)) as (t' & Ht').
  rewrite (bind_ok _ _ _ _ _ _ Ht').
  do 4 eexists; reflexivity.
Qed.

End Decision.

(* ===================================================================== *)
(** * Properties of the availability analysis and of the decision *)
(* ===================================================================== *)

Section DecisionProperties.
Import PyTime CalendarUtils ConflictResolver Spec.

Ltac nodup_strings :=
  repeat (apply NoDup_cons; [cbn; intuition discriminate |]); apply NoDup_nil.

(** C9 -- The availability analysis puts a participant in the available
    list exactly when the participant's event list is empty and in the
    busy list exactly when it is not; the two lists have no participant
    in common and together hold exactly the participants of the
    mapping. *)
Theorem C9_availability_partition (d : dict (list event)) (meeting_duration : Z) :
  NoDup (keys d) ->
  let ca := _analyze_conflicts d meeting_duration in
  (forall p, In p (available_participants ca) <-> dict_get d p = Some [])
  /\ (forall p, In p (busy_participants ca)
                <-> exists e es, dict_get d p = Some (e :: es))
  /\ (forall p, ~ (In p (available_participants ca) /\ In p (busy_participants ca)))
  /\ (forall p, In p (keys d)
                <-> In p (available_participants ca) \/ In p (busy_participants ca))
  /\ Permutation (available_participants ca ++ busy_participants ca) (keys d).
Proof.
  intros Hnd ca. subst ca.
  destruct (_analyze_conflicts_lists d meeting_duration) as (-> & ->).
  assert (Hav : forall p, In p (available_of d) <-> dict_get d p = Some []).
  { intros p. rewrite in_available_of. apply dict_get_In, Hnd. }
  assert (Hbu : forall p, In p (busy_of d)
                          <-> exists e es, dict_get d p = Some (e :: es)).
  { intros p. rewrite in_busy_of. split; intros (e & es & H); exists e, es.
    - apply dict_get_In; assumption.
    - apply dict_get_In in H; assumption. }
  split; [exact Hav |]. split; [exact Hbu |]. split; [| split].
  - intros p [Ha Hb]. apply Hav in Ha. apply Hbu in Hb as (e & es & Hb). congruence.
  - intros p. split.
    + intros Hin. apply dict_get_keys in Hin as ([| e es] & Hv).
      * left. apply Hav. exact Hv.
      * right. apply Hbu. exists e, es. exact Hv.
    + intros [Ha | Hb].
      * apply dict_get_keys. exists []. apply Hav. exact Ha.
      * apply Hbu in Hb as (e & es & Hb). apply dict_get_keys. eexists. exact Hb.
  - apply available_busy_permutation.
Qed.

(** The partition on a mapping with one free and two busy participants. *)
Lemma C9_availability_partition_witness :
  NoDup (keys two_busy)
  /\ Permutation
       (available_participants (_analyze_conflicts two_busy 30)
        ++ busy_participants (_analyze_conflicts two_busy 30))
       (keys two_busy).
Proof.
  assert (H : NoDup (keys two_busy)) by (cbn; nodup_strings).
  split; [exact H |].
  apply (C9_availability_partition two_busy 30 H).
Defined.

Lemma selected_reschedule_iff (pr : parsed_request) (d : dict (list event)) :
  selected_action pr d = schedule_all_with_reschedule <-> reschedule_condition pr d.
Proof.
  unfold selected_action, reschedule_condition.
  destruct (Nat.eqb_spec (List.length (busy_of d)) 0) as [Hz | Hz].
  { split; [discriminate | intros ((H & _) & _); lia]. }
  destruct (Nat.ltb_spec (List.length (busy_of d)) (List.length d)) as [Hlt | Hge].
  2:{ split; [discriminate | intros ((_ & H) & _); lia]. }
  destruct (requires_all pr).
  { split; [discriminate | intros (_ & H & _); discriminate]. }
  destruct (first_busy d) as [[b evs] |].
  2:{ split; [discriminate | intros (_ & _ & b & evs & H & _); discriminate]. }
  destruct (some_low evs) eqn:Hlow.
  - split; [intros _ | reflexivity].
    repeat split; try lia. exists b, evs. split; [reflexivity | exact Hlow].
  - split.
    + destruct (wants_feedback pr && _)%bool; discriminate.
    + intros (_ & _ & b' & evs' & E & Hl). injection E as <- <-. congruence.
Qed.

(** The action of a returned resolution is the selected one. *)
Lemma resolve_action (pr : parsed_request) (d : dict (list event))
    (meeting_duration : Z) (w : Clock.wall) (n : nat) (r : resolution) :
  NoDup (keys d) ->
  fst (resolve_scheduling_conflicts pr d meeting_duration w n) = Ok r ->
  action r = selected_action pr d.
Proof.
  intros Hnd Hr.
  pose proof (resolve_outcome pr d meeting_duration w n Hnd) as H. cbv zeta in H.
  destruct (selected_action pr d).
  - destruct H as (t & why & H). rewrite H in Hr. injection Hr as <-. reflexivity.
  - destruct H as (t & why & H). rewrite H in Hr. injection Hr as <-. reflexivity.
  - destruct H as (why & H). rewrite H in Hr. injection Hr as <-. reflexivity.
  - destruct (participants pr).
    + rewrite H in Hr. discriminate.
    + destruct H as (t & t' & why & why' & H). rewrite H in Hr.
      injection Hr as <-. reflexivity.
  - destruct H as (b & evs & t & why & _ & H). rewrite H in Hr.
    injection Hr as <-. reflexivity.
Qed.

(** C1 (as amended) -- The resolver returns the action
    schedule_all_with_reschedule exactly when some but not all
    participants are busy, the subject holds no requires-everyone
    keyword, and the first busy participant of the calendar mapping has
    an interval rated low; the resolution then includes all request
    participants and names that first busy participant as the one whose
    meeting is to be moved. *)
Theorem C1_reschedule_for_first_busy (pr : parsed_request) (d : dict (list event))
    (meeting_duration : Z) (w : Clock.wall) (n : nat) :
  NoDup (keys d) ->
  let outcome := fst (resolve_scheduling_conflicts pr d meeting_duration w n) in
  ((exists r, outcome = Ok r /\ action r = schedule_all_with_reschedule)
   <-> reschedule_condition pr d)
  /\ (forall r, outcome = Ok r -> action r = schedule_all_with_reschedule ->
        participants_to_include r = participants pr
        /\ exists b evs, first_busy d = Some (b, evs) /\ reschedule_needed r = Some b).
Proof.
  intros Hnd outcome. subst outcome.
  pose proof (resolve_outcome pr d meeting_duration w n Hnd) as H. cbv zeta in H.
  split; [split |].
  - intros (r & Hr & Ha). apply selected_reschedule_iff.
    rewrite <- Ha. symmetry. eapply resolve_action; eassumption.
  - intros Hc. apply selected_reschedule_iff in Hc. rewrite Hc in H.
    destruct H as (b & evs & t & why & _ & H). rewrite H.
    eexists. split; reflexivity.
  - intros r Hr Ha.
    assert (Hsel : selected_action pr d = schedule_all_with_reschedule).
    { rewrite <- Ha. symmetry. eapply resolve_action; eassumption. }
    rewrite Hsel in H. destruct H as (b & evs & t & why & Hfb & H).
    rewrite H in Hr. injection Hr as <-. cbn.
    split; [reflexivity |]. exists b, evs. split; [exact Hfb | reflexivity].
Qed.

(** The equivalence on a mapping with one free and two busy participants. *)
Lemma C1_reschedule_for_first_busy_witness :
  NoDup (keys two_busy)
  /\ ((exists r,
          fst (resolve_scheduling_conflicts project_sync two_busy 30
                 thursday_afternoon O) = Ok r
          /\ action r = schedule_all_with_reschedule)
      <-> reschedule_condition project_sync two_busy).
Proof.
  assert (H : NoDup (keys two_busy)) by (cbn; nodup_strings).
  split; [exact H |].
  apply (C1_reschedule_for_first_busy project_sync two_busy 30 thursday_afternoon O H).
Defined.

(** C1, counterexample -- with two busy participants of three the
    resolver still answers schedule_all_with_reschedule, and with a
    single participant who is busy with a low-rated interval it answers
    reschedule_tomorrow. *)
Lemma C1_counterexample :
  (busy_participants (_analyze_conflicts two_busy 30) = ["b@x.com"; "c@x.com"]
   /\ requires_all project_sync = false
   /\ exists r,
        fst (resolve_scheduling_conflicts project_sync two_busy 30
               thursday_afternoon O) = Ok r
        /\ action r = schedule_all_with_reschedule)
  /\ (busy_participants (_analyze_conflicts only_busy 30) = ["b@x.com"]
      /\ requires_all solo_sync = false
      /\ some_low [coffee_break] = true
      /\ exists r,
           fst (resolve_scheduling_conflicts solo_sync only_busy 30
                  thursday_afternoon O) = Ok r
           /\ action r = reschedule_tomorrow).
Proof.
  repeat split; try reflexivity; eexists; split; vm_compute; reflexivity.
Qed.

Lemma tomorrow_slot_next_working_day (t : Z) :
  let now := of_us t None in
  let slot := tomorrow_slot now in
  ordinal now < ordinal slot
  /\ forall o, ordinal now < o < ordinal slot -> 5 <= (o + 6) mod 7.
Proof.
  intros now slot. subst slot. unfold tomorrow_slot.
  assert (Hnow : well_formed now) by apply of_us_well_formed.
  pose proof (add_days now 1 Hnow) as Hadd.
  set (tm := add now (td_days 1)) in *.
  assert (Hwf : well_formed tm) by apply add_well_formed.
  assert (Hord : ordinal tm = ordinal now + 1) by (rewrite Hadd; reflexivity).
  clearbody tm. clear Hadd. clearbody now.
  change (ordinal (replace_microsecond 0 (replace_second 0 (replace_minute 0
            (replace_hour 10 ?x))))) with (ordinal x).
  destruct (is_weekend tm) eqn:Hw.
  - rewrite (add_days tm _ Hwf). cbn [ordinal].
    unfold is_weekend in Hw. apply Z.leb_le in Hw.
    pose proof (weekday_range tm) as Hr.
    unfold days_to_monday. unfold weekday in *. rewrite Hord in *.
    assert ((ordinal now + 1 + 6) mod 7 = 5 \/ (ordinal now + 1 + 6) mod 7 = 6)
      as [E | E] by lia; rewrite E; cbn; split; try lia; intros o Ho.
    + assert (o = ordinal now + 1 \/ o = ordinal now + 2) as [-> | ->] by lia.
      * lia.
      * Z.div_mod_to_equations. lia.
    + assert (o = ordinal now + 1) as -> by lia. lia.
  - split; [lia |]. intros o Ho. lia.
Qed.

(** C5 -- When the calendar mapping is not empty and every participant
    has at least one event, the resolver answers reschedule_tomorrow,
    includes all request participants, and recommends 10:00:00 on the
    first day after today that is a working day (Monday to Friday). *)
Theorem C5_all_busy_reschedule_tomorrow (pr : parsed_request)
    (d : dict (list event)) (meeting_duration : Z) (w : Clock.wall) (n : nat) :
  d <> [] ->
  (forall p evs, In (p, evs) d -> evs <> []) ->
  exists r slot,
    resolve_scheduling_conflicts pr d meeting_duration w n = (Ok r, S n)
    /\ action r = reschedule_tomorrow
    /\ participants_to_include r = participants pr
    /\ recommended_time r = strftime slot "+05:30"
    /\ 0 <= weekday slot <= 4
    /\ hour slot = 10 /\ minute slot = 0 /\ second slot = 0
    /\ ordinal (of_us (w n) None) < ordinal slot
    /\ (forall o, ordinal (of_us (w n) None) < o < ordinal slot -> 5 <= (o + 6) mod 7).
Proof.
  intros Hne Hall.
  unfold resolve_scheduling_conflicts.
  destruct (_analyze_conflicts_flags d meeting_duration) as (Hfree & Hsome & _).
  rewrite Hfree, Hsome, (busy_of_all d Hall). unfold keys. rewrite length_map.
  destruct d as [| kv rest]; [congruence |].
  cbn [List.length Nat.eqb]. rewrite Nat.ltb_irrefl, andb_false_r.
  unfold _handle_all_busy.
  rewrite (bind_ok _ _ _ _ _ _ (_get_tomorrow_time_run meeting_duration w n)).
  pose proof (tomorrow_slot_spec (of_us (w n) None)) as (Hwd & Hh & Hm & Hs & _).
  pose proof (tomorrow_slot_next_working_day (w n)) as (Hlt & Hbetween).
  eexists. exists (tomorrow_slot (of_us (w n) None)).
  split; [reflexivity |]. cbn [action participants_to_include recommended_time].
  repeat split; try assumption; try apply Hwd.
Qed.

(** A sole busy participant on a Friday: the meeting moves to Monday. *)
Lemma C5_all_busy_reschedule_tomorrow_witness :
  exists r slot,
    resolve_scheduling_conflicts solo_sync only_busy 30 friday_afternoon O
    = (Ok r, 1%nat)
    /\ action r = reschedule_tomorrow
    /\ participants_to_include r = participants solo_sync
    /\ recommended_time r = strftime slot "+05:30"
    /\ 0 <= weekday slot <= 4
    /\ hour slot = 10 /\ minute slot = 0 /\ second slot = 0
    /\ ordinal (of_us (friday_afternoon O) None) < ordinal slot
    /\ (forall o, ordinal (of_us (friday_afternoon O) None) < o < ordinal slot ->
                  5 <= (o + 6) mod 7).
Proof.
  apply (C5_all_busy_reschedule_tomorrow solo_sync only_busy 30 friday_afternoon O).
  - discriminate.
  - intros p evs [E | []]. injection E as <- <-. discriminate.
Defined.

End DecisionProperties.

(* ===================================================================== *)
(** * The organizer in the list of included participants *)
(* ===================================================================== *)

Section Organizer.
Import PyTime CalendarUtils ConflictResolver OutputFormatter Spec.

Lemma mem_In (x : string) (l : list string) : mem x l = true <-> In x l.
Proof.
  unfold mem. rewrite existsb_exists. split.
  - intros (y & Hin & E). apply String.eqb_eq in E. subst. exact Hin.
  - intros Hin. exists x. split; [exact Hin | apply String.eqb_refl].
Qed.

Lemma insert_by_In {A} (key : A -> string) (x y : A) (l : list A) :
  In y (PyStr.insert_by key x l) <-> y = x \/ In y l.
Proof.
  induction l as [| z r IH]; cbn.
  - intuition congruence.
  - destruct (String.leb (key x) (key z)); cbn; [intuition congruence |].
    rewrite IH. intuition congruence.
Qed.

(** Sorting keeps the elements. *)
Lemma sorted_by_In {A} (key : A -> string) (y : A) (l : list A) :
  In y (PyStr.sorted_by key l) <-> In y l.
Proof.
  induction l as [| x r IH]; cbn; [tauto |].
  rewrite insert_by_In, IH. intuition congruence.
Qed.

Lemma available_of_NoDup (d : dict (list event)) :
  NoDup (keys d) -> NoDup (available_of d).
Proof.
  unfold available_of, keys. induction d as [| [p evs] r IH]; cbn; intros H.
  - constructor.
  - inversion H as [| ? ? Hnotin Hr]; subst.
    destruct evs; cbn; [| apply IH; exact Hr].
    constructor; [| apply IH; exact Hr].
    intros Hin. apply Hnotin. apply in_map_iff in Hin as (kv & E & Hin).
    apply filter_In in Hin as [Hin _]. apply in_map_iff. exists kv. tauto.
Qed.

(** The meeting entered in the timeline of an included participant
    carries the whole included list and its length. *)
Lemma timeline_meeting (included : list string) (cal : dict (list event))
    (meeting_start meeting_end meeting_subject participant : string) :
  In participant included ->
  In (mkevent meeting_start meeting_end (List.length included) included
        (Some meeting_subject))
     (ae_events (timeline included cal meeting_start meeting_end meeting_subject
                   participant)).
Proof.
  intros Hin. unfold timeline. apply mem_In in Hin. rewrite Hin.
  cbn [ae_events]. apply sorted_by_In. apply in_or_app. right. left. reflexivity.
Qed.

Lemma distinct_enumerates : enumerates distinct.
Proof.
  intros xs. split; [apply NoDup_nodup | intros x; apply nodup_In].
Qed.

(** C10 -- When the action is schedule_organizer_first the included
    list is the organizer (the From address) put in front of the
    available participants; an organizer who is available is therefore
    listed twice, the list is not duplicate-free and holds one entry more
    than it has distinct participants.  The response assembled for a
    request of that organizer has a timeline for the organizer, and the
    meeting entered in the timeline of every included participant has
    the included list as Attendees and its length, one more than the
    number of available participants, as NumAttendees: the duplicate is
    counted. *)
Theorem C10_organizer_listed_twice (pr : parsed_request) (d : dict (list event))
    (meeting_duration : Z) (w : Clock.wall) (n : nat) (r : resolution) :
  NoDup (keys d) ->
  fst (resolve_scheduling_conflicts pr d meeting_duration w n) = Ok r ->
  action r = schedule_organizer_first ->
  let available := available_participants (_analyze_conflicts d meeting_duration) in
  participants_to_include r = pr_From pr :: available
  /\ (In (pr_From pr) available ->
        count_occ string_dec (participants_to_include r) (pr_From pr) = 2%nat
        /\ ~ NoDup (participants_to_include r)
        /\ List.length (nodup string_dec (participants_to_include r))
           = List.length available)
  /\ (forall fromisoformat list_set original_request cal meeting_subject,
        enumerates list_set ->
        get (req_From original_request) "" = pr_From pr ->
        req_Subject original_request = Some meeting_subject ->
        exists resp timelines,
          format_output fromisoformat list_set original_request r cal = Ok resp
          /\ Attendees_ resp = Timelines timelines
          /\ (exists tl, In tl timelines /\ ae_email tl = pr_From pr)
          /\ forall tl, In tl timelines ->
               In (ae_email tl) (participants_to_include r) ->
               exists e, In e (ae_events tl)
                         /\ Summary e = Some meeting_subject
                         /\ StartTime e = recommended_time r
                         /\ NumAttendees e = S (List.length available)
                         /\ Attendees e = participants_to_include r).
Proof.
  intros Hnd Hr Ha available. subst available.
  destruct (_analyze_conflicts_lists d meeting_duration) as (-> & _).
  assert (Hinc : participants_to_include r = pr_From pr :: available_of d).
  { pose proof (resolve_action pr d meeting_duration w n r Hnd Hr) as Hsel.
    rewrite Ha in Hsel.
    pose proof (resolve_outcome pr d meeting_duration w n Hnd) as H. cbv zeta in H.
    rewrite <- Hsel in H.
    destruct (participants pr).
    - rewrite H in Hr. discriminate.
    - destruct H as (t & t' & why & why' & H). rewrite H in Hr.
      injection Hr as <-. reflexivity. }
  pose proof (available_of_NoDup d Hnd) as Havail.
  split; [exact Hinc |]. split.
  - intros Hin. rewrite Hinc. split; [| split].
    + cbn. destruct (string_dec (pr_From pr) (pr_From pr)); [| congruence].
      f_equal. apply NoDup_count_occ' with (decA := string_dec); assumption.
    + intros Hno. inversion Hno; subst. contradiction.
    + cbn [nodup]. destruct (in_dec string_dec (pr_From pr) (available_of d));
        [| contradiction].
      rewrite (nodup_fixed_point string_dec Havail). reflexivity.
  - intros fromisoformat list_set original_request cal meeting_subject
      Hset Hfrom Hsubj.
    unfold format_output. rewrite Hsubj.
    do 2 eexists. split; [reflexivity |]. cbn [Attendees_].
    split; [reflexivity |]. split.
    + eexists. split.
      * unfold _build_attendees_events. apply in_map. unfold request_participants.
        apply (Hset _). left. exact Hfrom.
      * reflexivity.
    + intros tl Htl Hin. unfold _build_attendees_events in Htl.
      apply in_map_iff in Htl as (participant & <- & _).
      cbn [timeline ae_email] in Hin.
      eexists. split; [apply timeline_meeting; exact Hin |].
      cbn [NumAttendees Attendees Summary StartTime]. rewrite Hinc.
      repeat split; reflexivity.
Qed.

(** An organizer who is free, with one busy colleague: the organizer is
    listed twice, and the meeting in the organizer's timeline counts
    three attendees for two distinct participants. *)
Lemma C10_organizer_listed_twice_witness :
  exists r resp timelines,
    fst (resolve_scheduling_conflicts project_sync one_busy_client 30
           thursday_afternoon O) = Ok r
    /\ action r = schedule_organizer_first
    /\ participants_to_include r = ["a@x.com"; "a@x.com"; "b@x.com"]
    /\ count_occ string_dec (participants_to_include r) "a@x.com" = 2%nat
    /\ List.length (nodup string_dec (participants_to_include r)) = 2%nat
    /\ format_output parse_iso distinct thursday_mail r one_busy_client = Ok resp
    /\ Attendees_ resp = Timelines timelines
    /\ (exists tl, In tl timelines /\ ae_email tl = "a@x.com")
    /\ forall tl, In tl timelines -> In (ae_email tl) (participants_to_include r) ->
         exists e, In e (ae_events tl)
                   /\ Summary e = Some "Project sync"
                   /\ StartTime e = recommended_time r
                   /\ NumAttendees e = 3%nat
                   /\ Attendees e = participants_to_include r.
Proof.
  assert (Hnd : NoDup (keys one_busy_client))
    by (cbn; repeat (apply NoDup_cons; [cbn; intuition discriminate |]);
        apply NoDup_nil).
  destruct (fst (resolve_scheduling_conflicts project_sync one_busy_client 30
                   thursday_afternoon O)) as [r | e |] eqn:Hr;
    [| vm_compute in Hr; discriminate | vm_compute in Hr; discriminate].
  assert (Ha : action r = schedule_organizer_first)
    by (vm_compute in Hr; injection Hr as <-; reflexivity).
  destruct (C10_organizer_listed_twice project_sync one_busy_client 30
              thursday_afternoon O r Hnd Hr Ha) as (Hinc & Htwice & Hresp).
  destruct (Htwice (or_introl eq_refl)) as (Hcount & _ & Hlen).
  destruct (Hresp parse_iso distinct thursday_mail one_busy_client "Project sync"
              distinct_enumerates eq_refl eq_refl)
    as (resp & timelines & Hfmt & Hatt & Horg & Hall).
  exists r, resp, timelines.
  split; [reflexivity |]. split; [exact Ha |]. split; [exact Hinc |].
  split; [exact Hcount |]. split; [exact Hlen |]. split; [exact Hfmt |].
  split; [exact Hatt |]. split; [exact Horg | exact Hall].
Defined.

End Organizer.

(* ===================================================================== *)
(** * Importance of a busy interval *)
(* ===================================================================== *)

Section Importance.
Import PyTime CalendarUtils ConflictResolver Spec.

Lemma scan_keywords_spec (lv : level) (keywords : list string) (summary : string)
    (current : level) :
  scan_keywords lv keywords summary current
  = if PyStr.any_in keywords summary then lv else current.
Proof.
  unfold PyStr.any_in. induction keywords as [| k r IH]; cbn; [reflexivity |].
  destruct (PyStr.contains k summary); [reflexivity | exact IH].
Qed.

(** The rating never depends on the keywords of the medium level: it is
    high when a high keyword occurs, otherwise low when a low keyword
    occurs, otherwise medium. *)
Lemma classify_spec (e : event) :
  let summary := PyStr.lower (get (Summary e) "") in
  classify e
  = if PyStr.any_in ["client"; "customer"; "urgent"; "critical"; "ceo"; "board";
                     "emergency"] summary then high
    else if PyStr.any_in ["lunch"; "coffee"; "break"; "personal"; "training"] summary
         then low
         else medium.
Proof.
  intros summary. unfold classify. fold summary.
  unfold importance_keywords. cbn [scan_levels].
  rewrite !scan_keywords_spec.
  destruct (PyStr.any_in _ summary); [reflexivity |].
  cbn [level_eqb negb].
  destruct (PyStr.any_in ["team"; "project"; "review"; "planning"; "discussion"]
              summary);
    cbn [level_eqb negb]; destruct (PyStr.any_in _ summary); reflexivity.
Qed.

(** C2 -- A subject holding the medium keyword "team" and the low keyword
    "lunch" is rated low: the match on the medium level leaves the
    importance at its default, so the scan goes on to the low level. *)
Theorem C2_medium_match_does_not_stop_the_scan :
  PyStr.contains "team" (PyStr.lower "Team lunch") = true
  /\ PyStr.contains "lunch" (PyStr.lower "Team lunch") = true
  /\ map importance (_analyze_meeting_importance [team_lunch]) = [low].
Proof. repeat split; reflexivity. Qed.

End Importance.

(* ===================================================================== *)
(** * Free slots *)
(* ===================================================================== *)

Section FreeSlotProperties.
Import PyTime CalendarUtils ConflictResolver Spec.

(** Without events the only slot starts at 09:00 on the searched day. *)
Lemma find_free_slots_empty (fromisoformat : string -> option datetime)
    (duration_mins : Z) (start_time end_time : string) (ds de : datetime) :
  parse_time fromisoformat start_time = Ok ds ->
  parse_time fromisoformat end_time = Ok de ->
  find_free_slots fromisoformat [] duration_mins start_time end_time
  = [slot_from (replace_minute 0 (replace_hour 9 ds)) duration_mins].
Proof.
  intros Hs He. unfold find_free_slots, acc_bind, acc_lift.
  rewrite Hs, He. reflexivity.
Qed.

Lemma find_free_slots_empty_day :
  find_free_slots parse_iso [] 30 day_start day_end
  = [mkslot "2025-07-17T09:00:00+05:30" "2025-07-17T09:30:00+05:30"].
Proof. vm_compute. reflexivity. Qed.

(** The check before the first event appends the leading slot exactly
    when the first event starts strictly later than [duration_mins]
    minutes after the start of work. *)
Lemma before_first_emits (fromisoformat : string -> option datetime)
    (e : event) (rest : list event) (work_start s : datetime) (duration_mins : Z)
    (later : bool) :
  parse_time fromisoformat (StartTime e) = Ok s ->
  gt s (add work_start (td_minutes duration_mins)) = Ok later ->
  before_first fromisoformat (e :: rest) work_start duration_mins []
  = (if later then [slot_from work_start duration_mins] else [], Ok tt).
Proof.
  intros Hs Hgt. unfold before_first, acc_bind, acc_lift. cbn [rbind].
  rewrite Hs. cbn [rbind]. rewrite Hgt. destruct later; reflexivity.
Qed.

(** C3 -- For a meeting from 10:00 to 10:30 lying inside a meeting from
    09:00 to 12:00 and a duration of 30 minutes, the only slot returned
    is 10:30 to 11:00, which the longer meeting covers. *)
Theorem C3_slot_inside_covering_event :
  find_free_slots parse_iso [short_meeting; long_meeting] 30 day_start day_end
  = [mkslot "2025-07-17T10:30:00+05:30" "2025-07-17T11:00:00+05:30"]
  /\ check_time_conflict parse_iso (StartTime long_meeting) (EndTime long_meeting)
       "2025-07-17T10:30:00+05:30" "2025-07-17T11:00:00+05:30" = true.
Proof. split; vm_compute; reflexivity. Qed.

(** C7 -- With a first event starting at 09:30 and a duration of 30
    minutes the window from 09:00 to the event is exactly 30 minutes
    long, and no leading slot is returned: the only slot is the one
    after the event. *)
Theorem C7_leading_slot_missing_at_exact_fit :
  (try! s <- parse_time parse_iso (StartTime half_past_nine) ;
   try! ds <- parse_time parse_iso day_start ;
   diff s (replace_minute 0 (replace_hour 9 ds))) = Ok (td_minutes 30)
  /\ find_free_slots parse_iso [half_past_nine] 30 day_start day_end
     = [mkslot "2025-07-17T10:00:00+05:30" "2025-07-17T10:30:00+05:30"].
Proof. split; vm_compute; reflexivity. Qed.

(** ** Events that follow one another

    When the events, taken in start order, do not overlap, every slot
    returned is clear of every event. *)

Lemma to_us_of_us (us : Z) (tz : option Z) : to_us (of_us us tz) = us.
Proof.
  unfold to_us, of_us. cbn [ordinal hour minute second microsecond].
  Z.div_mod_to_equations. lia.
Qed.

Lemma utc_us_add (a : datetime) (td oa : Z) :
  utc_us (add a td) oa = utc_us a oa + td.
Proof. unfold utc_us, add. rewrite to_us_of_us. lia. Qed.

Lemma gt_aware (a b : datetime) (oa ob : Z) :
  tzinfo a = Some oa -> tzinfo b = Some ob ->
  gt a b = Ok (utc_us b ob <? utc_us a oa).
Proof.
  intros Ha Hb. unfold gt, order. rewrite Ha, Hb. cbn [rbind]. f_equal.
  rewrite Z.ltb_antisym, Z.leb_compare.
  destruct (utc_us a oa ?= utc_us b ob); reflexivity.
Qed.

Lemma le_aware (a b : datetime) (oa ob : Z) :
  tzinfo a = Some oa -> tzinfo b = Some ob ->
  le a b = Ok (utc_us a oa <=? utc_us b ob).
Proof.
  intros Ha Hb. unfold le, order. rewrite Ha, Hb. reflexivity.
Qed.

Lemma diff_aware (a b : datetime) (oa ob : Z) :
  tzinfo a = Some oa -> tzinfo b = Some ob ->
  diff a b = Ok (utc_us a oa - utc_us b ob).
Proof. intros Ha Hb. unfold diff. rewrite Ha, Hb. reflexivity. Qed.

Lemma last_cons {A} (r : list A) (x d : A) : last (x :: r) d = last r x.
Proof.
  revert x d. induction r as [| y r IH]; intros x d; [reflexivity |].
  change (last (x :: y :: r) d) with (last (y :: r) d).
  rewrite (IH y d), (IH y x). reflexivity.
Qed.

Lemma last_In {A} (r : list A) (x : A) : In (last r x) (x :: r).
Proof.
  revert x. induction r as [| y r IH]; intros x; [left; reflexivity |].
  right. rewrite last_cons. apply IH.
Qed.

Section Chained.
Variable fromisoformat : string -> option datetime.
Variable duration_mins : Z.

Lemma spans_fun (e : event) (s t s' t' : Z) :
  spans fromisoformat e s t -> spans fromisoformat e s' t' -> s = s' /\ t = t'.
Proof.
  intros (ds & dt & os & ot & H1 & H2 & H3 & H4 & -> & ->)
         (ds' & dt' & os' & ot' & K1 & K2 & K3 & K4 & -> & ->).
  rewrite H1 in K1. rewrite H2 in K2. injection K1 as <-. injection K2 as <-.
  rewrite H3 in K3. rewrite H4 in K4. injection K3 as <-. injection K4 as <-.
  split; reflexivity.
Qed.

Lemma chained_weaken (lo lo' : Z) (l : list event) :
  lo' <= lo -> chained fromisoformat lo l -> chained fromisoformat lo' l.
Proof.
  destruct l as [| e r]; cbn; [tauto |].
  intros Hle (s & t & Hsp & Hlo & Hst & Hr). exists s, t. repeat split; try assumption.
  lia.
Qed.

(** Every event of a chain starts at or after its lower bound. *)
Lemma chained_starts (lo : Z) (l : list event) (e : event) :
  chained fromisoformat lo l -> In e l ->
  exists s t, spans fromisoformat e s t /\ lo <= s /\ s <= t.
Proof.
  revert lo. induction l as [| x r IH]; intros lo Hch Hin; [contradiction |].
  cbn in Hch. destruct Hch as (s & t & Hsp & Hlo & Hst & Hr).
  destruct Hin as [<- | Hin].
  - exists s, t. tauto.
  - destruct (IH t Hr Hin) as (s' & t' & Hsp' & Hlo' & Hst').
    exists s', t'. repeat split; try assumption. lia.
Qed.

(** Every event of a chain ends at or before the end of its last event. *)
Lemma chained_ends (lo : Z) (e0 : event) (r : list event) (e : event) :
  chained fromisoformat lo (e0 :: r) -> In e (e0 :: r) ->
  exists s t s' t',
    spans fromisoformat e s t /\ spans fromisoformat (last r e0) s' t'
    /\ t <= t' /\ lo <= s'.
Proof.
  revert lo e0 e. induction r as [| x r IH]; intros lo e0 e Hch Hin.
  - destruct Hin as [<- | []]. cbn in Hch.
    destruct Hch as (s & t & Hsp & Hlo & Hst & _).
    exists s, t, s, t. cbn. repeat split; try assumption. lia.
  - destruct Hch as (s & t & Hsp & Hlo & Hst & Hr).
    rewrite last_cons.
    destruct Hin as [<- | Hin].
    + destruct (IH t x x Hr (or_introl eq_refl))
        as (s1 & t1 & s' & t' & H1 & H2 & H3 & H4).
      cbn in Hr. destruct Hr as (sx & tx & Hx & Hlx & Hstx & _).
      destruct (spans_fun _ _ _ _ _ H1 Hx) as [-> ->].
      exists s, t, s', t'. repeat split; try assumption; lia.
    + destruct (IH t x e Hr Hin) as (s1 & t1 & s' & t' & H1 & H2 & H3 & H4).
      exists s1, t1, s', t'. repeat split; try assumption. lia.
Qed.

Lemma slot_origin_cons (e : event) (l : list event) (work_start a : datetime) :
  slot_origin fromisoformat l work_start a ->
  slot_origin fromisoformat (e :: l) work_start a.
Proof.
  intros [H | (e' & Hin & H)]; [left; exact H | right].
  exists e'. split; [right; exact Hin | exact H].
Qed.

(** The slots found between the events of a chain. *)
Lemma between_chained (l : list event) (work_start : datetime) (lo : Z)
    (fs : list slot) :
  chained fromisoformat lo l ->
  exists gaps,
    between fromisoformat l duration_mins fs = ((fs ++ gaps)%list, Ok tt)
    /\ forall sl, In sl gaps ->
         free_slot fromisoformat duration_mins l work_start lo sl.
Proof.
  revert lo fs. induction l as [| e1 r IH]; intros lo fs Hch.
  { exists []. cbn. rewrite app_nil_r. split; [reflexivity | contradiction]. }
  destruct r as [| e2 r].
  { exists []. cbn. rewrite app_nil_r. split; [reflexivity | contradiction]. }
  destruct Hch as (s1 & t1 & Hsp1 & Hlo1 & Hst1 & Hr).
  pose proof Hr as (s2 & t2 & Hsp2 & Hlo2 & Hst2 & Hr2).
  destruct Hsp1 as (ds1 & dt1 & os1 & ot1 & P1 & P1' & Z1 & Z1' & -> & ->).
  destruct Hsp2 as (ds2 & dt2 & os2 & ot2 & P2 & P2' & Z2 & Z2' & -> & ->).
  assert (Hsp1 : spans fromisoformat e1 (utc_us ds1 os1) (utc_us dt1 ot1))
    by (exists ds1, dt1, os1, ot1; tauto).
  change (between fromisoformat (e1 :: e2 :: r) duration_mins fs)
    with (acc_bind (acc_lift (parse_time fromisoformat (EndTime e1))) (fun event_end =>
          acc_bind (acc_lift (parse_time fromisoformat (StartTime e2)))
            (fun next_event_start =>
          acc_bind (acc_lift (diff next_event_start event_end)) (fun gap =>
          acc_bind (when (td_minutes duration_mins <=? gap)
                         (append (slot_from event_end duration_mins))) (fun _ =>
          between fromisoformat (e2 :: r) duration_mins)))) fs).
  unfold acc_bind at 1, acc_lift at 1. rewrite P1'.
  unfold acc_bind at 1, acc_lift at 1. rewrite P2.
  unfold acc_bind at 1, acc_lift at 1. rewrite (diff_aware _ _ _ _ Z2 Z1').
  unfold acc_bind at 1, when.
  destruct (td_minutes duration_mins <=? utc_us ds2 os2 - utc_us dt1 ot1) eqn:Hgap.
  - unfold append at 1.
    destruct (IH (utc_us dt1 ot1) (fs ++ [slot_from dt1 duration_mins])%list Hr)
      as (gaps & Hrun & Hfree).
    rewrite Hrun. exists (slot_from dt1 duration_mins :: gaps). split.
    + rewrite <- app_assoc. reflexivity.
    + apply Z.leb_le in Hgap. intros sl [<- | Hin].
      * exists dt1, ot1. split; [reflexivity |].
        split; [right; exists e1; split; [left; reflexivity | exact P1'] |].
        repeat split; try assumption; try lia.
        intros e [<- | Hin].
        -- exists (utc_us ds1 os1), (utc_us dt1 ot1). split; [exact Hsp1 | lia].
        -- destruct Hin as [<- | Hin].
           ++ assert (Hsp2 : spans fromisoformat e2 (utc_us ds2 os2) (utc_us dt2 ot2))
                by (exists ds2, dt2, os2, ot2; tauto).
              exists (utc_us ds2 os2), (utc_us dt2 ot2). split; [exact Hsp2 | lia].
           ++ destruct (chained_starts _ _ _ Hr2 Hin) as (s' & t' & Hsp' & Hlo' & _).
              exists s', t'. split; [exact Hsp' | lia].
      * destruct (Hfree sl Hin) as (a & oa & -> & Horig & Htz & Hlo & Hclear).
        exists a, oa. split; [reflexivity |].
        split; [apply slot_origin_cons; exact Horig |].
        repeat split; try assumption; try lia.
        intros e [<- | Hin'].
        -- exists (utc_us ds1 os1), (utc_us dt1 ot1). split; [exact Hsp1 | lia].
        -- apply Hclear. exact Hin'.
  - unfold acc_ret at 1.
    destruct (IH (utc_us dt1 ot1) fs Hr) as (gaps & Hrun & Hfree).
    rewrite Hrun. exists gaps. split; [reflexivity |].
    intros sl Hin.
    destruct (Hfree sl Hin) as (a & oa & -> & Horig & Htz & Hlo & Hclear).
    exists a, oa. split; [reflexivity |].
    split; [apply slot_origin_cons; exact Horig |].
    repeat split; try assumption; try lia.
    intros e [<- | Hin'].
    + exists (utc_us ds1 os1), (utc_us dt1 ot1). split; [exact Hsp1 | lia].
    + apply Hclear. exact Hin'.
Qed.

(** The slot found before the first event of a chain. *)
Lemma before_first_chained (l : list event) (lo : Z) (work_start : datetime)
    (ow : Z) :
  tzinfo work_start = Some ow -> 0 < duration_mins ->
  chained fromisoformat lo l ->
  exists lead,
    before_first fromisoformat l work_start duration_mins [] = (lead, Ok tt)
    /\ forall sl, In sl lead ->
         free_slot fromisoformat duration_mins l work_start (utc_us work_start ow) sl.
Proof.
  intros Hw Hdur Hch. destruct l as [| e1 r].
  { exists [slot_from work_start duration_mins]. split; [reflexivity |].
    intros sl [<- | []]. exists work_start, ow.
    split; [reflexivity |]. split; [left; reflexivity |].
    repeat split; try assumption; try lia. contradiction. }
  pose proof Hch as (s1 & t1 & Hsp1 & Hlo1 & Hst1 & Hr).
  destruct Hsp1 as (ds1 & dt1 & os1 & ot1 & P1 & P1' & Z1 & Z1' & -> & ->).
  assert (Htz : tzinfo (add work_start (td_minutes duration_mins)) = Some ow)
    by exact Hw.
  rewrite (before_first_emits fromisoformat e1 r work_start ds1 duration_mins _ P1
             (gt_aware _ _ _ _ Z1 Htz)).
  rewrite utc_us_add.
  destruct (utc_us work_start ow + td_minutes duration_mins <? utc_us ds1 os1) eqn:Hlt.
  - eexists. split; [reflexivity |]. apply Z.ltb_lt in Hlt.
    intros sl [<- | []]. exists work_start, ow.
    split; [reflexivity |]. split; [left; reflexivity |].
    repeat split; try assumption; try lia.
    intros e Hin. destruct Hin as [<- | Hin].
    + assert (Hsp1 : spans fromisoformat e1 (utc_us ds1 os1) (utc_us dt1 ot1))
        by (exists ds1, dt1, os1, ot1; tauto).
      exists (utc_us ds1 os1), (utc_us dt1 ot1). split; [exact Hsp1 | lia].
    + destruct (chained_starts _ _ _ Hr Hin) as (s' & t' & Hsp' & Hlo' & _).
      exists s', t'. split; [exact Hsp' | lia].
  - exists []. split; [reflexivity | contradiction].
Qed.

(** The slot found after the last event of a chain. *)
Lemma after_last_chained (l : list event) (work_start : datetime) (lo : Z)
    (work_end : datetime) (ow : Z) (fs : list slot) :
  tzinfo work_end = Some ow ->
  chained fromisoformat lo l ->
  exists tail,
    after_last fromisoformat l work_end duration_mins fs = ((fs ++ tail)%list, Ok tt)
    /\ forall sl, In sl tail ->
         free_slot fromisoformat duration_mins l work_start lo sl.
Proof.
  intros Hw Hch. destruct l as [| e0 r].
  { exists []. cbn. rewrite app_nil_r. split; [reflexivity | contradiction]. }
  destruct (chained_ends lo e0 r e0 Hch (or_introl eq_refl))
    as (_ & _ & sL & tL & _ & HspL & _ & HloL).
  pose proof HspL as (dsL & dtL & osL & otL & PL & PL' & ZL & ZL' & EsL & EtL).
  unfold after_last.
  unfold acc_bind at 1, acc_lift at 1. rewrite PL'.
  assert (Htz : tzinfo (add dtL (td_minutes duration_mins)) = Some otL) by exact ZL'.
  unfold acc_bind at 1, acc_lift at 1. rewrite (le_aware _ _ _ _ Htz Hw).
  unfold when.
  assert (Hfree : free_slot fromisoformat duration_mins (e0 :: r) work_start lo
                    (slot_from dtL duration_mins)).
  { exists dtL, otL. split; [reflexivity |].
    split; [right; exists (last r e0); split; [apply last_In | exact PL'] |].
    repeat split; try assumption.
    - destruct (chained_starts _ _ _ Hch (or_introl eq_refl)) as (s0 & t0 & _ & H0 & _).
      destruct (chained_ends lo e0 r e0 Hch (or_introl eq_refl))
        as (sa & ta & sb & tb & Ha & Hb & Hab & Hlb).
      destruct (spans_fun _ _ _ _ _ Hb HspL) as [-> ->].
      assert (sL <= tL).
      { destruct r as [| x r'].
        - cbn in Hch. destruct Hch as (s & t & Hsp & _ & Hst & _).
          cbn in HspL. destruct (spans_fun _ _ _ _ _ Hsp HspL) as [-> ->]. exact Hst.
        - assert (Hin : In (last (x :: r') e0) (e0 :: x :: r')) by apply last_In.
          destruct (chained_starts _ _ _ Hch Hin) as (s & t & Hsp & _ & Hst).
          destruct (spans_fun _ _ _ _ _ Hsp HspL) as [-> ->]. exact Hst. }
      lia.
    - intros e Hin.
      destruct (chained_ends lo e0 r e Hch Hin) as (s & t & s' & t' & He & HL & Hle & _).
      destruct (spans_fun _ _ _ _ _ HL HspL) as [-> ->].
      exists s, t. split; [exact He | lia]. }
  destruct (_ <=? _).
  - exists [slot_from dtL duration_mins]. split; [reflexivity |].
    intros sl [<- | []]. exact Hfree.
  - exists []. cbn. rewrite app_nil_r. split; [reflexivity | contradiction].
Qed.

(** X15 -- For events that follow one another in start order without
    overlap, and a searched day given with its UTC offset, every slot
    returned starts at 09:00 of the searched day or at the time to which
    the end of one of the events parses, lasts [duration_mins] minutes
    from there, and is clear of every event: on the UTC time line it ends
    at or before the start of the event or starts at or after its end. *)
Theorem find_free_slots_clear (events : list event) (start_time end_time : string)
    (ds de : datetime) (os lo : Z) :
  0 < duration_mins ->
  parse_time fromisoformat start_time = Ok ds -> tzinfo ds = Some os ->
  parse_time fromisoformat end_time = Ok de ->
  chained fromisoformat lo (PyStr.sorted_by StartTime events) ->
  forall sl,
    In sl (find_free_slots fromisoformat events duration_mins start_time end_time) ->
    exists a oa,
      sl = slot_from a duration_mins
      /\ slot_origin fromisoformat events (replace_minute 0 (replace_hour 9 ds)) a
      /\ tzinfo a = Some oa
      /\ forall e, In e events ->
           clear_of fromisoformat (utc_us a oa) (td_minutes duration_mins) e.
Proof.
  intros Hdur Hs Hos He Hch sl Hin.
  unfold find_free_slots in Hin.
  unfold acc_bind at 1, acc_lift at 1 in Hin. rewrite Hs in Hin.
  unfold acc_bind at 1, acc_lift at 1 in Hin. rewrite He in Hin.
  cbv zeta in Hin.
  set (L := PyStr.sorted_by StartTime events) in *.
  set (ws := replace_minute 0 (replace_hour 9 ds)) in *.
  set (we := replace_minute 0 (replace_hour 18 ds)) in *.
  destruct (before_first_chained L lo ws os Hos Hdur Hch) as (lead & H1 & F1).
  unfold acc_bind at 1 in Hin. rewrite H1 in Hin.
  destruct (between_chained L ws lo lead Hch) as (gaps & H2 & F2).
  unfold acc_bind at 1 in Hin. rewrite H2 in Hin.
  destruct (after_last_chained L ws lo we os (lead ++ gaps)%list Hos Hch)
    as (tail & H3 & F3).
  rewrite H3 in Hin. cbn [fst] in Hin.
  assert (Hfree : exists lo', free_slot fromisoformat duration_mins L ws lo' sl).
  { apply in_app_or in Hin as [Hin | Hin]; [apply in_app_or in Hin as [Hin | Hin] |];
      eexists; eauto. }
  destruct Hfree as (lo' & a & oa & -> & Horig & Htz & _ & Hclear).
  exists a, oa. split; [reflexivity |]. split.
  { destruct Horig as [E | (e & Hine & Hp)]; [left; exact E | right].
    exists e. split; [apply sorted_by_In in Hine; exact Hine | exact Hp]. }
  split; [exact Htz |].
  intros e Hine. apply Hclear. apply sorted_by_In. exact Hine.
Qed.

End Chained.

(** The statement above at work: two meetings that follow one another,
    09:30 to 10:00 and 10:00 to 10:30. *)
Example find_free_slots_clear_at_work :
  Forall (fun sl =>
            exists a oa,
              sl = slot_from a 30
              /\ slot_origin parse_iso [short_meeting; half_past_nine]
                   (mkdt (ymd2ord 2025 7 17) 9 0 0 0 (Some 330)) a
              /\ tzinfo a = Some oa
              /\ forall e, In e [short_meeting; half_past_nine] ->
                   clear_of parse_iso (utc_us a oa) (td_minutes 30) e)
    (find_free_slots parse_iso [short_meeting; half_past_nine] 30 day_start day_end).
Proof.
  apply Forall_forall. cbv beta.
  eapply (find_free_slots_clear parse_iso 30 _ day_start day_end
            (mkdt (ymd2ord 2025 7 17) 0 0 0 0 (Some 330)) _ 330 0);
    try reflexivity.
  cbn [PyStr.sorted_by PyStr.insert_by].
  change (String.leb (StartTime half_past_nine) (StartTime short_meeting)) with true.
  change (String.leb (StartTime short_meeting) (StartTime half_past_nine)) with false.
  cbv iota.
  do 2 eexists. split.
  { do 4 eexists. repeat split; reflexivity. }
  split; [vm_compute; discriminate |]. split; [vm_compute; discriminate |].
  do 2 eexists. split.
  { do 4 eexists. repeat split; reflexivity. }
  split; [vm_compute; discriminate |]. split; [vm_compute; discriminate |].
  exact I.
Defined.

End FreeSlotProperties.

(* ===================================================================== *)
(** * Weekend requests *)
(* ===================================================================== *)

Section Weekend.
Import PyTime CalendarUtils ConflictResolver OutputFormatter MeetingAssistant Spec.

Lemma any_in_intro (keywords : list string) (k s : string) :
  In k keywords -> PyStr.contains k s = true -> PyStr.any_in keywords s = true.
Proof.
  intros Hin Hc. unfold PyStr.any_in. apply existsb_exists. exists k. tauto.
Qed.

Lemma weekend_day_is_weekend_constraint (time_constraint : string) :
  PyStr.contains "saturday" (PyStr.lower time_constraint) = true
  \/ PyStr.contains "sunday" (PyStr.lower time_constraint) = true ->
  check_weekend_constraint time_constraint = true.
Proof.
  unfold check_weekend_constraint, weekend_keywords.
  intros [H | H]; eapply any_in_intro; try exact H; cbn; tauto.
Qed.

(** A weekend constraint makes the calendar step raise before any
    calendar is consulted. *)
Lemma _get_all_participants_events_weekend
    (fetched : list string -> string -> string -> dict (list event))
    (pr : parsed_request) (w : Clock.wall) (n : nat) :
  time_constraints pr = "weekend"
  \/ PyStr.contains "saturday" (PyStr.lower (time_constraints pr)) = true
  \/ PyStr.contains "sunday" (PyStr.lower (time_constraints pr)) = true ->
  _get_all_participants_events fetched pr w n
  = (Raise weekend_error,
     if String.eqb (time_constraints pr) "weekend" then n else S n).
Proof.
  intros H. unfold _get_all_participants_events.
  destruct (String.eqb_spec (time_constraints pr) "weekend") as [E | E];
    [reflexivity |].
  destruct H as [H | H]; [congruence |].
  unfold get_date_range_from_constraint.
  cbv beta iota zeta delta [Clock.bind Clock.now].
  rewrite (weekend_day_is_weekend_constraint _ H). reflexivity.
Qed.

(** C4 -- A request whose parsed time constraint is "weekend", or
    mentions Saturday or Sunday, is answered by the weekend rejection
    whatever the calendar service would return: the response repeats the
    envelope of the request, leaves EventStart, EventEnd and
    Duration_mins empty and carries the status "rejected" with a reason
    and a message. *)
Theorem C4_weekend_request_rejected
    (fromisoformat : string -> option datetime)
    (list_set : list string -> list string)
    (ai_agent : option (string -> result ai_parsed))
    (data : request) (w : Clock.wall) (n : nat) :
  let pr := _parse_meeting_request list_set ai_agent data in
  time_constraints pr = "weekend"
  \/ PyStr.contains "saturday" (PyStr.lower (time_constraints pr)) = true
  \/ PyStr.contains "sunday" (PyStr.lower (time_constraints pr)) = true ->
  exists resp reason message,
    (forall fetched,
        your_meeting_assistant fromisoformat list_set ai_agent fetched data w n
        = (Ok resp, if String.eqb (time_constraints pr) "weekend" then n else S n))
    /\ Request_id resp = get (req_Request_id data) ""
    /\ Datetime resp = get (req_Datetime data) ""
    /\ Location resp = get (req_Location data) ""
    /\ From_ resp = get (req_From data) ""
    /\ Attendees_ resp = RequestAttendees (get (req_Attendees data) [])
    /\ Subject resp = get (req_Subject data) ""
    /\ EmailContent resp = get (req_EmailContent data) ""
    /\ EventStart resp = "" /\ EventEnd resp = "" /\ Duration_mins resp = ""
    /\ MetaData resp = MetaRejected "rejected" reason message.
Proof.
  intros pr H.
  exists (_create_weekend_rejection_response data). do 2 eexists.
  split; [| repeat split; reflexivity].
  intros fetched. unfold your_meeting_assistant, Clock.catch.
  fold pr.
  rewrite (bind_raise _ _ _ _ _ _ (_get_all_participants_events_weekend fetched pr w n H)).
  reflexivity.
Qed.

(** A mail asking for Saturday, without a language-model parser. *)
Lemma C4_weekend_request_rejected_witness :
  exists resp reason message,
    (forall fetched,
        your_meeting_assistant parse_iso distinct None fetched weekend_mail
          thursday_afternoon O = (Ok resp, O))
    /\ EventStart resp = "" /\ EventEnd resp = "" /\ Duration_mins resp = ""
    /\ MetaData resp = MetaRejected "rejected" reason message.
Proof.
  destruct (C4_weekend_request_rejected parse_iso distinct None weekend_mail
              thursday_afternoon O (or_introl eq_refl))
    as (resp & reason & message & Hrun & _ & _ & _ & _ & _ & _ & _ & Hs & He & Hd & Hm).
  exists resp, reason, message. repeat split; assumption.
Defined.

End Weekend.

(* ===================================================================== *)
(** * End time of a recommended start that is not a timestamp *)
(* ===================================================================== *)

Section EndTime.
Import PyTime CalendarUtils ConflictResolver OutputFormatter Spec.

(** C6 (as amended) -- When the recommended start does not parse, the
    end-time computation returns the start string unchanged, and for a
    request that has a Subject the assembler returns a response whose
    EventStart and EventEnd are both that string. *)
Theorem C6_unparsed_start_is_echoed
    (fromisoformat : string -> option datetime)
    (list_set : list string -> list string)
    (original_request : request) (r : resolution) (cal : dict (list event))
    (meeting_subject : string) :
  fromisoformat (PyStr.replace "+05:30" "" (recommended_time r)) = None ->
  req_Subject original_request = Some meeting_subject ->
  _calculate_end_time fromisoformat (recommended_time r) (meeting_duration r)
  = recommended_time r
  /\ exists resp,
       format_output fromisoformat list_set original_request r cal = Ok resp
       /\ EventStart resp = recommended_time r
       /\ EventEnd resp = recommended_time r.
Proof.
  intros Hparse Hsubj.
  assert (Hend : _calculate_end_time fromisoformat (recommended_time r)
                   (meeting_duration r) = recommended_time r).
  { unfold _calculate_end_time. rewrite Hparse. reflexivity. }
  split; [exact Hend |].
  unfold format_output. rewrite Hsubj, Hend.
  eexists. split; [reflexivity |]. split; reflexivity.
Qed.

(** A resolution whose recommended time is not a timestamp. *)
Lemma C6_unparsed_start_is_echoed_witness :
  exists resp,
    format_output parse_iso distinct thursday_mail broken_resolution two_busy = Ok resp
    /\ EventStart resp = "not a timestamp"
    /\ EventEnd resp = "not a timestamp".
Proof.
  apply (C6_unparsed_start_is_echoed parse_iso distinct thursday_mail
           broken_resolution two_busy "Project sync"); reflexivity.
Defined.

(** C6, counterexample -- a recommended start that is not a timestamp
    yields a response, not an error, and its EventEnd repeats the
    unparsed text. *)
Lemma C6_counterexample :
  parse_iso (PyStr.replace "+05:30" "" (recommended_time broken_resolution)) = None
  /\ exists resp,
       format_output parse_iso distinct thursday_mail broken_resolution two_busy
       = Ok resp
       /\ EventEnd resp = recommended_time broken_resolution.
Proof.
  split; [reflexivity |]. eexists. split; [vm_compute; reflexivity | reflexivity].
Qed.

End EndTime.

(* ===================================================================== *)
(** * Reproducibility of the time resolution *)
(* ===================================================================== *)

Section Reproducibility.
Import PyTime CalendarUtils ConflictResolver Spec.

(** C8 (as amended) -- The lookup window, the optimal meeting start, the
    tomorrow slot and the follow-up time each read the wall clock
    exactly once and always return a value; that value is fixed by the
    declared inputs together with this one reading, so two runs that
    obtain the same reading return the same result. *)
Theorem C8_fixed_by_inputs_and_one_clock_reading
    (time_constraint : string) (pr : parsed_request) (duration : Z) :
  one_reading (get_date_range_from_constraint time_constraint duration)
  /\ one_reading (_find_optimal_time pr duration)
  /\ one_reading (_get_tomorrow_time duration)
  /\ one_reading (_find_alternative_time duration).
Proof.
  split; [apply get_date_range_one_reading |].
  split; [apply _find_optimal_time_one_reading |].
  split; [apply _get_tomorrow_time_one_reading
         | apply _find_alternative_time_one_reading].
Qed.

(** C8, counterexample -- the tomorrow slot takes no reference instant:
    called with the same arguments on Thursday and on Friday it returns
    different times, each call having read the wall clock once. *)
Lemma C8_counterexample :
  Clock.value (_get_tomorrow_time 30) thursday_afternoon
  = Ok "2025-07-18T10:00:00+05:30"
  /\ Clock.value (_get_tomorrow_time 30) friday_afternoon
     = Ok "2025-07-21T10:00:00+05:30"
  /\ Clock.reads (_get_tomorrow_time 30) thursday_afternoon = 1%nat
  /\ Clock.value (_find_alternative_time 30) thursday_afternoon
     = Ok "2025-07-17T16:00:00+05:30"
  /\ Clock.value (_find_alternative_time 30) friday_afternoon
     = Ok "2025-07-18T16:00:00+05:30".
Proof. repeat split; vm_compute; reflexivity. Qed.

End Reproducibility.

(* ===================================================================== *)
(** * Further properties: the times proposed by the resolver *)
(* ===================================================================== *)

Section ProposedTimes.
Import PyTime CalendarUtils ConflictResolver AiAgent Spec.

(** Rounding a well-formed value down to the hour. *)
Lemma to_us_on_the_hour (d : datetime) :
  well_formed d ->
  let r := replace_microsecond 0 (replace_second 0 (replace_minute 0 d)) in
  to_us r <= to_us d < to_us r + 3600000000.
Proof.
  intros (Hh & Hm & Hs & Hu). destruct d as [o h m s u tz].
  cbn [hour minute second microsecond] in *. unfold to_us. cbn. lia.
Qed.

Lemma days_ahead_range (target : Z) (d : datetime) :
  0 <= target < 7 -> 1 <= days_ahead target d <= 7.
Proof.
  intros Ht. unfold days_ahead. pose proof (weekday_range d).
  destruct (target - weekday d <=? 0) eqn:E;
    [apply Z.leb_le in E | apply Z.leb_gt in E]; lia.
Qed.

(** The day proposed for a named weekday, at [h]:[m]. *)
Lemma at_time_next (k h m : Z) (t : Z) :
  0 <= k < 7 ->
  let now := at_reading t in
  let d := replace_minute m (replace_hour h (add now (td_days (days_ahead k now)))) in
  at_time h m (add now (td_days (days_ahead k now))) = iso d
  /\ weekday d = k
  /\ ordinal now < ordinal d <= ordinal now + 7
  /\ hour d = h /\ minute d = m
  /\ second d = second now /\ microsecond d = microsecond now.
Proof.
  intros Hk now d. subst d.
  assert (Hwf : well_formed now) by apply of_us_well_formed.
  pose proof (days_ahead_range k now Hk) as Hr.
  split; [reflexivity |]. split.
  { change (weekday (replace_minute m (replace_hour h ?x))) with (weekday x).
    apply weekday_next; assumption. }
  rewrite (add_days now _ Hwf). cbn [ordinal hour minute second microsecond
    replace_minute replace_hour].
  repeat split; try reflexivity; lia.
Qed.

(** X1 -- For a constraint that names a working day, the optimal time
    is on the next occurrence of that weekday, strictly after today and
    at most seven days ahead, at 10:30 when the day is Thursday and at
    09:00, 10:00 or 11:00 otherwise; its seconds are those of the wall
    clock, which is read once. *)
Theorem X1_optimal_time_on_named_day (pr : parsed_request) (meeting_duration : Z)
    (w : Clock.wall) (n : nat) (k : Z) :
  named_day (PyStr.lower (time_constraints pr)) = Some k ->
  exists d,
    _find_optimal_time pr meeting_duration w n = (Ok (iso d), S n)
    /\ weekday d = k
    /\ ordinal (at_reading (w n)) < ordinal d <= ordinal (at_reading (w n)) + 7
    /\ (k = 3 -> hour d = 10 /\ minute d = 30)
    /\ (k <> 3 -> 9 <= hour d <= 11 /\ minute d = 0)
    /\ second d = second (at_reading (w n)).
Proof.
  unfold named_day, _find_optimal_time, _get_next_thursday, _get_next_monday,
    _get_next_tuesday, _get_next_wednesday, _get_next_friday.
  intros Hk.
  destruct (PyStr.contains "thursday" _).
  { injection Hk as <-. unfold Clock.bind at 1. rewrite get_next_run.
    unfold Clock.bind. rewrite next_thursday_not_weekend.
    destruct (at_time_next 3 10 30 (w n)) as (E & Hw & Ho & Hh & Hm & Hs & _); [lia |].
    unfold at_reading in *. eexists. split; [unfold Clock.ret; rewrite E; reflexivity |].
    repeat split; try assumption; try apply Ho; try lia. }
  destruct (PyStr.contains "monday" _).
  { injection Hk as <-. unfold Clock.bind. rewrite get_next_run.
    destruct (PyStr.contains "9:00" _).
    - destruct (at_time_next 0 9 0 (w n)) as (E & Hw & Ho & Hh & Hm & Hs & _); [lia |].
      unfold at_reading in *. eexists. split; [unfold Clock.ret; rewrite E; reflexivity |].
      repeat split; try assumption; try apply Ho; try lia.
    - destruct (at_time_next 0 10 0 (w n)) as (E & Hw & Ho & Hh & Hm & Hs & _); [lia |].
      unfold at_reading in *. eexists. split; [unfold Clock.ret; rewrite E; reflexivity |].
      repeat split; try assumption; try apply Ho; try lia. }
  destruct (PyStr.contains "tuesday" _).
  { injection Hk as <-. unfold Clock.bind. rewrite get_next_run.
    destruct (PyStr.contains "11:00" _).
    - destruct (at_time_next 1 11 0 (w n)) as (E & Hw & Ho & Hh & Hm & Hs & _); [lia |].
      unfold at_reading in *. eexists. split; [unfold Clock.ret; rewrite E; reflexivity |].
      repeat split; try assumption; try apply Ho; try lia.
    - destruct (at_time_next 1 10 0 (w n)) as (E & Hw & Ho & Hh & Hm & Hs & _); [lia |].
      unfold at_reading in *. eexists. split; [unfold Clock.ret; rewrite E; reflexivity |].
      repeat split; try assumption; try apply Ho; try lia. }
  destruct (PyStr.contains "wednesday" _).
  { injection Hk as <-. unfold Clock.bind. rewrite get_next_run.
    destruct (at_time_next 2 10 0 (w n)) as (E & Hw & Ho & Hh & Hm & Hs & _); [lia |].
    destruct (PyStr.contains "10:00" _);
      (unfold at_reading in *; eexists; split; [unfold Clock.ret; rewrite E; reflexivity |]);
      repeat split; try assumption; try apply Ho; try lia. }
  destruct (PyStr.contains "friday" _); [| discriminate].
  injection Hk as <-. unfold Clock.bind. rewrite get_next_run.
  destruct (at_time_next 4 10 0 (w n)) as (E & Hw & Ho & Hh & Hm & Hs & _); [lia |].
  unfold at_reading in *. eexists. split; [unfold Clock.ret; rewrite E; reflexivity |].
  repeat split; try assumption; try apply Ho; try lia.
Qed.

(** On Thursday 17 July 2025 a Thursday is asked for: the meeting is
    proposed a week later. *)
Lemma X1_optimal_time_on_named_day_witness :
  exists d,
    _find_optimal_time project_sync 30 thursday_afternoon O = (Ok (iso d), 1%nat)
    /\ weekday d = 3
    /\ ordinal (at_reading (thursday_afternoon O)) < ordinal d
       <= ordinal (at_reading (thursday_afternoon O)) + 7
    /\ (3 = 3 -> hour d = 10 /\ minute d = 30)
    /\ (3 <> 3 -> 9 <= hour d <= 11 /\ minute d = 0)
    /\ second d = second (at_reading (thursday_afternoon O)).
Proof.
  apply (X1_optimal_time_on_named_day project_sync 30 thursday_afternoon O 3).
  reflexivity.
Defined.

Lemma days_to_monday_weekend (d : datetime) :
  is_weekend d = true -> 1 <= days_to_monday d <= 2.
Proof.
  unfold is_weekend, days_to_monday. intros H. apply Z.leb_le in H.
  pose proof (weekday_range d) as Hr.
  assert (weekday d = 5 \/ weekday d = 6) as [E | E] by lia; rewrite E; cbn; lia.
Qed.

Lemma to_us_moved (d : datetime) (k h : Z) :
  well_formed d ->
  to_us (replace_hour h (add d (td_days k)))
  = to_us d + k * 86400000000 + (h - hour d) * 3600000000.
Proof.
  intros Hwf. rewrite (add_days d k Hwf). unfold to_us. cbn. lia.
Qed.

Lemma inside_business_spec (d : datetime) :
  outside_business d = false -> 0 <= weekday d <= 4 /\ 9 <= hour d <= 17.
Proof.
  unfold outside_business, is_weekend. intros H.
  apply orb_false_elim in H as [H H3]. apply orb_false_elim in H as [H1 H2].
  apply Z.leb_gt in H1. apply Z.ltb_ge in H2. apply Z.ltb_ge in H3.
  pose proof (weekday_range d). lia.
Qed.

(** Where the loop of [_find_optimal_time] ends: on the hour, inside
    business hours, no earlier than the slot it starts from and at most
    two days and fifteen hours later. *)
Lemma business_slot_bounds (d : datetime) :
  well_formed d -> minute d = 0 -> second d = 0 -> microsecond d = 0 ->
  exists r,
    business_slot loop_fuel d = Some r
    /\ outside_business r = false
    /\ minute r = 0 /\ second r = 0 /\ microsecond r = 0
    /\ to_us d <= to_us r <= to_us d + 226800000000.
Proof.
  intros Hwf Hm Hs Hu. unfold loop_fuel.
  assert (Hh : 0 <= hour d < 24) by apply Hwf.
  destruct (outside_business d) eqn:Hout.
  { rewrite business_slot_step, Hout.
    destruct (is_weekend d) eqn:Hw.
    - pose proof (days_to_monday_weekend d Hw) as Hk.
      rewrite business_slot_inside by (apply monday_is_inside; assumption).
      eexists. split; [reflexivity |]. split; [apply monday_is_inside; assumption |].
      rewrite to_us_moved by assumption. rewrite (add_days d _ Hwf).
      cbn [ordinal hour minute second microsecond replace_hour].
      repeat split; try assumption; lia.
    - destruct (hour d <? 9) eqn:Hearly.
      + rewrite business_slot_inside by (apply nine_is_inside; assumption).
        eexists. split; [reflexivity |]. split; [apply nine_is_inside; assumption |].
        apply Z.ltb_lt in Hearly. destruct d as [o h m s u tz].
        cbn [ordinal hour minute second microsecond replace_hour] in *. subst.
        unfold to_us, replace_hour. cbn [ordinal hour minute second microsecond].
        repeat split; lia.
      + assert (Hlate : 17 < hour d).
        { unfold outside_business in Hout. rewrite Hw, Hearly in Hout.
          apply Z.ltb_lt. exact Hout. }
        apply Z.ltb_ge in Hearly.
        set (d1 := replace_hour 9 (add d (td_days 1))).
        assert (Hwf1 : well_formed d1).
        { apply replace_hour_well_formed; [lia | apply add_well_formed]. }
        assert (Hd1 : to_us d1 = to_us d + 86400000000 + (9 - hour d) * 3600000000).
        { subst d1. rewrite to_us_moved by assumption. lia. }
        assert (Hf1 : minute d1 = 0 /\ second d1 = 0 /\ microsecond d1 = 0 /\ hour d1 = 9).
        { subst d1. rewrite (add_days d 1 Hwf).
          cbn [ordinal hour minute second microsecond replace_hour]. tauto. }
        destruct Hf1 as (Hm1 & Hs1 & Hu1 & Hh1).
        destruct (outside_business d1) eqn:Hout1.
        * rewrite business_slot_step, Hout1.
          assert (Hw1 : is_weekend d1 = true).
          { unfold outside_business in Hout1. rewrite Hh1 in Hout1.
            destruct (is_weekend d1); [reflexivity | discriminate]. }
          rewrite Hw1.
          pose proof (days_to_monday_weekend d1 Hw1) as Hk.
          rewrite business_slot_inside by (apply monday_is_inside; assumption).
          eexists. split; [reflexivity |].
          split; [apply monday_is_inside; assumption |].
          rewrite to_us_moved by assumption. rewrite (add_days d1 _ Hwf1).
          cbn [ordinal hour minute second microsecond replace_hour].
          repeat split; try assumption; lia.
        * rewrite business_slot_inside by assumption.
          exists d1. repeat split; try assumption; lia. }
  rewrite business_slot_inside by assumption.
  exists d. repeat split; try assumption; lia.
Qed.

(** X2 -- For a constraint that names no working day, the optimal time
    is the text of a time exactly on the hour (minute, second and
    microsecond zero), between 09:00 and 17:00 on a day from Monday to
    Friday, strictly later than the wall-clock reading and less than
    three days after it; the search always ends. *)
Theorem X2_optimal_time_next_business_hour (pr : parsed_request)
    (meeting_duration : Z) (w : Clock.wall) (n : nat) :
  named_day (PyStr.lower (time_constraints pr)) = None ->
  exists d,
    _find_optimal_time pr meeting_duration w n = (Ok (iso d), S n)
    /\ 0 <= weekday d <= 4 /\ 9 <= hour d <= 17
    /\ minute d = 0 /\ second d = 0 /\ microsecond d = 0
    /\ w n < to_us d < w n + 3 * 86400000000.
Proof.
  unfold named_day, _find_optimal_time. intros Hk.
  destruct (PyStr.contains "thursday" _); [discriminate |].
  destruct (PyStr.contains "monday" _); [discriminate |].
  destruct (PyStr.contains "tuesday" _); [discriminate |].
  destruct (PyStr.contains "wednesday" _); [discriminate |].
  destruct (PyStr.contains "friday" _); [discriminate |].
  cbv beta iota delta [Clock.bind Clock.now].
  set (later := add (of_us (w n) None) (td_hours 1)).
  set (slot := replace_microsecond 0 (replace_second 0 (replace_minute 0 later))).
  assert (Hlater : well_formed later) by apply add_well_formed.
  assert (Hto : to_us later = w n + 3600000000).
  { subst later. unfold add. rewrite !to_us_of_us. reflexivity. }
  pose proof (to_us_on_the_hour later Hlater) as Hround. cbv zeta in Hround.
  fold slot in Hround.
  assert (Hwf : well_formed slot).
  { unfold well_formed in *. subst slot. cbn. intuition lia. }
  destruct (business_slot_bounds slot Hwf eq_refl eq_refl eq_refl)
    as (r & Hr & Hin & Hm & Hs & Hu & Hb).
  rewrite Hr. apply inside_business_spec in Hin as (Hwd & Hh).
  exists r. split; [reflexivity |]. repeat split; try assumption; lia.
Qed.

(** On Friday 18 July 2025 at 14:23 the next business hour is 15:00. *)
Lemma X2_optimal_time_next_business_hour_witness :
  exists d,
    _find_optimal_time (mkparsed ["a@x.com"] 30 "next available time" "Sync" None
                          "a@x.com") 30 friday_afternoon O = (Ok (iso d), 1%nat)
    /\ 0 <= weekday d <= 4 /\ 9 <= hour d <= 17
    /\ minute d = 0 /\ second d = 0 /\ microsecond d = 0
    /\ friday_afternoon O < to_us d < friday_afternoon O + 3 * 86400000000.
Proof.
  apply (X2_optimal_time_next_business_hour
           (mkparsed ["a@x.com"] 30 "next available time" "Sync" None "a@x.com")
           30 friday_afternoon O).
  reflexivity.
Defined.

(** X3 -- The follow-up time is the text of a time of day exactly on
    the hour (hour from 0 to 23, minute, second and microsecond zero),
    more than one hour and at most two hours after the wall-clock
    reading; no test of business hours or of the day of the week is
    made. *)
Theorem X3_alternative_time_within_two_hours (meeting_duration : Z)
    (w : Clock.wall) (n : nat) :
  exists d,
    _find_alternative_time meeting_duration w n = (Ok (iso d), S n)
    /\ 0 <= hour d < 24
    /\ minute d = 0 /\ second d = 0 /\ microsecond d = 0
    /\ w n + 3600000000 < to_us d <= w n + 7200000000.
Proof.
  set (later := add (of_us (w n) None) (td_hours 2)).
  exists (replace_microsecond 0 (replace_second 0 (replace_minute 0 later))).
  split; [reflexivity |].
  pose proof (add_well_formed (of_us (w n) None) (td_hours 2)) as Hwf.
  fold later in Hwf.
  pose proof (to_us_on_the_hour later Hwf) as H. cbv zeta in H.
  assert (Hto : to_us later = w n + 7200000000).
  { subst later. unfold add. rewrite !to_us_of_us. reflexivity. }
  split; [exact (proj1 Hwf) |].
  repeat split; lia.
Qed.

End ProposedTimes.

(* ===================================================================== *)
(** * Further properties: the lookup window *)
(* ===================================================================== *)

Section LookupWindow.
Import PyTime CalendarUtils ConflictResolver Spec.

Lemma no_weekend_word (time_constraint : string) :
  check_weekend_constraint time_constraint = false ->
  PyStr.contains "saturday" (PyStr.lower time_constraint) = false
  /\ PyStr.contains "sunday" (PyStr.lower time_constraint) = false.
Proof.
  unfold check_weekend_constraint, weekend_keywords, PyStr.any_in.
  cbn [existsb]. intros H.
  apply orb_false_elim in H as [H1 H]. apply orb_false_elim in H as [H2 _].
  split; assumption.
Qed.

(** The window computed once no weekend word occurs in the constraint. *)
Lemma get_date_range_run (time_constraint : string) (duration_mins : Z)
    (w : Clock.wall) (n : nat) :
  check_weekend_constraint time_constraint = false ->
  let now := at_reading (w n) in
  let lc := PyStr.lower time_constraint in
  get_date_range_from_constraint time_constraint duration_mins w n
  = (Ok (if PyStr.contains "tomorrow" lc then
           if is_weekend (add now (td_days 1)) then None
           else Some (iso (midnight (add now (td_days 1))),
                      iso (last_second (add now (td_days 1))))
         else if PyStr.contains "next week" lc then
           Some (iso (midnight (add now (td_days 7))),
                 iso (add (midnight (add now (td_days 7))) (td_days 7)))
         else match named_day lc with
              | Some k => Some (day_window k now)
              | None => Some (iso (midnight now), iso (add (midnight now) (td_days 7)))
              end),
     S n).
Proof.
  intros Hc now lc. destruct (no_weekend_word _ Hc) as (Hsat & Hsun).
  unfold get_date_range_from_constraint, named_day.
  cbv beta iota zeta delta [Clock.bind Clock.now].
  fold (at_reading (w n)). fold now. fold lc. rewrite Hc.
  destruct (PyStr.contains "tomorrow" lc).
  { destruct (is_weekend _); reflexivity. }
  destruct (PyStr.contains "next week" lc); [reflexivity |].
  unfold lc at 1 2. rewrite Hsat, Hsun. cbn [orb].
  destruct (PyStr.contains "thursday" lc); [reflexivity |].
  destruct (PyStr.contains "monday" lc); [reflexivity |].
  destruct (PyStr.contains "tuesday" lc); [reflexivity |].
  destruct (PyStr.contains "wednesday" lc); [reflexivity |].
  destruct (PyStr.contains "friday" lc); reflexivity.
Qed.

(** X4 -- The lookup window is refused (the pair of [None]) exactly when
    the constraint holds one of the words saturday, sunday, weekend, sat
    or sun in any letter case, or holds "tomorrow" while the day after
    the wall-clock date is a Saturday or a Sunday. *)
Theorem X4_window_refused_iff (time_constraint : string) (duration_mins : Z)
    (w : Clock.wall) (n : nat) :
  fst (get_date_range_from_constraint time_constraint duration_mins w n) = Ok None
  <-> (check_weekend_constraint time_constraint = true
       \/ (PyStr.contains "tomorrow" (PyStr.lower time_constraint) = true
           /\ is_weekend (add (at_reading (w n)) (td_days 1)) = true)).
Proof.
  destruct (check_weekend_constraint time_constraint) eqn:Hc.
  { split; [intros _; left; reflexivity | intros _].
    unfold get_date_range_from_constraint.
    cbv beta iota zeta delta [Clock.bind Clock.now]. rewrite Hc. reflexivity. }
  rewrite (get_date_range_run _ _ _ _ Hc). cbn [fst].
  destruct (PyStr.contains "tomorrow" _).
  - destruct (is_weekend _).
    + split; [intros _; right; split; reflexivity | reflexivity].
    + split; [discriminate | intros [H | [_ H]]; discriminate].
  - split; [| intros [H | [H _]]; discriminate].
    destruct (PyStr.contains "next week" _); [discriminate |].
    destruct (named_day _); discriminate.
Qed.

Lemma named_day_range (lc : string) (k : Z) : named_day lc = Some k -> 0 <= k < 7.
Proof.
  unfold named_day. intros H.
  repeat match type of H with
         | (if ?b then _ else _) = _ => destruct b
         end; inversion H; lia.
Qed.

Lemma to_us_day_ends (d : datetime) :
  to_us (last_second d) = to_us (midnight d) + 86399000000.
Proof. unfold to_us, last_second, midnight. cbn. lia. Qed.

Lemma to_us_add (d : datetime) (td : timedelta) : to_us (add d td) = to_us d + td.
Proof. unfold add. apply to_us_of_us. Qed.

Lemma window_inj (a b c d : string) :
  @Ok (option (string * string)) (Some (a, b)) = Ok (Some (c, d)) -> a = c /\ b = d.
Proof. intros H. injection H as -> ->. split; reflexivity. Qed.

Lemma midnight_well_formed (d : datetime) : well_formed (midnight d).
Proof. unfold well_formed, midnight. cbn. lia. Qed.

(** X5 -- A lookup window that is not refused starts at 00:00:00 of a
    day that is today or at most seven days ahead, and ends either at
    23:59:59 of that same day or at 00:00:00 seven days later. *)
Theorem X5_window_shape (time_constraint : string) (duration_mins : Z)
    (w : Clock.wall) (n : nat) (window_start window_end : string) :
  fst (get_date_range_from_constraint time_constraint duration_mins w n)
  = Ok (Some (window_start, window_end)) ->
  exists ds de,
    window_start = iso ds /\ window_end = iso de
    /\ hour ds = 0 /\ minute ds = 0 /\ second ds = 0
    /\ ordinal (at_reading (w n)) <= ordinal ds <= ordinal (at_reading (w n)) + 7
    /\ ((ordinal de = ordinal ds
         /\ hour de = 23 /\ minute de = 59 /\ second de = 59)
        \/ (ordinal de = ordinal ds + 7
            /\ hour de = 0 /\ minute de = 0 /\ second de = 0)).
Proof.
  intros H.
  destruct (check_weekend_constraint time_constraint) eqn:Hc.
  { unfold get_date_range_from_constraint in H.
    cbv beta iota zeta delta [Clock.bind Clock.now] in H. rewrite Hc in H.
    discriminate. }
  rewrite (get_date_range_run _ _ _ _ Hc) in H. unfold fst in H.
  set (now := at_reading (w n)) in *.
  assert (Hwf : well_formed now) by apply of_us_well_formed.
  assert (Hday : forall k, ordinal (midnight (add now (td_days k))) = ordinal now + k).
  { intros k. rewrite (add_days now k Hwf). reflexivity. }
  assert (Hweek : forall x,
            ordinal (add (midnight x) (td_days 7)) = ordinal (midnight x) + 7
            /\ hour (add (midnight x) (td_days 7)) = 0
            /\ minute (add (midnight x) (td_days 7)) = 0
            /\ second (add (midnight x) (td_days 7)) = 0).
  { intros x. rewrite (add_days (midnight x) 7 (midnight_well_formed x)).
    repeat split; reflexivity. }
  clearbody now.
  destruct (PyStr.contains "tomorrow" _).
  { destruct (is_weekend _); [discriminate |]. apply window_inj in H as [<- <-].
    exists (midnight (add now (td_days 1))), (last_second (add now (td_days 1))).
    split; [reflexivity |]. split; [reflexivity |].
    do 3 (split; [reflexivity |]). split; [rewrite Hday; lia |].
    left. repeat split; reflexivity. }
  destruct (PyStr.contains "next week" _).
  { apply window_inj in H as [<- <-].
    exists (midnight (add now (td_days 7))),
           (add (midnight (add now (td_days 7))) (td_days 7)).
    split; [reflexivity |]. split; [reflexivity |].
    do 3 (split; [reflexivity |]). split; [rewrite Hday; lia |].
    right. apply Hweek. }
  destruct (named_day _) as [k |] eqn:Hk.
  - unfold day_window in H. apply window_inj in H as [<- <-]. apply named_day_range in Hk.
    pose proof (days_ahead_range k now Hk) as Hr.
    exists (midnight (add now (td_days (days_ahead k now)))),
           (last_second (add now (td_days (days_ahead k now)))).
    split; [reflexivity |]. split; [reflexivity |].
    do 3 (split; [reflexivity |]). split; [rewrite Hday; lia |].
    left. repeat split; reflexivity.
  - apply window_inj in H as [<- <-].
    exists (midnight now), (add (midnight now) (td_days 7)).
    split; [reflexivity |]. split; [reflexivity |].
    do 3 (split; [reflexivity |]).
    split; [change (ordinal (midnight now)) with (ordinal now); lia |].
    right. apply Hweek.
Qed.

(** The window for "tomorrow" asked on a Thursday. *)
Lemma X5_window_shape_witness :
  exists ds de,
    "2025-07-18T00:00:00+05:30" = iso ds /\ "2025-07-18T23:59:59+05:30" = iso de
    /\ hour ds = 0 /\ minute ds = 0 /\ second ds = 0
    /\ ordinal (at_reading (thursday_afternoon O)) <= ordinal ds
       <= ordinal (at_reading (thursday_afternoon O)) + 7
    /\ ((ordinal de = ordinal ds
         /\ hour de = 23 /\ minute de = 59 /\ second de = 59)
        \/ (ordinal de = ordinal ds + 7
            /\ hour de = 0 /\ minute de = 0 /\ second de = 0)).
Proof.
  apply (X5_window_shape "tomorrow" 30 thursday_afternoon O).
  vm_compute. reflexivity.
Defined.

(** The optimal time for a named day, as a time of the day reached by
    [days_ahead]. *)
Lemma _find_optimal_time_named (pr : parsed_request) (meeting_duration : Z)
    (w : Clock.wall) (n : nat) (k : Z) :
  named_day (PyStr.lower (time_constraints pr)) = Some k ->
  exists h m,
    9 <= h <= 11 /\ 0 <= m <= 30
    /\ _find_optimal_time pr meeting_duration w n
       = (Ok (at_time h m (add (at_reading (w n))
                             (td_days (days_ahead k (at_reading (w n)))))), S n).
Proof.
  unfold named_day, _find_optimal_time, _get_next_thursday, _get_next_monday,
    _get_next_tuesday, _get_next_wednesday, _get_next_friday, at_reading.
  intros Hk.
  destruct (PyStr.contains "thursday" _).
  { injection Hk as <-. unfold Clock.bind at 1. rewrite get_next_run.
    unfold Clock.bind. rewrite next_thursday_not_weekend.
    exists 10, 30. repeat split; lia. }
  destruct (PyStr.contains "monday" _).
  { injection Hk as <-. unfold Clock.bind. rewrite get_next_run.
    destruct (PyStr.contains "9:00" _);
      [exists 9, 0 | exists 10, 0]; repeat split; lia. }
  destruct (PyStr.contains "tuesday" _).
  { injection Hk as <-. unfold Clock.bind. rewrite get_next_run.
    destruct (PyStr.contains "11:00" _);
      [exists 11, 0 | exists 10, 0]; repeat split; lia. }
  destruct (PyStr.contains "wednesday" _).
  { injection Hk as <-. unfold Clock.bind. rewrite get_next_run.
    destruct (PyStr.contains "10:00" _); exists 10, 0; repeat split; lia. }
  destruct (PyStr.contains "friday" _); [| discriminate].
  injection Hk as <-. unfold Clock.bind. rewrite get_next_run.
  exists 10, 0. repeat split; lia.
Qed.

(** X6 -- For a constraint that names a working day and holds no
    weekend word, "tomorrow" or "next week", the lookup window and the
    optimal time computed from the same clock reading agree: the window
    runs from 00:00:00 to 23:59:59 of one day, and the optimal time is on
    that same day, which is the named weekday, between 09:00 and 11:30,
    with the seconds of the clock reading. *)
Theorem X6_optimal_time_inside_window (pr : parsed_request) (duration : Z)
    (w w' : Clock.wall) (n n' : nat) (k : Z) :
  check_weekend_constraint (time_constraints pr) = false ->
  PyStr.contains "tomorrow" (PyStr.lower (time_constraints pr)) = false ->
  PyStr.contains "next week" (PyStr.lower (time_constraints pr)) = false ->
  named_day (PyStr.lower (time_constraints pr)) = Some k ->
  w n = w' n' ->
  exists ds de d,
    get_date_range_from_constraint (time_constraints pr) duration w n
    = (Ok (Some (iso ds, iso de)), S n)
    /\ _find_optimal_time pr duration w' n' = (Ok (iso d), S n')
    /\ ordinal ds = ordinal d /\ hour ds = 0 /\ minute ds = 0 /\ second ds = 0
    /\ ordinal de = ordinal d /\ hour de = 23 /\ minute de = 59 /\ second de = 59
    /\ weekday d = k
    /\ 9 <= hour d <= 11 /\ 0 <= minute d <= 30
    /\ second d = second (at_reading (w n)).
Proof.
  intros Hc Htom Hweek Hk Hw.
  rewrite (get_date_range_run _ _ _ _ Hc). rewrite Htom, Hweek, Hk.
  unfold day_window.
  destruct (_find_optimal_time_named pr duration w' n' k Hk) as (h & m & Hh & Hm & Hrun).
  rewrite Hrun, <- Hw.
  pose proof (named_day_range _ _ Hk) as Hrange.
  pose proof (weekday_next k (at_reading (w n))
                (of_us_well_formed _ _) Hrange) as Hwd.
  set (day := add (at_reading (w n)) (td_days (days_ahead k (at_reading (w n))))) in *.
  exists (midnight day), (last_second day), (replace_minute m (replace_hour h day)).
  split; [reflexivity |]. split; [reflexivity |].
  do 8 (split; [reflexivity |]).
  split; [exact Hwd |].
  cbn [hour minute second replace_minute replace_hour].
  split; [lia |]. split; [lia |].
  subst day.
  rewrite (add_days (at_reading (w n)) _ (of_us_well_formed (w n) None)).
  reflexivity.
Qed.

(** Thursday asked for on a Thursday: the window is the Thursday after,
    and so is the optimal time. *)
Lemma X6_optimal_time_inside_window_witness :
  exists ds de d,
    get_date_range_from_constraint (time_constraints project_sync) 30
      thursday_afternoon O = (Ok (Some (iso ds, iso de)), 1%nat)
    /\ _find_optimal_time project_sync 30 thursday_afternoon 1%nat
       = (Ok (iso d), 2%nat)
    /\ ordinal ds = ordinal d /\ hour ds = 0 /\ minute ds = 0 /\ second ds = 0
    /\ ordinal de = ordinal d /\ hour de = 23 /\ minute de = 59 /\ second de = 59
    /\ weekday d = 3
    /\ 9 <= hour d <= 11 /\ 0 <= minute d <= 30
    /\ second d = second (at_reading (thursday_afternoon O)).
Proof.
  apply (X6_optimal_time_inside_window project_sync 30 thursday_afternoon
           thursday_afternoon O 1%nat 3); reflexivity.
Defined.

End LookupWindow.

(* ===================================================================== *)
(** * Further properties: the decision taken without the language model *)
(* ===================================================================== *)

Section AgentFallback.
Import PyTime CalendarUtils ConflictResolver AiAgent Spec.

Lemma fallback_split_lists (items : dict (list event)) (available busy : list string) :
  fallback_split items available busy
  = ((available ++ available_of items)%list, (busy ++ busy_of items)%list).
Proof.
  revert available busy.
  induction items as [| [p evs] rest IH]; intros available busy.
  - cbn. rewrite !app_nil_r. reflexivity.
  - destruct evs as [| e es]; cbn [fallback_split]; rewrite IH;
      unfold available_of, busy_of, keys; cbn; rewrite <- app_assoc; reflexivity.
Qed.

Lemma available_busy_length (d : dict (list event)) :
  (List.length (available_of d) + List.length (busy_of d) = List.length d)%nat.
Proof.
  rewrite <- length_app, (Permutation_length (available_busy_permutation d)).
  unfold keys. apply length_map.
Qed.

(** X7 -- The fallback decision of the agent always returns after one
    clock reading: schedule_all over the participants of the mapping
    when nobody has an event (also for an empty mapping),
    schedule_partial over the participants without events when some but
    not all have none, and reschedule_tomorrow over the participants of
    the mapping when every one has an event. *)
Theorem X7_fallback_decision (d : dict (list event)) (pr : parsed_request)
    (meeting_duration : Z) (w : Clock.wall) (n : nat) :
  exists r,
    _fallback_conflict_resolution d pr meeting_duration w n = (Ok r, S n)
    /\ (fb_action r = schedule_all /\ busy_of d = []
        /\ fb_participants_to_include r = keys d
        \/ fb_action r = schedule_partial /\ busy_of d <> [] /\ available_of d <> []
           /\ fb_participants_to_include r = available_of d
        \/ fb_action r = reschedule_tomorrow /\ available_of d = [] /\ d <> []
           /\ fb_participants_to_include r = keys d).
Proof.
  unfold _fallback_conflict_resolution.
  rewrite fallback_split_lists. cbn [app].
  pose proof (available_busy_length d) as Hlen.
  destruct (Nat.eqb_spec (List.length (available_of d)) (List.length d)) as [E | E].
  { eexists. split; [reflexivity |]. left. cbn. repeat split.
    destruct (busy_of d); [reflexivity | cbn in Hlen; lia]. }
  destruct (Nat.leb_spec 1 (List.length (available_of d))) as [L | L].
  { eexists. split; [reflexivity |]. right. left. cbn. repeat split.
    - intros Hb. rewrite Hb in Hlen. cbn in Hlen. lia.
    - intros Ha. rewrite Ha in L. cbn in L. lia. }
  eexists. split; [reflexivity |]. right. right. cbn. repeat split.
  - destruct (available_of d); [reflexivity | cbn in L; lia].
  - intros Hd. subst d. cbn in E. lia.
Qed.

Lemma at_ten_fields (d : datetime) :
  ordinal (at_ten d) = ordinal d /\ is_weekend (at_ten d) = is_weekend d
  /\ hour (at_ten d) = 10 /\ minute (at_ten d) = 0 /\ second (at_ten d) = 0
  /\ microsecond (at_ten d) = 0.
Proof. repeat split; reflexivity. Qed.

Lemma _get_tomorrow_slot_run (meeting_duration : Z) (w : Clock.wall) (n : nat) :
  _get_tomorrow_slot meeting_duration w n
  = (Ok (iso (at_ten (add (at_reading (w n)) (td_days 1)))), S n).
Proof. reflexivity. Qed.

Lemma tomorrow_slot_at_ten (now : datetime) :
  tomorrow_slot now
  = at_ten (if is_weekend (add now (td_days 1))
            then add (add now (td_days 1))
                     (td_days (days_to_monday (add now (td_days 1))))
            else add now (td_days 1)).
Proof. reflexivity. Qed.

(** X8 -- The tomorrow slot of the agent is 10:00:00 on the calendar day
    after the wall-clock date, whatever day of the week that is.  When
    that day is a working day the resolver's tomorrow time is the same
    text; when it is a Saturday or a Sunday the resolver's is on a later
    day. *)
Theorem X8_agent_tomorrow_slot (meeting_duration : Z) (w : Clock.wall) (n : nat) :
  exists d,
    _get_tomorrow_slot meeting_duration w n = (Ok (iso d), S n)
    /\ ordinal d = ordinal (at_reading (w n)) + 1
    /\ hour d = 10 /\ minute d = 0 /\ second d = 0 /\ microsecond d = 0
    /\ (if is_weekend d
        then ordinal d < ordinal (tomorrow_slot (at_reading (w n)))
        else _get_tomorrow_time meeting_duration w n = (Ok (iso d), S n)).
Proof.
  rewrite _get_tomorrow_slot_run, _get_tomorrow_time_run.
  fold (at_reading (w n)). rewrite tomorrow_slot_at_ten.
  pose proof (of_us_well_formed (w n) None) as Hwf.
  change (of_us (w n) None) with (at_reading (w n)) in Hwf.
  set (now := at_reading (w n)) in *. clearbody now.
  pose proof (add_days now 1 Hwf) as Hadd.
  pose proof (add_well_formed now (td_days 1)) as Htm.
  set (tm := add now (td_days 1)) in *.
  assert (Hord : ordinal tm = ordinal now + 1) by (rewrite Hadd; reflexivity).
  clearbody tm. clear Hadd.
  exists (at_ten tm). split; [reflexivity |].
  destruct (at_ten_fields tm) as (Ho & Hw & Hh & Hm & Hs & Hu).
  rewrite Ho, Hw.
  split; [exact Hord |]. do 4 (split; [assumption |]).
  destruct (is_weekend tm) eqn:Hwk; [| reflexivity].
  destruct (at_ten_fields (add tm (td_days (days_to_monday tm)))) as (Ho' & _).
  rewrite Ho', (add_days tm _ Htm).
  pose proof (days_to_monday_weekend tm Hwk) as Hk.
  cbn [ordinal]. lia.
Qed.

(** X9 -- The next available slot of the agent is the text of a time of
    day exactly on the hour (hour from 0 to 23, minute, second and
    microsecond zero), strictly later than the wall-clock reading and at
    most one hour after it. *)
Theorem X9_agent_next_available_slot (duration_mins : Z) (w : Clock.wall) (n : nat) :
  exists d,
    _get_next_available_slot duration_mins w n = (Ok (iso d), S n)
    /\ 0 <= hour d < 24
    /\ minute d = 0 /\ second d = 0 /\ microsecond d = 0
    /\ w n < to_us d <= w n + 3600000000.
Proof.
  set (now := of_us (w n) None).
  set (floor := replace_microsecond 0 (replace_second 0 (replace_minute 0 now))).
  exists (add floor (td_hours 1)). split; [reflexivity |].
  pose proof (to_us_on_the_hour now (of_us_well_formed _ _)) as Hround.
  cbv zeta in Hround. fold floor in Hround.
  assert (Hnow : to_us now = w n) by apply to_us_of_us.
  assert (Hto : to_us (add floor (td_hours 1)) = to_us floor + 3600000000).
  { rewrite to_us_add. reflexivity. }
  assert (Hfloor : to_us floor mod 3600000000 = 0).
  { unfold to_us, floor. cbn [ordinal hour minute second microsecond
      replace_microsecond replace_second replace_minute].
    Z.div_mod_to_equations. lia. }
  pose proof (of_us_well_formed (to_us floor + 3600000000) (tzinfo floor))
    as (Hh & Hm & Hs & Hu).
  pose proof (to_us_of_us (to_us floor + 3600000000) (tzinfo floor)) as Hback.
  unfold add, td_hours. rewrite Z.mul_1_l.
  set (d := of_us (to_us floor + 3600000000) (tzinfo floor)) in *.
  assert (Hzero : minute d = 0 /\ second d = 0 /\ microsecond d = 0).
  { unfold to_us in Hback at 1. Z.div_mod_to_equations. lia. }
  destruct Hzero as (Hm0 & Hs0 & Hu0).
  repeat split; try assumption; lia.
Qed.

End AgentFallback.

(* ===================================================================== *)
(** * Further properties: conflicts between two time ranges *)
(* ===================================================================== *)

Section ConflictCheck.
Import PyTime CalendarUtils ConflictResolver Spec.

Variable fromisoformat : string -> option datetime.

(** X10 -- The conflict test is symmetric: exchanging the event and the
    proposed range never changes the answer, also when a time does not
    parse or when aware and naive times are mixed. *)
Theorem X10_check_time_conflict_symmetric
    (event_start event_end proposed_start proposed_end : string) :
  check_time_conflict fromisoformat event_start event_end proposed_start proposed_end
  = check_time_conflict fromisoformat proposed_start proposed_end event_start event_end.
Proof.
  unfold check_time_conflict.
  destruct (parse_time fromisoformat event_start) as [es | |],
           (parse_time fromisoformat event_end) as [ee | |],
           (parse_time fromisoformat proposed_start) as [ps | |],
           (parse_time fromisoformat proposed_end) as [pe | |];
    cbn [rbind]; try reflexivity.
  unfold le, order.
  destruct (tzinfo es), (tzinfo ee), (tzinfo ps), (tzinfo pe);
    cbn [rbind]; try reflexivity;
    repeat match goal with
           | |- context [?x ?= ?y] => destruct (x ?= y); cbn [rbind]
           end; reflexivity.
Qed.

(** X11 -- The conflict test answers True only when the four times
    parse, the two comparisons it makes are defined, and neither range
    ends at or before the start of the other: every failure is read as
    "no conflict". *)
Theorem X11_check_time_conflict_true_only_on_overlap
    (event_start event_end proposed_start proposed_end : string) :
  check_time_conflict fromisoformat event_start event_end proposed_start proposed_end
  = true ->
  exists es ee ps pe,
    parse_time fromisoformat event_start = Ok es
    /\ parse_time fromisoformat event_end = Ok ee
    /\ parse_time fromisoformat proposed_start = Ok ps
    /\ parse_time fromisoformat proposed_end = Ok pe
    /\ le ee ps = Ok false /\ le pe es = Ok false.
Proof.
  unfold check_time_conflict.
  destruct (parse_time fromisoformat event_start) as [es | |],
           (parse_time fromisoformat event_end) as [ee | |],
           (parse_time fromisoformat proposed_start) as [ps | |],
           (parse_time fromisoformat proposed_end) as [pe | |];
    cbn [rbind]; try discriminate.
  destruct (le ee ps) as [[|] | |] eqn:L1; cbn [rbind]; try discriminate.
  destruct (le pe es) as [[|] | |] eqn:L2; cbn [rbind negb]; try discriminate.
  intros _. exists es, ee, ps, pe. repeat split; assumption.
Qed.

(** X12 -- For two events whose times parse to offset-aware values, the
    conflict test compares instants on the UTC time line and reads the
    ranges as half-open: it answers True exactly when each event starts
    strictly before the other one ends, so events that only touch do not
    conflict. *)
Theorem X12_check_time_conflict_half_open (e1 e2 : event) (s1 t1 s2 t2 : Z) :
  spans fromisoformat e1 s1 t1 -> spans fromisoformat e2 s2 t2 ->
  check_time_conflict fromisoformat (StartTime e1) (EndTime e1)
    (StartTime e2) (EndTime e2)
  = ((s2 <? t1) && (s1 <? t2))%bool.
Proof.
  intros (ds1 & dt1 & os1 & ot1 & P1 & P1' & Z1 & Z1' & -> & ->)
         (ds2 & dt2 & os2 & ot2 & P2 & P2' & Z2 & Z2' & -> & ->).
  unfold check_time_conflict. rewrite P1, P1', P2, P2'. cbn [rbind].
  rewrite (le_aware _ _ _ _ Z1' Z2). cbn [rbind].
  rewrite !Z.ltb_antisym.
  destruct (utc_us dt1 ot1 <=? utc_us ds2 os2); cbn [negb andb]; [reflexivity |].
  rewrite (le_aware _ _ _ _ Z2' Z1). reflexivity.
Qed.

End ConflictCheck.

Section ConflictCheckExamples.
Import PyTime CalendarUtils ConflictResolver Spec.

(** A meeting from 10:00 to 10:30 inside one from 09:00 to 12:00. *)
Lemma X11_check_time_conflict_true_only_on_overlap_witness :
  exists es ee ps pe,
    parse_time parse_iso (StartTime long_meeting) = Ok es
    /\ parse_time parse_iso (EndTime long_meeting) = Ok ee
    /\ parse_time parse_iso (StartTime short_meeting) = Ok ps
    /\ parse_time parse_iso (EndTime short_meeting) = Ok pe
    /\ le ee ps = Ok false /\ le pe es = Ok false.
Proof.
  apply (X11_check_time_conflict_true_only_on_overlap parse_iso).
  vm_compute. reflexivity.
Defined.

(** A meeting ending at 10:00 and one starting at 10:00 do not conflict. *)
Lemma X12_check_time_conflict_half_open_witness :
  check_time_conflict parse_iso (StartTime half_past_nine) (EndTime half_past_nine)
    (StartTime short_meeting) (EndTime short_meeting) = false.
Proof.
  rewrite (X12_check_time_conflict_half_open parse_iso half_past_nine short_meeting
             63888408000000000 63888409800000000
             63888409800000000 63888411600000000).
  - reflexivity.
  - do 4 eexists. repeat split; try reflexivity.
  - do 4 eexists. repeat split; try reflexivity.
Defined.

End ConflictCheckExamples.

(* ===================================================================== *)
(** * Further properties: number and length of the free slots *)
(* ===================================================================== *)

Section SlotCount.
Import PyTime CalendarUtils ConflictResolver Spec.

Variable fromisoformat : string -> option datetime.
Variable duration_mins : Z.

Section Steps.
Variable origin : datetime -> Prop.

Lemma appends_ret {A} (a : A) : appends_at_most origin duration_mins 0 (acc_ret a).
Proof.
  intros fs. exists []. cbn. rewrite app_nil_r.
  split; [reflexivity | split; [lia | contradiction]].
Qed.

Lemma appends_lift {A} (r : result A) :
  appends_at_most origin duration_mins 0 (acc_lift r).
Proof.
  intros fs. exists []. cbn. rewrite app_nil_r.
  split; [reflexivity | split; [lia | contradiction]].
Qed.

Lemma appends_append (a : datetime) :
  origin a ->
  appends_at_most origin duration_mins 1 (append (slot_from a duration_mins)).
Proof.
  intros Ha fs. exists [slot_from a duration_mins]. cbn.
  split; [reflexivity | split; [lia |]].
  intros sl [<- | []]. exists a. split; [exact Ha | reflexivity].
Qed.

Lemma appends_weaken {A} (k k' : nat) (c : Acc A) :
  (k <= k')%nat -> appends_at_most origin duration_mins k c ->
  appends_at_most origin duration_mins k' c.
Proof.
  intros Hle Hc fs. destruct (Hc fs) as (added & E & Hlen & Hshape).
  exists added. split; [exact E | split; [lia | exact Hshape]].
Qed.

Lemma appends_when (b : bool) (k : nat) (c : Acc unit) :
  appends_at_most origin duration_mins k c ->
  appends_at_most origin duration_mins k (when b c).
Proof.
  intros Hc. destruct b; cbn; [exact Hc |].
  apply (appends_weaken 0); [lia | apply appends_ret].
Qed.

(** Sequencing adds the bounds, also when the first step raises. *)
Lemma appends_bind {A B} (k1 k2 : nat) (c : Acc A) (f : A -> Acc B) :
  appends_at_most origin duration_mins k1 c ->
  (forall a, appends_at_most origin duration_mins k2 (f a)) ->
  appends_at_most origin duration_mins (k1 + k2) (acc_bind c f).
Proof.
  intros Hc Hf fs. destruct (Hc fs) as (added1 & E1 & Hlen1 & Hshape1).
  unfold acc_bind. destruct (c fs) as [fs' [a | e |]]; cbn [fst] in E1; subst fs'.
  - destruct (Hf a (fs ++ added1)%list) as (added2 & E2 & Hlen2 & Hshape2).
    exists (added1 ++ added2)%list. rewrite E2, app_assoc.
    split; [reflexivity |]. split; [rewrite length_app; lia |].
    intros sl Hin. apply in_app_or in Hin as [Hin | Hin]; auto.
  - exists added1. split; [reflexivity | split; [lia | exact Hshape1]].
  - exists added1. split; [reflexivity | split; [lia | exact Hshape1]].
Qed.

(** After a step that appends nothing, what follows is only run on
    the value that the step returned. *)
Lemma appends_bind_lift {A B} (k : nat) (r : result A) (f : A -> Acc B) :
  (forall a, r = Ok a -> appends_at_most origin duration_mins k (f a)) ->
  appends_at_most origin duration_mins k (acc_bind (acc_lift r) f).
Proof.
  intros Hf. destruct r as [a | e |].
  - exact (Hf a eq_refl).
  - apply (appends_weaken 0); [lia | exact (appends_lift (Raise e))].
  - apply (appends_weaken 0); [lia | exact (appends_lift Diverged)].
Qed.

Lemma between_step (e next : event) (rest : list event) :
  between fromisoformat (e :: next :: rest) duration_mins
  = acc_bind (acc_lift (parse_time fromisoformat (EndTime e))) (fun event_end =>
    acc_bind (acc_lift (parse_time fromisoformat (StartTime next)))
      (fun next_event_start =>
    acc_bind (acc_lift (diff next_event_start event_end)) (fun gap =>
    acc_bind (when (td_minutes duration_mins <=? gap)
                   (append (slot_from event_end duration_mins))) (fun _ =>
    between fromisoformat (next :: rest) duration_mins)))).
Proof. reflexivity. Qed.

Lemma before_first_appends (l : list event) (work_start : datetime) :
  origin work_start ->
  appends_at_most origin duration_mins 1
    (before_first fromisoformat l work_start duration_mins).
Proof.
  intros Hws. unfold before_first. apply (appends_bind 0 1).
  - destruct l; [apply appends_ret | apply appends_lift].
  - intros emit. apply appends_when, appends_append. exact Hws.
Qed.

Lemma between_appends (l : list event) :
  (forall e a, In e l -> parse_time fromisoformat (EndTime e) = Ok a -> origin a) ->
  appends_at_most origin duration_mins (Nat.pred (List.length l))
    (between fromisoformat l duration_mins).
Proof.
  induction l as [| e r IH]; intros Hends; [apply appends_ret |].
  destruct r as [| next rest]; [apply appends_ret |].
  rewrite between_step.
  apply (appends_bind_lift (S (List.length rest))). intros event_end Hend.
  apply (appends_bind 0 _); [apply appends_lift | intros next_event_start].
  apply (appends_bind 0 _); [apply appends_lift | intros gap].
  apply (appends_bind 1 (Nat.pred (List.length (next :: rest)))).
  - apply appends_when, appends_append.
    apply (Hends e); [left; reflexivity | exact Hend].
  - intros _. apply IH. intros e' a Hin. apply Hends. right. exact Hin.
Qed.

Lemma after_last_appends (l : list event) (work_end : datetime) :
  (forall e a, In e l -> parse_time fromisoformat (EndTime e) = Ok a -> origin a) ->
  appends_at_most origin duration_mins (Nat.min 1 (List.length l))
    (after_last fromisoformat l work_end duration_mins).
Proof.
  intros Hends. destruct l as [| e0 r]; [apply appends_ret |].
  unfold after_last.
  apply (appends_bind_lift 1). intros last_event_end Hend.
  apply (appends_bind 0 1); [apply appends_lift | intros fits].
  apply appends_when, appends_append.
  apply (Hends (last r e0)); [apply last_In | exact Hend].
Qed.

End Steps.

Lemma insert_by_length {A} (key : A -> string) (x : A) (l : list A) :
  List.length (PyStr.insert_by key x l) = S (List.length l).
Proof.
  induction l as [| y r IH]; cbn; [reflexivity |].
  destruct (String.leb (key x) (key y)); cbn; [reflexivity | rewrite IH; reflexivity].
Qed.

Lemma sorted_by_length {A} (key : A -> string) (l : list A) :
  List.length (PyStr.sorted_by key l) = List.length l.
Proof.
  induction l as [| x r IH]; cbn; [reflexivity |].
  rewrite insert_by_length, IH. reflexivity.
Qed.

(** X13 -- Whatever the events and the day bounds are, also when a time
    does not parse in the middle of the search, the free-slot finder
    returns at most one slot more than there are events.  Every slot it
    returns starts at 09:00 on the day to which the given start parses,
    or at the time to which the end of one of the events parses: its
    start is the text of that time and its end the text of the time
    [duration_mins] minutes later. *)
Theorem X13_find_free_slots_count_and_length (events : list event)
    (start_time end_time : string) :
  (List.length (find_free_slots fromisoformat events duration_mins start_time end_time)
   <= S (List.length events))%nat
  /\ forall sl,
       In sl (find_free_slots fromisoformat events duration_mins start_time end_time) ->
       exists day_start a,
         parse_time fromisoformat start_time = Ok day_start
         /\ slot_origin fromisoformat events
              (replace_minute 0 (replace_hour 9 day_start)) a
         /\ sl = mkslot (isoformat a) (isoformat (add a (td_minutes duration_mins))).
Proof.
  unfold find_free_slots.
  set (L := PyStr.sorted_by StartTime events).
  assert (Hlen : List.length L = List.length events) by apply sorted_by_length.
  set (origin := fun a =>
         exists day_start,
           parse_time fromisoformat start_time = Ok day_start
           /\ slot_origin fromisoformat events
                (replace_minute 0 (replace_hour 9 day_start)) a).
  assert (H : appends_at_most origin duration_mins (S (List.length events))
    (acc_bind (acc_lift (parse_time fromisoformat start_time)) (fun day_start =>
     acc_bind (acc_lift (parse_time fromisoformat end_time)) (fun day_end =>
     acc_bind (before_first fromisoformat L
                 (replace_minute 0 (replace_hour 9 day_start)) duration_mins) (fun _ =>
     acc_bind (between fromisoformat L duration_mins) (fun _ =>
     after_last fromisoformat L (replace_minute 0 (replace_hour 18 day_start))
       duration_mins)))))).
  { apply (appends_weaken origin (1 + (Nat.pred (List.length L)
                                       + Nat.min 1 (List.length L)))).
    - rewrite Hlen. destruct (List.length events); cbn; lia.
    - apply appends_bind_lift. intros day_start Hstart.
      apply appends_bind_lift. intros day_end _.
      assert (Hends : forall e a, In e L ->
                parse_time fromisoformat (EndTime e) = Ok a -> origin a).
      { intros e a Hin Hp. exists day_start. split; [exact Hstart | right].
        exists e. split; [apply sorted_by_In in Hin; exact Hin | exact Hp]. }
      apply appends_bind.
      + apply before_first_appends. exists day_start.
        split; [exact Hstart | left; reflexivity].
      + intros _. apply appends_bind; [apply between_appends, Hends | intros _].
        apply after_last_appends, Hends. }
  destruct (H []) as (added & E & Hcount & Hshape).
  cbv zeta. rewrite E. cbn [app]. split; [exact Hcount |].
  intros sl Hin. destruct (Hshape sl Hin) as (a & (day_start & Hs & Ho) & ->).
  exists day_start, a. split; [exact Hs |]. split; [exact Ho | reflexivity].
Qed.

(** X14 -- When the start or the end of the searched day does not parse,
    no slot is returned, whatever the events are. *)
Theorem X14_find_free_slots_unparsed_day (events : list event)
    (start_time end_time : string) :
  fromisoformat (PyStr.replace "Z" "+00:00" start_time) = None
  \/ fromisoformat (PyStr.replace "Z" "+00:00" end_time) = None ->
  find_free_slots fromisoformat events duration_mins start_time end_time = [].
Proof.
  intros H. unfold find_free_slots, acc_bind at 1, acc_lift at 1, parse_time at 1.
  destruct (fromisoformat (PyStr.replace "Z" "+00:00" start_time)) as [ds |].
  - destruct H as [H | H]; [discriminate |].
    unfold acc_bind at 1, acc_lift at 1, parse_time at 1. rewrite H. reflexivity.
  - reflexivity.
Qed.

End SlotCount.

Section SlotCountExamples.
Import PyTime CalendarUtils ConflictResolver Spec.

(** A day given as "today". *)
Lemma X14_find_free_slots_unparsed_day_witness :
  find_free_slots parse_iso [long_meeting; short_meeting] 30 "today" day_end = [].
Proof.
  apply (X14_find_free_slots_unparsed_day parse_iso 30). left. reflexivity.
Defined.

End SlotCountExamples.

(* ===================================================================== *)
(** * Further properties: the branches of the resolver *)
(* ===================================================================== *)

Section ResolverBranches.
Import PyTime CalendarUtils ConflictResolver OutputFormatter Spec.

Lemma busy_of_none (d : dict (list event)) :
  (forall p evs, In (p, evs) d -> evs = []) -> busy_of d = [].
Proof.
  unfold busy_of, keys. induction d as [| [p evs] r IH]; intros H; [reflexivity |].
  rewrite (H p evs (or_introl eq_refl)). cbn. apply IH.
  intros q qs Hin. apply (H q qs). right. exact Hin.
Qed.

(** X16 -- When no participant of the mapping has an event (also when
    the mapping is empty), the resolver answers schedule_all with all
    request participants, the reason "All participants are available at
    the requested time", the requested duration and no follow-up, after
    one clock reading. *)
Theorem X16_all_free_schedules_all (pr : parsed_request) (d : dict (list event))
    (meeting_duration : Z) (w : Clock.wall) (n : nat) :
  (forall p evs, In (p, evs) d -> evs = []) ->
  exists t,
    resolve_scheduling_conflicts pr d meeting_duration w n
    = (Ok (mkresolution schedule_all t (participants pr)
             "All participants are available at the requested time"
             meeting_duration None None None), S n).
Proof.
  intros Hfree. unfold resolve_scheduling_conflicts.
  destruct (_analyze_conflicts_flags d meeting_duration) as (Hf & _ & _).
  rewrite Hf, (busy_of_none d Hfree). cbn [List.length Nat.eqb].
  destruct (_find_optimal_time_returns pr meeting_duration w n) as (t & Ht).
  unfold _schedule_all_participants. rewrite (bind_ok _ _ _ _ _ _ Ht).
  exists t. reflexivity.
Qed.

(** Three participants, none of them busy. *)
Lemma X16_all_free_schedules_all_witness :
  exists t,
    resolve_scheduling_conflicts project_sync nobody_busy 30 thursday_afternoon O
    = (Ok (mkresolution schedule_all t (participants project_sync)
             "All participants are available at the requested time"
             30 None None None), 1%nat).
Proof.
  apply (X16_all_free_schedules_all project_sync nobody_busy 30 thursday_afternoon O).
  intros p evs [E | [E | [E | []]]]; injection E as _ <-; reflexivity.
Defined.

(** X17 -- When some but not all participants are busy and the subject
    holds one of the words all, team, everyone, together (in any letter
    case, also inside a longer word), the resolver answers
    reschedule_tomorrow for all request participants at the tomorrow
    time, without looking at the importance of any event. *)
Theorem X17_everyone_required_reschedules (pr : parsed_request)
    (d : dict (list event)) (meeting_duration : Z) (w : Clock.wall) (n : nat) :
  (0 < List.length (busy_of d) < List.length d)%nat ->
  requires_all pr = true ->
  resolve_scheduling_conflicts pr d meeting_duration w n
  = (Ok (mkresolution reschedule_tomorrow
           (iso (tomorrow_slot (at_reading (w n)))) (participants pr)
           "All participants are required but some are busy. Rescheduling to tomorrow."
           meeting_duration None None None), S n).
Proof.
  intros [Hpos Hlt] Hall. unfold resolve_scheduling_conflicts.
  destruct (_analyze_conflicts_flags d meeting_duration) as (Hf & Hs & _).
  rewrite Hf, Hs.
  replace (Nat.eqb (List.length (busy_of d)) 0) with false
    by (symmetry; apply Nat.eqb_neq; lia).
  replace (Nat.ltb 0 (List.length (busy_of d))) with true
    by (symmetry; apply Nat.ltb_lt; lia).
  replace (Nat.ltb (List.length (busy_of d)) (List.length d)) with true
    by (symmetry; apply Nat.ltb_lt; lia).
  cbn [andb]. unfold _handle_partial_conflicts.
  change (PyStr.any_in critical_keywords (PyStr.lower (subject pr)))
    with (requires_all pr).
  rewrite Hall. unfold _reschedule_for_all.
  rewrite (bind_ok _ _ _ _ _ _ (_get_tomorrow_time_run meeting_duration w n)).
  reflexivity.
Qed.

(** A "Team sync" with one free and two busy participants. *)
Lemma X17_everyone_required_reschedules_witness :
  resolve_scheduling_conflicts team_sync two_busy 30 thursday_afternoon O
  = (Ok (mkresolution reschedule_tomorrow
           (iso (tomorrow_slot (at_reading (thursday_afternoon O))))
           (participants team_sync)
           "All participants are required but some are busy. Rescheduling to tomorrow."
           30 None None None), 1%nat).
Proof.
  apply (X17_everyone_required_reschedules team_sync two_busy 30 thursday_afternoon O).
  - cbn. lia.
  - reflexivity.
Defined.

Lemma selected_partial (pr : parsed_request) (d : dict (list event)) :
  selected_action pr d = schedule_partial ->
  wants_feedback pr = true /\ available_of d <> [] /\ busy_of d <> []
  /\ requires_all pr = false.
Proof.
  unfold selected_action.
  destruct (Nat.eqb_spec (List.length (busy_of d)) 0) as [Hz | Hz]; [discriminate |].
  destruct (Nat.ltb (List.length (busy_of d)) (List.length d)); [| discriminate].
  destruct (requires_all pr); [discriminate |].
  destruct (first_busy d) as [[b evs] |]; [| discriminate].
  destruct (some_low evs); [discriminate |].
  destruct (wants_feedback pr); cbn [andb]; [| discriminate].
  destruct (Nat.leb_spec 1 (List.length (available_of d))) as [L | L]; [| discriminate].
  intros _. repeat split.
  - intros E. rewrite E in L. cbn in L. lia.
  - intros E. rewrite E in Hz. apply Hz. reflexivity.
Qed.

(** X18 -- A resolution with action schedule_partial includes exactly the
    participants without events, of which there is at least one, lists
    exactly the busy participants under follow_up_needed, and carries
    neither follow-up meetings nor a meeting to move; it is only chosen
    when the subject mentions feedback. *)
Theorem X18_partial_includes_only_free (pr : parsed_request) (d : dict (list event))
    (meeting_duration : Z) (w : Clock.wall) (n : nat) (r : resolution) :
  NoDup (keys d) ->
  fst (resolve_scheduling_conflicts pr d meeting_duration w n) = Ok r ->
  action r = schedule_partial ->
  participants_to_include r = available_of d
  /\ participants_to_include r <> []
  /\ (forall p, In p (participants_to_include r) -> dict_get d p = Some [])
  /\ follow_up_needed r = Some (busy_of d)
  /\ busy_of d <> []
  /\ follow_up_meetings r = None /\ reschedule_needed r = None
  /\ wants_feedback pr = true.
Proof.
  intros Hnd Hr Ha.
  pose proof (resolve_action pr d meeting_duration w n r Hnd Hr) as Hsel.
  rewrite Ha in Hsel. symmetry in Hsel.
  pose proof (resolve_outcome pr d meeting_duration w n Hnd) as H. cbv zeta in H.
  rewrite Hsel in H. destruct H as (t & why & H). rewrite H in Hr.
  injection Hr as <-. cbn.
  destruct (selected_partial pr d Hsel) as (Hfb & Hav & Hbusy & _).
  repeat split; try assumption.
  intros p Hin. apply in_available_of in Hin. apply dict_get_In; assumption.
Qed.

(** A feedback round with two free participants and one busy with a
    client. *)
Lemma X18_partial_includes_only_free_witness :
  exists r,
    fst (resolve_scheduling_conflicts feedback_round one_busy_client 30
           thursday_afternoon O) = Ok r
    /\ participants_to_include r = ["a@x.com"; "b@x.com"]
    /\ follow_up_needed r = Some ["c@x.com"].
Proof.
  assert (Hnd : NoDup (keys one_busy_client))
    by (cbn; repeat (apply NoDup_cons; [cbn; intuition discriminate |]);
        apply NoDup_nil).
  destruct (fst (resolve_scheduling_conflicts feedback_round one_busy_client 30
                   thursday_afternoon O)) as [r | e |] eqn:Hr;
    [| vm_compute in Hr; discriminate | vm_compute in Hr; discriminate].
  assert (Ha : action r = schedule_partial)
    by (vm_compute in Hr; injection Hr as <-; reflexivity).
  exists r. split; [reflexivity |].
  destruct (X18_partial_includes_only_free feedback_round one_busy_client 30
              thursday_afternoon O r Hnd Hr Ha) as (Hinc & _ & _ & Hfu & _).
  split; [exact Hinc | exact Hfu].
Defined.

End ResolverBranches.

(* ===================================================================== *)
(** * Further properties: organizer first, and what the resolver returns *)
(* ===================================================================== *)

Section ResolverOutcome.
Import PyTime CalendarUtils ConflictResolver OutputFormatter Spec.

Lemma _find_alternative_time_bounds (meeting_duration : Z) (w : Clock.wall) (n : nat) :
  exists alt,
    _find_alternative_time meeting_duration w n = (Ok (iso alt), S n)
    /\ 0 <= hour alt < 24
    /\ minute alt = 0 /\ second alt = 0 /\ microsecond alt = 0
    /\ w n + 3600000000 < to_us alt <= w n + 7200000000.
Proof.
  set (later := add (of_us (w n) None) (td_hours 2)).
  exists (replace_microsecond 0 (replace_second 0 (replace_minute 0 later))).
  split; [reflexivity |].
  pose proof (add_well_formed (of_us (w n) None) (td_hours 2)) as Hwf.
  fold later in Hwf.
  pose proof (to_us_on_the_hour later Hwf) as H. cbv zeta in H.
  assert (Hto : to_us later = w n + 7200000000).
  { subst later. rewrite to_us_add. unfold add. rewrite to_us_of_us. reflexivity. }
  split; [exact (proj1 Hwf) |].
  repeat split; lia.
Qed.

Lemma selected_organizer_first (pr : parsed_request) (d : dict (list event)) :
  selected_action pr d = schedule_organizer_first ->
  (0 < List.length (busy_of d) < List.length d)%nat
  /\ requires_all pr = false
  /\ (exists b evs, first_busy d = Some (b, evs) /\ some_low evs = false)
  /\ (wants_feedback pr && Nat.leb 1 (List.length (available_of d)))%bool = false.
Proof.
  unfold selected_action.
  destruct (Nat.eqb_spec (List.length (busy_of d)) 0) as [Hz | Hz]; [discriminate |].
  destruct (Nat.ltb_spec (List.length (busy_of d)) (List.length d)) as [Hlt | Hge];
    [| discriminate].
  destruct (requires_all pr); [discriminate |].
  destruct (first_busy d) as [[b evs] |]; [| discriminate].
  destruct (some_low evs) eqn:Hlow; [discriminate |].
  destruct (wants_feedback pr && _)%bool; [discriminate |].
  intros _. repeat split; try lia. exists b, evs. split; [reflexivity | exact Hlow].
Qed.

(** The run of the resolver in the organizer-first branch. *)
Lemma organizer_first_run (pr : parsed_request) (d : dict (list event))
    (meeting_duration : Z) (w : Clock.wall) (n : nat) (p0 : string)
    (ps : list string) :
  NoDup (keys d) ->
  selected_action pr d = schedule_organizer_first ->
  participants pr = p0 :: ps ->
  exists t alt why,
    resolve_scheduling_conflicts pr d meeting_duration w n
    = (Ok (mkresolution schedule_organizer_first t (pr_From pr :: available_of d)
             why meeting_duration None
             (Some [mkfollow (pr_From pr :: busy_of d) (iso alt)
                      "Follow-up meeting with previously busy participants"])
             None), S (S n))
    /\ 0 <= hour alt < 24
    /\ minute alt = 0 /\ second alt = 0 /\ microsecond alt = 0
    /\ w (S n) + 3600000000 < to_us alt <= w (S n) + 7200000000.
Proof.
  intros Hnd Hsel Hps.
  destruct (selected_organizer_first pr d Hsel)
    as ((Hpos & Hlt) & Hall & (b & evs & Hfb & Hlow) & Hfeed).
  unfold resolve_scheduling_conflicts.
  destruct (_analyze_conflicts_flags d meeting_duration) as (Hf & Hs & _).
  destruct (_analyze_conflicts_lists d meeting_duration) as (Hav & Hbusy).
  rewrite Hf, Hs.
  replace (Nat.eqb (List.length (busy_of d)) 0) with false
    by (symmetry; apply Nat.eqb_neq; lia).
  replace (Nat.ltb 0 (List.length (busy_of d))) with true
    by (symmetry; apply Nat.ltb_lt; lia).
  replace (Nat.ltb (List.length (busy_of d)) (List.length d)) with true
    by (symmetry; apply Nat.ltb_lt; lia).
  cbn [andb]. unfold _handle_partial_conflicts.
  change (PyStr.any_in critical_keywords (PyStr.lower (subject pr)))
    with (requires_all pr).
  rewrite Hall, Hbusy, Hav.
  pose proof (busy_of_first d) as Hfirst. rewrite Hfb in Hfirst.
  destruct Hfirst as (rest & Hrest).
  pose proof (_analyze_conflicts_details d meeting_duration b evs Hnd Hfb) as Hdet.
  rewrite Hrest. rewrite (bind_ok _ _ w n n b) by reflexivity.
  unfold lookup. rewrite Hdet.
  rewrite (bind_ok _ _ w n n (_analyze_meeting_importance evs)) by reflexivity.
  rewrite has_low_rated, Hlow.
  destruct (_find_optimal_time_returns pr meeting_duration w n) as (t & Ht).
  unfold _schedule_partial_meeting. rewrite (bind_ok _ _ _ _ _ _ Ht).
  change (PyStr.contains "feedback" (PyStr.lower (subject pr)))
    with (wants_feedback pr).
  rewrite <- Hrest, Hfeed, Hps.
  rewrite (bind_ok _ _ w (S n) (S n) p0) by reflexivity.
  destruct (_find_alternative_time_bounds meeting_duration w (S n))
    as (alt & Halt & Hh & Hm & Hsec & Hu & Hb).
  rewrite (bind_ok _ _ _ _ _ _ Halt).
  exists t, alt. eexists. split; [reflexivity |]. repeat split; try assumption; lia.
Qed.

(** X19 -- A resolution with action schedule_organizer_first carries
    exactly one follow-up meeting: its participants are the organizer
    followed by the busy participants, and its time is the text of a
    time of day exactly on the hour (hour from 0 to 23, minute, second
    and microsecond zero), more than one and at most two hours after the
    second clock reading of the run (whatever hour or day that is).  It
    carries no follow_up_needed and no meeting to move. *)
Theorem X19_organizer_first_follow_up (pr : parsed_request) (d : dict (list event))
    (meeting_duration : Z) (w : Clock.wall) (n : nat) (r : resolution) :
  NoDup (keys d) ->
  fst (resolve_scheduling_conflicts pr d meeting_duration w n) = Ok r ->
  action r = schedule_organizer_first ->
  exists alt,
    follow_up_meetings r
    = Some [mkfollow (pr_From pr :: busy_of d) (iso alt)
              "Follow-up meeting with previously busy participants"]
    /\ 0 <= hour alt < 24
    /\ minute alt = 0 /\ second alt = 0 /\ microsecond alt = 0
    /\ w (S n) + 3600000000 < to_us alt <= w (S n) + 7200000000
    /\ snd (resolve_scheduling_conflicts pr d meeting_duration w n) = S (S n)
    /\ follow_up_needed r = None /\ reschedule_needed r = None.
Proof.
  intros Hnd Hr Ha.
  pose proof (resolve_action pr d meeting_duration w n r Hnd Hr) as Hsel.
  rewrite Ha in Hsel. symmetry in Hsel.
  destruct (participants pr) as [| p0 ps] eqn:Hps.
  { pose proof (resolve_outcome pr d meeting_duration w n Hnd) as H. cbv zeta in H.
    rewrite Hsel, Hps in H. rewrite H in Hr. discriminate. }
  destruct (organizer_first_run pr d meeting_duration w n p0 ps Hnd Hsel Hps)
    as (t & alt & why & Hrun & Hh & Hm & Hs & Hu & Hb).
  rewrite Hrun in Hr |- *. injection Hr as <-. cbn.
  exists alt. repeat split; try assumption; lia.
Qed.

(** The organizer is free, one colleague is busy with a client. *)
Lemma X19_organizer_first_follow_up_witness :
  exists r alt,
    fst (resolve_scheduling_conflicts project_sync one_busy_client 30
           thursday_afternoon O) = Ok r
    /\ follow_up_meetings r
       = Some [mkfollow ["a@x.com"; "c@x.com"] (iso alt)
                 "Follow-up meeting with previously busy participants"]
    /\ 0 <= hour alt < 24
    /\ minute alt = 0 /\ second alt = 0 /\ microsecond alt = 0
    /\ thursday_afternoon 1%nat + 3600000000 < to_us alt
       <= thursday_afternoon 1%nat + 7200000000.
Proof.
  assert (Hnd : NoDup (keys one_busy_client))
    by (cbn; repeat (apply NoDup_cons; [cbn; intuition discriminate |]);
        apply NoDup_nil).
  destruct (fst (resolve_scheduling_conflicts project_sync one_busy_client 30
                   thursday_afternoon O)) as [r | e |] eqn:Hr;
    [| vm_compute in Hr; discriminate | vm_compute in Hr; discriminate].
  assert (Ha : action r = schedule_organizer_first)
    by (vm_compute in Hr; injection Hr as <-; reflexivity).
  destruct (X19_organizer_first_follow_up project_sync one_busy_client 30
              thursday_afternoon O r Hnd Hr Ha)
    as (alt & Hfu & Hh & Hm & Hs & Hu & Hb & _).
  exists r, alt. split; [reflexivity |]. split; [exact Hfu |].
  split; [exact Hh |]. split; [exact Hm |]. split; [exact Hs |].
  split; [exact Hu | exact Hb].
Defined.

(** X20 -- With a calendar mapping whose keys are distinct and a request
    that has at least one participant, the resolver never raises and
    never loops: it returns a resolution carrying the requested
    duration, and it has read the clock once, or twice exactly when the
    action is schedule_organizer_first. *)
Theorem X20_resolver_always_answers (pr : parsed_request) (d : dict (list event))
    (duration : Z) (w : Clock.wall) (n : nat) :
  NoDup (keys d) ->
  participants pr <> [] ->
  exists r k,
    resolve_scheduling_conflicts pr d duration w n = (Ok r, k)
    /\ meeting_duration r = duration
    /\ action r = selected_action pr d
    /\ k = (if match action r with schedule_organizer_first => true | _ => false end
            then S (S n) else S n).
Proof.
  intros Hnd Hps.
  pose proof (resolve_outcome pr d duration w n Hnd) as H. cbv zeta in H.
  destruct (selected_action pr d) eqn:Hsel.
  - destruct H as (t & why & H). rewrite H. do 2 eexists.
    split; [reflexivity |]. repeat split.
  - destruct H as (t & why & H). rewrite H. do 2 eexists.
    split; [reflexivity |]. repeat split.
  - destruct H as (why & H). rewrite H. do 2 eexists.
    split; [reflexivity |]. repeat split.
  - destruct (participants pr); [congruence |].
    destruct H as (t & t' & why & why' & H). rewrite H. do 2 eexists.
    split; [reflexivity |]. repeat split.
  - destruct H as (b & evs & t & why & _ & H). rewrite H. do 2 eexists.
    split; [reflexivity |]. repeat split.
Qed.

(** One free and two busy participants. *)
Lemma X20_resolver_always_answers_witness :
  exists r k,
    resolve_scheduling_conflicts project_sync two_busy 30 thursday_afternoon O
    = (Ok r, k)
    /\ meeting_duration r = 30.
Proof.
  assert (Hnd : NoDup (keys two_busy))
    by (cbn; repeat (apply NoDup_cons; [cbn; intuition discriminate |]);
        apply NoDup_nil).
  assert (Hps : participants project_sync <> []) by discriminate.
  destruct (X20_resolver_always_answers project_sync two_busy 30 thursday_afternoon O
              Hnd Hps) as (r & k & Hrun & Hdur & _).
  exists r, k. split; assumption.
Defined.

(** X21 -- The only failure of the resolver: when the branch taken is
    organizer first and the request has no participant at all, it raises
    IndexError after the optimal time has been computed. *)
Theorem X21_no_participant_index_error (pr : parsed_request) (d : dict (list event))
    (meeting_duration : Z) (w : Clock.wall) (n : nat) :
  NoDup (keys d) ->
  selected_action pr d = schedule_organizer_first ->
  participants pr = [] ->
  resolve_scheduling_conflicts pr d meeting_duration w n
  = (Raise (IndexError "list index out of range"), S n).
Proof.
  intros Hnd Hsel Hps.
  pose proof (resolve_outcome pr d meeting_duration w n Hnd) as H. cbv zeta in H.
  rewrite Hsel, Hps in H. exact H.
Qed.

(** A request without participants, one calendar free and one busy with
    a client. *)
Lemma X21_no_participant_index_error_witness :
  resolve_scheduling_conflicts
    (mkparsed [] 30 "thursday" "Project sync" None "a@x.com")
    one_busy_client 30 thursday_afternoon O
  = (Raise (IndexError "list index out of range"), 1%nat).
Proof.
  apply X21_no_participant_index_error.
  - cbn; repeat (apply NoDup_cons; [cbn; intuition discriminate |]); apply NoDup_nil.
  - reflexivity.
  - reflexivity.
Defined.

(** X22 -- In the metadata built from a resolution that the resolver
    returned, follow_up_meetings is present exactly for the action
    schedule_organizer_first, follow_up_needed exactly for
    schedule_partial and reschedule_needed exactly for
    schedule_all_with_reschedule; the action is written under its own
    name. *)
Theorem X22_metadata_keys_follow_action (pr : parsed_request) (d : dict (list event))
    (meeting_duration : Z) (w : Clock.wall) (n : nat) (r : resolution) :
  NoDup (keys d) ->
  fst (resolve_scheduling_conflicts pr d meeting_duration w n) = Ok r ->
  exists meetings needed moved,
    _build_metadata r
    = MetaResolution (action_name (action r)) (reason r) (_get_scheduling_strategy r)
        meetings needed moved
    /\ (meetings <> None <-> action r = schedule_organizer_first)
    /\ (needed <> None <-> action r = schedule_partial)
    /\ (moved <> None <-> action r = schedule_all_with_reschedule).
Proof.
  intros Hnd Hr.
  pose proof (resolve_outcome pr d meeting_duration w n Hnd) as H. cbv zeta in H.
  unfold _build_metadata. do 3 eexists. split; [reflexivity |].
  destruct (selected_action pr d).
  - destruct H as (t & why & H). rewrite H in Hr. injection Hr as <-. cbn.
    repeat split; intros; congruence.
  - destruct H as (t & why & H). rewrite H in Hr. injection Hr as <-. cbn.
    repeat split; intros; congruence.
  - destruct H as (why & H). rewrite H in Hr. injection Hr as <-. cbn.
    repeat split; intros; congruence.
  - destruct (participants pr); [rewrite H in Hr; discriminate |].
    destruct H as (t & t' & why & why' & H). rewrite H in Hr. injection Hr as <-. cbn.
    repeat split; intros; congruence.
  - destruct H as (b & evs & t & why & _ & H). rewrite H in Hr. injection Hr as <-.
    cbn. repeat split; intros; congruence.
Qed.

(** The metadata of a resolution that moves a coffee break. *)
Lemma X22_metadata_keys_follow_action_witness :
  exists r meetings needed moved,
    fst (resolve_scheduling_conflicts project_sync two_busy 30 thursday_afternoon O)
    = Ok r
    /\ _build_metadata r
       = MetaResolution (action_name (action r)) (reason r)
           (_get_scheduling_strategy r) meetings needed moved
    /\ (moved <> None <-> action r = schedule_all_with_reschedule).
Proof.
  assert (Hnd : NoDup (keys two_busy))
    by (cbn; repeat (apply NoDup_cons; [cbn; intuition discriminate |]);
        apply NoDup_nil).
  destruct (fst (resolve_scheduling_conflicts project_sync two_busy 30
                   thursday_afternoon O)) as [r | e |] eqn:Hr;
    [| vm_compute in Hr; discriminate | vm_compute in Hr; discriminate].
  destruct (X22_metadata_keys_follow_action project_sync two_busy 30
              thursday_afternoon O r Hnd Hr)
    as (meetings & needed & moved & Hmeta & _ & _ & Hmoved).
  exists r, meetings, needed, moved. split; [reflexivity |]. split; assumption.
Defined.

End ResolverOutcome.

(* ===================================================================== *)
(** * Further properties: the details kept for the busy participants *)
(* ===================================================================== *)

Section ConflictDetails.
Import PyTime CalendarUtils ConflictResolver Spec.

Lemma dict_set_fresh_keys {V} (d : dict V) (k : string) (v : V) :
  ~ In k (keys d) -> keys (dict_set d k v) = (keys d ++ [k])%list.
Proof.
  induction d as [| [k' v'] r IH]; cbn; intros H; [reflexivity |].
  destruct (String.eqb_spec k k') as [-> | Hne]; [tauto |].
  cbn. f_equal. apply IH. tauto.
Qed.

Lemma split_participants_details_keys (items : dict (list event))
    (available busy : list string) (details : dict (list rated)) :
  NoDup (keys items) ->
  (forall k, In k (keys items) -> ~ In k (keys details)) ->
  keys (snd (split_participants items available busy details))
  = (keys details ++ busy_of items)%list.
Proof.
  revert available busy details.
  induction items as [| [p evs] rest IH]; intros available busy details Hnd Hfresh.
  - cbn. rewrite app_nil_r. reflexivity.
  - inversion Hnd as [| ? ? Hnotin Hnd']; subst.
    destruct evs as [| e es]; cbn [split_participants].
    + rewrite IH; [reflexivity | exact Hnd' |].
      intros k Hk. apply Hfresh. right. exact Hk.
    + rewrite IH; [| exact Hnd' |].
      * rewrite dict_set_fresh_keys by (apply Hfresh; left; reflexivity).
        unfold busy_of, keys. cbn. rewrite <- app_assoc. reflexivity.
      * intros k Hk. rewrite dict_set_fresh_keys by (apply Hfresh; left; reflexivity).
        intros Hin. apply in_app_or in Hin as [Hin | [<- | []]].
        -- apply (Hfresh k); [right; exact Hk | exact Hin].
        -- apply Hnotin. exact Hk.
Qed.

Lemma split_participants_details_busy (items : dict (list event))
    (available busy : list string) (details : dict (list rated))
    (p : string) (e : event) (es : list event) :
  NoDup (keys items) ->
  In (p, e :: es) items ->
  dict_get (snd (split_participants items available busy details)) p
  = Some (_analyze_meeting_importance (e :: es)).
Proof.
  revert available busy details.
  induction items as [| [k evs] rest IH]; intros available busy details Hnd Hin.
  - contradiction.
  - inversion Hnd as [| ? ? Hnotin Hnd']; subst.
    destruct Hin as [E | Hin].
    + injection E as -> ->. cbn [split_participants].
      rewrite split_participants_details_other by exact Hnotin.
      apply dict_get_set_same.
    + destruct evs as [| e' es']; cbn [split_participants]; apply IH; assumption.
Qed.

Lemma dict_get_None {V} (d : dict V) (k : string) :
  ~ In k (keys d) -> dict_get d k = None.
Proof.
  intros H. destruct (dict_get d k) eqn:E; [| reflexivity].
  exfalso. apply H. apply dict_get_keys. eexists. exact E.
Qed.

Lemma rating_high_iff (e : event) :
  classify e = high
  <-> PyStr.any_in high_keywords (PyStr.lower (get (Summary e) "")) = true.
Proof.
  pose proof (classify_spec e) as H. cbv zeta in H. rewrite H. clear H.
  change ["client"; "customer"; "urgent"; "critical"; "ceo"; "board"; "emergency"]
    with high_keywords.
  destruct (PyStr.any_in high_keywords _); [tauto |].
  destruct (PyStr.any_in _ _); split; intros E; discriminate E.
Qed.

(** X23 -- The conflict details of an analysis have one entry for each
    busy participant, in the order of the busy list, and none for an
    available participant.  The entry of a busy participant rates that
    participant's events one by one, in order, each with its summary
    (empty when the event has none), and rates an event high exactly
    when its lower-cased summary holds one of client, customer, urgent,
    critical, ceo, board, emergency. *)
Theorem X23_conflict_details (d : dict (list event)) (duration : Z) :
  NoDup (keys d) ->
  let ca := _analyze_conflicts d duration in
  keys (conflict_details ca) = busy_participants ca
  /\ (forall p, dict_get d p = Some [] -> dict_get (conflict_details ca) p = None)
  /\ (forall p e es, dict_get d p = Some (e :: es) ->
        exists ratings,
          dict_get (conflict_details ca) p = Some ratings
          /\ map rated_event ratings = e :: es
          /\ forall r, In r ratings ->
               rated_summary r = get (Summary (rated_event r)) ""
               /\ (importance r = high
                   <-> PyStr.any_in high_keywords
                         (PyStr.lower (get (Summary (rated_event r)) "")) = true)).
Proof.
  intros Hnd ca. subst ca.
  destruct (_analyze_conflicts_lists d duration) as (Hav & Hbusy).
  assert (Hkeys : keys (conflict_details (_analyze_conflicts d duration)) = busy_of d).
  { unfold _analyze_conflicts.
    pose proof (split_participants_details_keys d [] [] [] Hnd) as H.
    destruct (split_participants d [] [] []) as [[a b] det]. cbn in H |- *.
    apply H. intros k _ []. }
  split; [rewrite Hkeys, Hbusy; reflexivity |]. split.
  - intros p Hp. apply dict_get_None. rewrite Hkeys. intros Hin.
    apply in_busy_of in Hin as (e & es & Hin).
    apply dict_get_In in Hin; [| exact Hnd]. congruence.
  - intros p e es Hp. apply dict_get_In in Hp; [| exact Hnd].
    exists (_analyze_meeting_importance (e :: es)). split.
    + unfold _analyze_conflicts.
      pose proof (split_participants_details_busy d [] [] [] p e es Hnd Hp) as H.
      destruct (split_participants d [] [] []) as [[a b] det]. exact H.
    + split.
      * unfold _analyze_meeting_importance. rewrite map_map. cbn [rated_event].
        apply map_id.
      * intros r Hin. unfold _analyze_meeting_importance in Hin.
        apply in_map_iff in Hin as (ev & <- & _). cbn [rated_summary rated_event importance].
        split; [reflexivity | apply rating_high_iff].
Qed.

(** One free participant, one with a coffee break, one with a client
    call. *)
Lemma X23_conflict_details_witness :
  keys (conflict_details (_analyze_conflicts two_busy 30))
  = busy_participants (_analyze_conflicts two_busy 30).
Proof.
  apply (X23_conflict_details two_busy 30).
  cbn; repeat (apply NoDup_cons; [cbn; intuition discriminate |]); apply NoDup_nil.
Defined.

End ConflictDetails.

(* ===================================================================== *)
(** * Further properties: the timelines of a response *)
(* ===================================================================== *)

Section Timelines.
Import PyTime CalendarUtils ConflictResolver OutputFormatter Spec.

Variable list_set : list string -> list string.

Lemma insert_by_Permutation {A} (key : A -> string) (x : A) (l : list A) :
  Permutation (PyStr.insert_by key x l) (x :: l).
Proof.
  induction l as [| y r IH]; cbn; [apply Permutation_refl |].
  destruct (String.leb (key x) (key y)); [apply Permutation_refl |].
  eapply perm_trans; [apply perm_skip; exact IH | apply perm_swap].
Qed.

Lemma sorted_by_Permutation {A} (key : A -> string) (l : list A) :
  Permutation (PyStr.sorted_by key l) l.
Proof.
  induction l as [| x r IH]; cbn; [apply perm_nil |].
  eapply perm_trans; [apply insert_by_Permutation | apply perm_skip; exact IH].
Qed.

Lemma insert_by_Sorted {A} (key : A -> string) (x : A) (l : list A) :
  Sorted (fun a b => String.leb (key a) (key b) = true) l ->
  Sorted (fun a b => String.leb (key a) (key b) = true) (PyStr.insert_by key x l).
Proof.
  induction l as [| y r IH]; cbn; intros Hs.
  - constructor; constructor.
  - destruct (String.leb (key x) (key y)) eqn:E.
    + constructor; [exact Hs | constructor; exact E].
    + inversion Hs as [| ? ? Hr Hhd]; subst.
      assert (Hyx : String.leb (key y) (key x) = true).
      { destruct (String.leb_total (key x) (key y)) as [H | H]; [congruence | exact H]. }
      constructor; [apply IH; exact Hr |].
      destruct r as [| z r']; cbn.
      * constructor. exact Hyx.
      * destruct (String.leb (key x) (key z)); constructor;
          [exact Hyx | inversion Hhd; assumption].
Qed.

Lemma sorted_by_Sorted {A} (key : A -> string) (l : list A) :
  Sorted (fun a b => String.leb (key a) (key b) = true) (PyStr.sorted_by key l).
Proof.
  induction l as [| x r IH]; cbn; [constructor | apply insert_by_Sorted; exact IH].
Qed.

(** X24 -- The timeline built for a participant carries the
    participant's address; its events are in ascending order of their
    StartTime strings and are, up to order, the participant's events in
    the calendar mapping (none when the mapping has no entry for the
    participant) followed by the new meeting exactly when the participant
    is among the included ones. *)
Theorem X24_timeline_sorted (included : list string) (cal : dict (list event))
    (meeting_start meeting_end meeting_subject participant : string) :
  let tl := timeline included cal meeting_start meeting_end meeting_subject
              participant in
  ae_email tl = participant
  /\ Sorted by_start (ae_events tl)
  /\ Permutation (ae_events tl)
       (get (dict_get cal participant) []
        ++ (if mem participant included
            then [new_meeting included meeting_start meeting_end meeting_subject]
            else []))%list.
Proof.
  cbv zeta. unfold timeline. cbn [ae_email ae_events].
  split; [reflexivity |]. split; [apply sorted_by_Sorted |].
  eapply perm_trans; [apply sorted_by_Permutation |].
  unfold get, new_meeting.
  destruct (mem participant included); [| rewrite app_nil_r]; apply Permutation_refl.
Qed.

(** X25 -- When [list(set(...))] enumerates its argument without
    repetition, the attendees list of a response has exactly one
    timeline for the sender (the empty address when the request has no
    From) and for each distinct attendee address of the request, and for
    nobody else: an included participant who is not named in the request
    gets no timeline.  The events of a timeline are the entries of its
    owner in the calendar mapping and, when the owner is included, the
    new meeting. *)
Theorem X25_one_timeline_per_participant (included : list string)
    (cal : dict (list event)) (meeting_start meeting_end meeting_subject : string)
    (original_request : request) :
  enumerates list_set ->
  let out := _build_attendees_events list_set included cal meeting_start meeting_end
               meeting_subject original_request in
  NoDup (map ae_email out)
  /\ (forall p, In p (map ae_email out)
                <-> p = get (req_From original_request) ""
                    \/ In p (map email (get (req_Attendees original_request) [])))
  /\ (forall tl e, In tl out ->
        (In e (ae_events tl)
         <-> In e (get (dict_get cal (ae_email tl)) [])
             \/ (In (ae_email tl) included
                 /\ e = new_meeting included meeting_start meeting_end
                          meeting_subject))).
Proof.
  intros Hset out.
  assert (Hemails : map ae_email out = request_participants list_set original_request).
  { subst out. unfold _build_attendees_events. rewrite map_map. cbn [timeline ae_email].
    apply map_id. }
  unfold request_participants in Hemails.
  destruct (Hset (get (req_From original_request) ""
                  :: map email (get (req_Attendees original_request) [])))
    as (Hnd & Hin).
  rewrite Hemails. split; [exact Hnd |]. split.
  - intros p. rewrite Hin. cbn. intuition congruence.
  - intros tl e Htl. subst out. unfold _build_attendees_events in Htl.
    apply in_map_iff in Htl as (p & <- & _).
    unfold timeline. cbn [ae_email ae_events]. rewrite sorted_by_In.
    unfold get, new_meeting. destruct (mem p included) eqn:Hm.
    + apply mem_In in Hm. rewrite in_app_iff. cbn. intuition congruence.
    + assert (~ In p included) by (rewrite <- mem_In; congruence). tauto.
Qed.

End Timelines.

Section TimelinesExamples.
Import PyTime CalendarUtils ConflictResolver OutputFormatter Spec.

(** The timelines of a mail from a@x.com to b@x.com and c@x.com. *)
Lemma X25_one_timeline_per_participant_witness :
  NoDup (map ae_email
           (_build_attendees_events distinct ["a@x.com"; "b@x.com"] two_busy
              "2025-07-24T09:00:00+05:30" "2025-07-24T09:30:00+05:30" "Project sync"
              thursday_mail)).
Proof.
  apply (X25_one_timeline_per_participant distinct ["a@x.com"; "b@x.com"] two_busy
           "2025-07-24T09:00:00+05:30" "2025-07-24T09:30:00+05:30" "Project sync"
           thursday_mail distinct_enumerates).
Defined.

End TimelinesExamples.

(* ===================================================================== *)
(** * Further properties: the answers of the assistant *)
(* ===================================================================== *)

Section AssistantAnswers.
Import PyTime CalendarUtils ConflictResolver OutputFormatter MeetingAssistant Spec.

Variable fromisoformat : string -> option datetime.
Variable list_set : list string -> list string.
Variable ai_agent : option (string -> result ai_parsed).
Variable fetched : list string -> string -> string -> dict (list event).

Lemma lower_ascii_idem (c : ascii) :
  PyStr.lower_ascii (PyStr.lower_ascii c) = PyStr.lower_ascii c.
Proof. destruct c as [[] [] [] [] [] [] [] []]; reflexivity. Qed.

Lemma lower_idem (s : string) : PyStr.lower (PyStr.lower s) = PyStr.lower s.
Proof.
  induction s as [| c r IH]; cbn; [reflexivity |].
  rewrite lower_ascii_idem, IH. reflexivity.
Qed.

(** The participants and the sender never come from the language
    model. *)
Lemma parse_participants (data : request) :
  participants (_parse_meeting_request list_set ai_agent data)
  = participants_of list_set data.
Proof.
  unfold _parse_meeting_request.
  destruct ai_agent as [parse_email |]; [| reflexivity].
  destruct (String.eqb _ _); [| reflexivity].
  destruct (parse_email _); reflexivity.
Qed.

Lemma manual_constraint_weekend (data : request) :
  PyStr.any_in ["saturday"; "sunday"; "weekend"]
    (PyStr.lower (get (req_EmailContent data) "")) = true ->
  time_constraints (_manual_parse_request list_set data) = "weekend".
Proof.
  intros H. unfold _manual_parse_request. cbn [time_constraints].
  rewrite lower_idem, H. reflexivity.
Qed.

Lemma manual_constraint_named (data : request) :
  PyStr.any_in ["saturday"; "sunday"; "weekend"; "thursday"; "monday"; "tuesday";
                "wednesday"; "friday"; "tomorrow"]
    (PyStr.lower (get (req_EmailContent data) "")) = true ->
  time_constraints (_manual_parse_request list_set data) <> "next available time".
Proof.
  unfold _manual_parse_request. cbn [time_constraints]. rewrite lower_idem.
  set (c := PyStr.lower (get (req_EmailContent data) "")).
  unfold PyStr.any_in. cbn [existsb].
  destruct (PyStr.contains "saturday" c); [intros _; cbn; discriminate |].
  destruct (PyStr.contains "sunday" c); [intros _; cbn; discriminate |].
  destruct (PyStr.contains "weekend" c); [intros _; cbn; discriminate |].
  destruct (PyStr.contains "thursday" c); [intros _; cbn; discriminate |].
  destruct (PyStr.contains "monday" c); [intros _; cbn; discriminate |].
  destruct (PyStr.contains "tuesday" c); [intros _; cbn; discriminate |].
  destruct (PyStr.contains "wednesday" c); [intros _; cbn; discriminate |].
  destruct (PyStr.contains "friday" c); [intros _; cbn; discriminate |].
  destruct (PyStr.contains "tomorrow" c); [intros _; cbn; discriminate |].
  cbn. discriminate.
Qed.

Lemma parse_without_model (data : request) :
  time_constraints (_manual_parse_request list_set data) <> "next available time" ->
  _parse_meeting_request list_set ai_agent data = _manual_parse_request list_set data.
Proof.
  intros H. unfold _parse_meeting_request.
  destruct ai_agent as [parse_email |]; [| reflexivity].
  destruct (String.eqb_spec (time_constraints (_manual_parse_request list_set data))
              "next available time") as [E | _]; [contradiction | reflexivity].
Qed.

(** X26 -- A mail whose lower-cased text names Saturday, Sunday, the
    weekend, a working day or tomorrow is parsed without the language
    model, whether or not one is configured: the parsed request is the
    one of the manual parser, its time constraint is not "next available
    time", it has no start time, its duration is 15, 30 or 60 minutes and
    its participants are the enumeration of the sender and the attendee
    addresses. *)
Theorem X26_named_day_mail_parsed_without_model (data : request) :
  PyStr.any_in ["saturday"; "sunday"; "weekend"; "thursday"; "monday"; "tuesday";
                "wednesday"; "friday"; "tomorrow"]
    (PyStr.lower (get (req_EmailContent data) "")) = true ->
  let pr := _parse_meeting_request list_set ai_agent data in
  pr = _manual_parse_request list_set data
  /\ time_constraints pr <> "next available time"
  /\ start_time pr = None
  /\ (pr_meeting_duration pr = 15 \/ pr_meeting_duration pr = 30
      \/ pr_meeting_duration pr = 60)
  /\ participants pr
     = list_set (get (req_From data) "" :: map email (get (req_Attendees data) [])).
Proof.
  intros H pr. subst pr.
  pose proof (manual_constraint_named data H) as Hc.
  rewrite (parse_without_model data Hc).
  split; [reflexivity |]. split; [exact Hc |]. split; [reflexivity |].
  split; [| reflexivity].
  unfold _manual_parse_request. cbn [pr_meeting_duration].
  destruct (_ || _)%bool; [right; left; reflexivity |].
  destruct (_ || _)%bool; [right; right; reflexivity |].
  destruct (PyStr.contains _ _); [left | right; left]; reflexivity.
Qed.

(** X27 -- A mail whose lower-cased text contains saturday, sunday or
    weekend is answered by the weekend rejection whatever the language
    model and the calendar service are, and [datetime.now()] is not
    called on the way: the count of its calls is the one the run started
    with.  (The stopwatch readings of [time.time()] are not calls of
    [datetime.now()] and are not counted.) *)
Theorem X27_weekend_mail_rejected_unread (data : request) (w : Clock.wall) (n : nat) :
  PyStr.any_in ["saturday"; "sunday"; "weekend"]
    (PyStr.lower (get (req_EmailContent data) "")) = true ->
  your_meeting_assistant fromisoformat list_set ai_agent fetched data w n
  = (Ok (_create_weekend_rejection_response data), n).
Proof.
  intros H.
  pose proof (manual_constraint_weekend data H) as Hw.
  assert (Hp : _parse_meeting_request list_set ai_agent data
               = _manual_parse_request list_set data).
  { apply parse_without_model. rewrite Hw. discriminate. }
  unfold your_meeting_assistant, Clock.catch. rewrite Hp.
  pose proof (_get_all_participants_events_weekend fetched
                (_manual_parse_request list_set data) w n (or_introl Hw)) as Hrun.
  rewrite Hw in Hrun. change (String.eqb "weekend" "weekend") with true in Hrun.
  rewrite (bind_raise _ _ _ _ _ _ Hrun). reflexivity.
Qed.

(** The calendar step either raises the weekend error or returns what
    the calendar service has for the parsed participants. *)
Lemma events_step_run (pr : parsed_request) (w : Clock.wall) (n : nat) :
  (exists k, (n <= k <= S n)%nat
             /\ _get_all_participants_events fetched pr w n = (Raise weekend_error, k))
  \/ (exists window_start window_end,
        _get_all_participants_events fetched pr w n
        = (Ok (fetched (participants pr) window_start window_end), S n)).
Proof.
  unfold _get_all_participants_events.
  destruct (String.eqb (time_constraints pr) "weekend").
  { left. exists n. split; [lia | reflexivity]. }
  destruct (get_date_range_one_reading (time_constraints pr) (pr_meeting_duration pr)
              w w n n eq_refl) as ((a & Ha & _) & Hn & _).
  destruct (get_date_range_from_constraint (time_constraints pr)
              (pr_meeting_duration pr) w n) as [res k] eqn:E.
  cbn [fst snd] in Ha, Hn. subst res k.
  rewrite (bind_ok _ _ _ _ _ _ E).
  destruct a as [[window_start window_end] |].
  - right. exists window_start, window_end. reflexivity.
  - left. exists (S n). split; [lia | reflexivity].
Qed.

(** The resolver ends after one or two readings of the clock, with a
    resolution or, for a request without participants, with an
    IndexError. *)
Lemma resolve_halts (pr : parsed_request) (d : dict (list event)) (duration : Z)
    (w : Clock.wall) (n : nat) :
  NoDup (keys d) ->
  (exists r k, resolve_scheduling_conflicts pr d duration w n = (Ok r, k)
               /\ (S n <= k <= S (S n))%nat
               /\ action r = selected_action pr d
               /\ meeting_duration r = duration)
  \/ (participants pr = []
      /\ resolve_scheduling_conflicts pr d duration w n
         = (Raise (IndexError "list index out of range"), S n)).
Proof.
  intros Hnd.
  pose proof (resolve_outcome pr d duration w n Hnd) as H. cbv zeta in H.
  destruct (selected_action pr d) eqn:Hsel.
  - destruct H as (t & why & H). left. do 2 eexists. split; [exact H |].
    split; [lia |]. split; reflexivity.
  - destruct H as (t & why & H). left. do 2 eexists. split; [exact H |].
    split; [lia |]. split; reflexivity.
  - destruct H as (why & H). left. do 2 eexists. split; [exact H |].
    split; [lia |]. split; reflexivity.
  - destruct (participants pr); [right; split; [reflexivity | exact H] |].
    destruct H as (t & t' & why & why' & H). left. do 2 eexists. split; [exact H |].
    split; [lia |]. split; reflexivity.
  - destruct H as (b & evs & t & why & _ & H). left. do 2 eexists. split; [exact H |].
    split; [lia |]. split; reflexivity.
Qed.

(** The three ways in which a run of the assistant ends. *)
Lemma assistant_run (data : request) (w : Clock.wall) (n : nat) :
  (forall ps window_start window_end, NoDup (keys (fetched ps window_start window_end))) ->
  let pr := _parse_meeting_request list_set ai_agent data in
  let run := your_meeting_assistant fromisoformat list_set ai_agent fetched data w n in
  (exists k, (n <= k <= S n)%nat
             /\ _get_all_participants_events fetched pr w n = (Raise weekend_error, k)
             /\ run = (Ok (_create_weekend_rejection_response data), k))
  \/ (exists d,
        _get_all_participants_events fetched pr w n = (Ok d, S n)
        /\ ((participants pr = []
             /\ run = (Ok (_create_error_response data "list index out of range"),
                       S (S n)))
            \/ (exists r k,
                  resolve_scheduling_conflicts pr d (pr_meeting_duration pr) w (S n)
                  = (Ok r, k)
                  /\ (S (S n) <= k <= S (S (S n)))%nat
                  /\ action r = selected_action pr d
                  /\ meeting_duration r = pr_meeting_duration pr
                  /\ run = (match req_Subject data with
                            | Some _ => format_output fromisoformat list_set data r d
                            | None => Ok (_create_error_response data "'Subject'")
                            end, k)))).
Proof.
  intros Hnd pr run. subst run. unfold your_meeting_assistant, Clock.catch. fold pr.
  destruct (events_step_run pr w n) as [(k & Hk & E) | (ws & we & E)].
  - left. exists k. split; [exact Hk |]. split; [exact E |].
    rewrite (bind_raise _ _ _ _ _ _ E). reflexivity.
  - right. eexists. split; [exact E |].
    rewrite (bind_ok _ _ _ _ _ _ E). unfold _resolve_conflicts.
    destruct (resolve_halts pr (fetched (participants pr) ws we) (pr_meeting_duration pr)
                w (S n) (Hnd _ _ _))
      as [(r & k & Hr & Hk & Hact & Hdur) | (Hps & Hr)].
    + right. exists r, k. split; [exact Hr |]. split; [exact Hk |].
      split; [exact Hact |]. split; [exact Hdur |].
      rewrite (bind_ok _ _ _ _ _ _ Hr).
      unfold _format_final_output, Clock.lift, format_output.
      destruct (req_Subject data); reflexivity.
    + left. split; [exact Hps |].
      rewrite (bind_raise _ _ _ _ _ _ Hr). reflexivity.
Qed.

(** X28 -- Whatever the request, the language model and the calendars
    are (the calendar mapping having distinct keys), the assistant
    returns a response: it never raises and never loops, calls
    [datetime.now()] at most three times (the stopwatch readings of
    [time.time()] are not such calls and are not counted), and the
    response repeats Request_id, Datetime, Location, From, Subject and
    EmailContent of the request, each empty when the request lacks it.
    A response that is not a scheduling one repeats the attendees of the
    request and has empty EventStart and EventEnd. *)
Theorem X28_assistant_always_answers (data : request) (w : Clock.wall) (n : nat) :
  (forall ps window_start window_end, NoDup (keys (fetched ps window_start window_end))) ->
  exists resp k,
    your_meeting_assistant fromisoformat list_set ai_agent fetched data w n
    = (Ok resp, k)
    /\ (n <= k <= n + 3)%nat
    /\ Request_id resp = get (req_Request_id data) ""
    /\ Datetime resp = get (req_Datetime data) ""
    /\ Location resp = get (req_Location data) ""
    /\ From_ resp = get (req_From data) ""
    /\ Subject resp = get (req_Subject data) ""
    /\ EmailContent resp = get (req_EmailContent data) ""
    /\ match MetaData resp with
       | MetaResolution _ _ _ _ _ _ => exists timelines, Attendees_ resp = Timelines timelines
       | _ => Attendees_ resp = RequestAttendees (get (req_Attendees data) [])
              /\ EventStart resp = "" /\ EventEnd resp = ""
       end.
Proof.
  intros Hnd.
  pose proof (assistant_run data w n Hnd) as H. cbv zeta in H.
  destruct H as [(k & Hk & _ & ->) | (d & _ & [(_ & ->) | (r & k & _ & Hk & _ & _ & ->)])].
  - do 2 eexists. split; [reflexivity |]. split; [lia |]. cbn. repeat split.
  - do 2 eexists. split; [reflexivity |]. split; [lia |]. cbn. repeat split.
  - unfold format_output. destruct (req_Subject data) as [s |] eqn:Hs.
    + do 2 eexists. split; [reflexivity |]. split; [lia |]. cbn.
      repeat split. eexists. reflexivity.
    + do 2 eexists. split; [reflexivity |]. split; [lia |]. cbn.
      repeat split. rewrite Hs. reflexivity.
Qed.

Lemma parsed_participants_nonempty (data : request) :
  enumerates list_set ->
  participants (_parse_meeting_request list_set ai_agent data) <> [].
Proof.
  intros Hset. rewrite parse_participants. unfold participants_of.
  destruct (Hset (get (req_From data) "" :: map email (get (req_Attendees data) [])))
    as (_ & Hin).
  intros E. rewrite E in Hin. apply (Hin (get (req_From data) "")). left. reflexivity.
Qed.

(** X29 -- A request without Subject is never scheduled: the manual
    parser defaults the subject to "Meeting", but the output assembler
    reads the key itself, so after the calendars have been fetched and
    the conflicts resolved the answer is the failure response with the
    error 'Subject' (or the weekend rejection when the window is
    refused). *)
Theorem X29_no_subject_never_scheduled (data : request) (w : Clock.wall) (n : nat) :
  enumerates list_set ->
  (forall ps window_start window_end, NoDup (keys (fetched ps window_start window_end))) ->
  req_Subject data = None ->
  exists k,
    (n <= k <= n + 3)%nat
    /\ (your_meeting_assistant fromisoformat list_set ai_agent fetched data w n
        = (Ok (_create_weekend_rejection_response data), k)
        \/ (your_meeting_assistant fromisoformat list_set ai_agent fetched data w n
            = (Ok (_create_error_response data "'Subject'"), k)
            /\ (n + 2 <= k)%nat)).
Proof.
  intros Hset Hnd Hs.
  pose proof (assistant_run data w n Hnd) as H. cbv zeta in H.
  destruct H as [(k & Hk & _ & ->) | (d & _ & [(Hps & _) | (r & k & _ & Hk & _ & _ & ->)])].
  - exists k. split; [lia | left; reflexivity].
  - exfalso. exact (parsed_participants_nonempty data Hset Hps).
  - exists k. split; [lia |]. right. rewrite Hs. split; [reflexivity | lia].
Qed.

(** X30 -- A request that has a Subject and whose lookup window is not
    refused is always scheduled: the response carries the metadata of
    the resolution that the resolver returns for the fetched calendars,
    whose action is the one its branch conditions select; EventStart is
    the recommended time, EventEnd the end computed from it,
    Duration_mins the text of the parsed duration, and there is one
    timeline for each parsed participant, in the order of the parsed
    list. *)
Theorem X30_subject_and_window_scheduled (data : request) (w : Clock.wall) (n : nat)
    (meeting_subject : string) (d : dict (list event)) :
  enumerates list_set ->
  (forall ps window_start window_end, NoDup (keys (fetched ps window_start window_end))) ->
  req_Subject data = Some meeting_subject ->
  let pr := _parse_meeting_request list_set ai_agent data in
  fst (_get_all_participants_events fetched pr w n) = Ok d ->
  exists r k resp timelines,
    resolve_scheduling_conflicts pr d (pr_meeting_duration pr) w (S n) = (Ok r, k)
    /\ your_meeting_assistant fromisoformat list_set ai_agent fetched data w n
       = (Ok resp, k)
    /\ action r = selected_action pr d
    /\ MetaData resp = _build_metadata r
    /\ Subject resp = meeting_subject
    /\ EventStart resp = recommended_time r
    /\ EventEnd resp
       = _calculate_end_time fromisoformat (recommended_time r) (pr_meeting_duration pr)
    /\ Duration_mins resp = PyStr.str_of_Z (pr_meeting_duration pr)
    /\ Attendees_ resp = Timelines timelines
    /\ map ae_email timelines = participants pr.
Proof.
  intros Hset Hnd Hs pr Hd.
  pose proof (assistant_run data w n Hnd) as H. cbv zeta in H. fold pr in H.
  destruct H as [(k & _ & E & _) | (d' & E & [(Hps & _) | (r & k & Hr & _ & Ha & Hdur & ->)])].
  - rewrite E in Hd. discriminate.
  - exfalso. exact (parsed_participants_nonempty data Hset Hps).
  - rewrite E in Hd. cbn [fst] in Hd. injection Hd as ->.
    rewrite Hs. unfold format_output. rewrite Hs, Hdur.
    exists r, k. do 2 eexists. split; [exact Hr |]. split; [reflexivity |].
    split; [exact Ha |]. cbn. repeat split.
    unfold _build_attendees_events. rewrite map_map. cbn [timeline ae_email].
    rewrite map_id. unfold pr. rewrite parse_participants. reflexivity.
Qed.

End AssistantAnswers.

Section AssistantAnswersExamples.
Import PyTime CalendarUtils ConflictResolver OutputFormatter MeetingAssistant Spec.

(** A mail asking for Thursday. *)
Lemma X26_named_day_mail_parsed_without_model_witness :
  _parse_meeting_request distinct (Some (fun _ => Raise (ValueError "no model")))
    thursday_mail
  = _manual_parse_request distinct thursday_mail.
Proof.
  apply (X26_named_day_mail_parsed_without_model distinct
           (Some (fun _ => Raise (ValueError "no model"))) thursday_mail).
  reflexivity.
Defined.

(** A mail asking for Saturday: rejected after five earlier calls of
    [datetime.now()] without a sixth. *)
Lemma X27_weekend_mail_rejected_unread_witness :
  your_meeting_assistant parse_iso distinct None (fun _ _ _ => two_busy) weekend_mail
    thursday_afternoon 5%nat
  = (Ok (_create_weekend_rejection_response weekend_mail), 5%nat).
Proof.
  apply (X27_weekend_mail_rejected_unread parse_iso distinct None
           (fun _ _ _ => two_busy) weekend_mail thursday_afternoon 5%nat).
  reflexivity.
Defined.

Lemma two_busy_NoDup : NoDup (keys two_busy).
Proof.
  cbn; repeat (apply NoDup_cons; [cbn; intuition discriminate |]); apply NoDup_nil.
Qed.

(** The Thursday mail with the calendars of the examples. *)
Lemma X28_assistant_always_answers_witness :
  exists resp k,
    your_meeting_assistant parse_iso distinct None (fun _ _ _ => two_busy)
      thursday_mail thursday_afternoon O = (Ok resp, k)
    /\ (0 <= k <= 3)%nat
    /\ Request_id resp = "r-18".
Proof.
  destruct (X28_assistant_always_answers parse_iso distinct None
              (fun _ _ _ => two_busy) thursday_mail thursday_afternoon O
              (fun _ _ _ => two_busy_NoDup))
    as (resp & k & Hrun & Hk & Hid & _).
  exists resp, k. split; [exact Hrun |]. split; [exact Hk | exact Hid].
Defined.

(** The Thursday mail without its Subject. *)
Lemma X29_no_subject_never_scheduled_witness :
  exists k,
    (0 <= k <= 3)%nat
    /\ (your_meeting_assistant parse_iso distinct None (fun _ _ _ => two_busy)
          (mkrequest (Some "r-19") None None (Some "a@x.com")
             (Some [mkattendee "b@x.com"]) None
             (Some "Can we meet on Thursday for half hour?"))
          thursday_afternoon O
        = (Ok (_create_weekend_rejection_response
                 (mkrequest (Some "r-19") None None (Some "a@x.com")
                    (Some [mkattendee "b@x.com"]) None
                    (Some "Can we meet on Thursday for half hour?"))), k)
        \/ (your_meeting_assistant parse_iso distinct None (fun _ _ _ => two_busy)
              (mkrequest (Some "r-19") None None (Some "a@x.com")
                 (Some [mkattendee "b@x.com"]) None
                 (Some "Can we meet on Thursday for half hour?"))
              thursday_afternoon O
            = (Ok (_create_error_response
                     (mkrequest (Some "r-19") None None (Some "a@x.com")
                        (Some [mkattendee "b@x.com"]) None
                        (Some "Can we meet on Thursday for half hour?"))
                     "'Subject'"), k)
            /\ (0 + 2 <= k)%nat)).
Proof.
  apply (X29_no_subject_never_scheduled parse_iso distinct None
           (fun _ _ _ => two_busy)
           (mkrequest (Some "r-19") None None (Some "a@x.com")
              (Some [mkattendee "b@x.com"]) None
              (Some "Can we meet on Thursday for half hour?"))
           thursday_afternoon O distinct_enumerates (fun _ _ _ => two_busy_NoDup)).
  reflexivity.
Defined.

(** The Thursday mail with the calendars of the examples. *)
Lemma X30_subject_and_window_scheduled_witness :
  exists r k resp,
    resolve_scheduling_conflicts
      (_parse_meeting_request distinct None thursday_mail) two_busy
      (pr_meeting_duration (_parse_meeting_request distinct None thursday_mail))
      thursday_afternoon 1%nat = (Ok r, k)
    /\ your_meeting_assistant parse_iso distinct None (fun _ _ _ => two_busy)
         thursday_mail thursday_afternoon O = (Ok resp, k)
    /\ MetaData resp = _build_metadata r
    /\ EventStart resp = recommended_time r.
Proof.
  destruct (X30_subject_and_window_scheduled parse_iso distinct None
              (fun _ _ _ => two_busy) thursday_mail thursday_afternoon O
              "Project sync" two_busy distinct_enumerates
              (fun _ _ _ => two_busy_NoDup) eq_refl)
    as (r & k & resp & tls & Hr & Hrun & _ & Hm & _ & Hs & _);
    [vm_compute; reflexivity |].
  exists r, k, resp. repeat split; assumption.
Defined.

End AssistantAnswersExamples.
